(** * Mosaic TPU custom calls: the backend-config encoder, the lowering
    pipeline and the call emitter of [jax/_src/tpu_custom_call.py].

    The Python module is embedded function by function.  Python [str] and
    [bytes] values are strings of code points below 256, Python [int] is
    [Z], exceptions are values of [exn] carried by the left side of a sum,
    and the [io.BytesIO] buffer that [to_json] fills is a writer: every
    [config.write] appends to what was written before. *)

From Stdlib Require Import String Ascii List ZArith Lia Bool.
From Stdlib Require Decimal DecimalString DecimalZ DecimalPos.
Import ListNotations.

Open Scope list_scope.
Open Scope string_scope.

(* ===================================================================== *)
(** * Python values and built-ins                                          *)
(* ===================================================================== *)

Definition bytes := string.

(** The exceptions the module raises, or lets escape. *)
Inductive exn : Type :=
| ValueError (msg : string)
| NotImplementedError (msg : string)
| UnicodeEncodeError
| IndexError
| MLIRError (pipeline : string)
| RuntimeError
| OSError.

Definition result (A : Type) : Type := (exn + A)%type.

(** Plain fallible code: the error monad on [result]. *)
Definition rbind {A B} (r : result A) (f : A -> result B) : result B :=
  match r with
  | inl e => inl e
  | inr x => f x
  end.

Declare Scope result_scope.
Delimit Scope result_scope with result.
Notation "x <- m ;; k" := (rbind m (fun x => k))
  (at level 61, m at next level, right associativity) : result_scope.
Notation "m ;; k" := (rbind m (fun _ => k))
  (at level 61, right associativity) : result_scope.

(** [if c: raise e], as a statement. *)
Definition raise_if (c : bool) (e : exn) : result unit :=
  if c then inl e else inr tt.

(** The double quote, and byte literals.  A literal is written with the
    apostrophe standing for the double quote, so the source's
    [b', "collective_id": '] reads [b ", 'collective_id': "]; no literal
    of the source holds an apostrophe of its own. *)
Definition dq : ascii := "034"%char.

Definition unquote (c : ascii) : ascii :=
  if Ascii.eqb c "'"%char then dq else c.

Fixpoint b (s : string) : bytes :=
  match s with
  | EmptyString => EmptyString
  | String c s' => String (unquote c) (b s')
  end.

Module Py.

(** [str(True)] and [str(False)]. *)
Definition str_bool (v : bool) : string := if v then "True" else "False".

(** The decimal numeral of an [int]: its digits, behind a minus sign for a
    negative number. *)
Definition decimal (n : Z) : string :=
  DecimalString.NilZero.string_of_int (Z.to_int n).

(** [sys.get_int_max_str_digits()], at its default: the most digits an
    [int] may have to be turned into a string. *)
Definition int_max_str_digits : Z := 4300.

(** The number of digits of [n], the sign apart. *)
Definition digits (n : Z) : Z := Z.of_nat (String.length (decimal (Z.abs n))).

Definition printable (n : Z) : bool := (digits n <=? int_max_str_digits)%Z.

Definition digit_limit_error : exn :=
  ValueError
    ("Exceeds the limit (4300 digits) for integer string conversion;"
     ++ " use sys.set_int_max_str_digits() to increase the limit").

(** [str(n)] for an [int], and the text of a replacement field [{n}] of an
    f-string: the decimal numeral, and [ValueError] for a number with more
    digits than the limit. *)
Definition str_int (n : Z) : result string :=
  if printable n then inr (decimal n) else inl digit_limit_error.

(** An f-string, by its parts in order: literal text, and replacement fields
    [{n}] for an [int] [n].  The fields are formatted from left to right. *)
Inductive part : Type :=
| Text (s : string)
| Field (n : Z).

Fixpoint fstring (parts : list part) : result string :=
  match parts with
  | [] => inr EmptyString
  | Text s :: rest =>
      (text <- fstring rest ;; inr (s ++ text))%result
  | Field n :: rest =>
      (s <- str_int n ;; text <- fstring rest ;; inr (s ++ text))%result
  end.

Definition is_upper (c : ascii) : bool :=
  (65 <=? nat_of_ascii c)%nat && (nat_of_ascii c <=? 90)%nat.

Definition is_lower (c : ascii) : bool :=
  (97 <=? nat_of_ascii c)%nat && (nat_of_ascii c <=? 122)%nat.

Definition is_ascii (c : ascii) : bool := (nat_of_ascii c <? 128)%nat.

(** [s.lower()], on the ASCII letters (the source lowers only the text of
    [str(bool)] and [str(int)]). *)
Fixpoint lower (s : string) : string :=
  match s with
  | EmptyString => EmptyString
  | String c s' =>
      String (if is_upper c then ascii_of_nat (nat_of_ascii c + 32) else c)
             (lower s')
  end.

(** [s.upper()].  Below 128 only [a]..[z] change.  The sharp s (223) becomes
    the two letters [SS]; every other code point from 128 up stays outside
    ASCII under [upper] and is kept as it is. *)
Fixpoint upper (s : string) : string :=
  match s with
  | EmptyString => EmptyString
  | String c s' =>
      if is_lower c then String (ascii_of_nat (nat_of_ascii c - 32)) (upper s')
      else if Ascii.eqb c "223"%char then String "S" (String "S" (upper s'))
      else String c (upper s')
  end.

Fixpoint all_chars (p : ascii -> bool) (s : string) : bool :=
  match s with
  | EmptyString => true
  | String c s' => p c && all_chars p s'
  end.

(** [s.encode("ascii")]. *)
Definition encode_ascii (s : string) : result bytes :=
  if all_chars is_ascii s then inr s else inl UnicodeEncodeError.

(** The characters of [str(n)] for an [int]: digits and the minus sign. *)
Definition int_char (c : ascii) : bool :=
  ((48 <=? nat_of_ascii c)%nat && (nat_of_ascii c <=? 57)%nat)
  || Ascii.eqb c "-".

(** [s.startswith(p)]. *)
Definition startswith (s p : string) : bool := String.prefix p s.

(** [sep.join(l)]. *)
Definition join (sep : string) (l : list string) : string := String.concat sep l.

(** [s.split(",")] for a one-character separator: never the empty list. *)
Fixpoint split (sep : ascii) (s : string) : list string :=
  match s with
  | EmptyString => [EmptyString]
  | String c s' =>
      if Ascii.eqb c sep then EmptyString :: split sep s'
      else match split sep s' with
           | [] => [String c EmptyString]
           | w :: ws => String c w :: ws
           end
  end.

Definition hex_digit (n : nat) : ascii :=
  match String.get n "0123456789abcdef" with
  | Some c => c
  | None => "0"%char
  end.

(** [c.isprintable()] for a code point below 256: the ASCII characters from
    the space to the tilde, and the code points from 161 up but the soft
    hyphen (173). *)
Definition isprintable (c : ascii) : bool :=
  let n := nat_of_ascii c in
  ((32 <=? n)%nat && (n <? 127)%nat) || ((161 <=? n)%nat && negb (n =? 173)%nat).

(** [repr(c)] for a one-character string: the character between
    apostrophes, or between double quotes when it is the apostrophe, with
    the backslash doubled, the tab, the newline and the carriage return
    written as [\t], [\n] and [\r], and any other character that is not
    printable as [\x] and its two hexadecimal digits. *)
Definition repr_char (c : ascii) : string :=
  let n := nat_of_ascii c in
  if Ascii.eqb c "'" then String dq (String "'" (String dq EmptyString))
  else if Ascii.eqb c "\" then "'\\'"
  else if (n =? 9)%nat then "'\t'"
  else if (n =? 10)%nat then "'\n'"
  else if (n =? 13)%nat then "'\r'"
  else if isprintable c then String "'" (String c "'")
  else "'\x" ++ String (hex_digit (n / 16)) (String (hex_digit (n mod 16)) "'").

(** [int(c)] for a one-character string.  Of the code points below 256,
    which are the characters of this development, [int] reads the ten
    ASCII digits only; its error shows [repr(c)]. *)
Definition int_of_char (c : ascii) : result Z :=
  if (48 <=? nat_of_ascii c)%nat && (nat_of_ascii c <=? 57)%nat
  then inr (Z.of_nat (nat_of_ascii c - 48))
  else inl (ValueError
             ("invalid literal for int() with base 10: " ++ repr_char c)).

End Py.

(* ===================================================================== *)
(** * base64.b64encode                                                     *)
(* ===================================================================== *)

Module base64.

Definition alphabet : string :=
  "ABCDEFGHIJKLMNOPQRSTUVWXYZabcdefghijklmnopqrstuvwxyz0123456789+/".

Definition digit (n : nat) : ascii :=
  match String.get (n mod 64) alphabet with
  | Some c => c
  | None => "A"%char
  end.

(** Three bytes make four digits; one or two trailing bytes are padded
    with [=]. *)
Fixpoint b64encode (s : bytes) : bytes :=
  match s with
  | EmptyString => EmptyString
  | String x EmptyString =>
      let n := nat_of_ascii x in
      String (digit (n / 4)) (String (digit (n mod 4 * 16)) "==")
  | String x (String y EmptyString) =>
      let n := nat_of_ascii x in
      let m := nat_of_ascii y in
      String (digit (n / 4))
        (String (digit (n mod 4 * 16 + m / 16))
           (String (digit (m mod 16 * 4)) "="))
  | String x (String y (String z rest)) =>
      let n := nat_of_ascii x in
      let m := nat_of_ascii y in
      let k := nat_of_ascii z in
      String (digit (n / 4))
        (String (digit (n mod 4 * 16 + m / 16))
           (String (digit (m mod 16 * 4 + k / 64))
              (String (digit (k mod 64)) (b64encode rest))))
  end.

End base64.

(* ===================================================================== *)
(** * The BytesIO writer                                                   *)
(* ===================================================================== *)

(** A computation that writes to the buffer and may raise: either the
    exception, or its value with the bytes it wrote. *)
Definition W (A : Type) : Type := result (A * bytes).

Definition ret {A} (x : A) : W A := inr (x, EmptyString).

Definition bind {A B} (m : W A) (f : A -> W B) : W B :=
  match m with
  | inl e => inl e
  | inr (x, o1) =>
      match f x with
      | inl e => inl e
      | inr (y, o2) => inr (y, o1 ++ o2)
      end
  end.

Definition raise {A} (e : exn) : W A := inl e.

(** [config.write(data)]. *)
Definition write (data : bytes) : W unit := inr (tt, data).

(** A value computed outside the buffer, whose exception escapes. *)
Definition lift {A} (r : result A) : W A :=
  match r with
  | inl e => inl e
  | inr x => inr (x, EmptyString)
  end.

(** [config.getvalue()] of a buffer created empty. *)
Definition getvalue (m : W unit) : result bytes :=
  match m with
  | inl e => inl e
  | inr (_, o) => inr o
  end.

Declare Scope writer_scope.
Delimit Scope writer_scope with writer.
Notation "x <- m ;; k" := (bind m (fun x => k))
  (at level 61, m at next level, right associativity) : writer_scope.
Notation "m ;; k" := (bind m (fun _ => k))
  (at level 61, right associativity) : writer_scope.

(** [if c: body]. *)
Definition when (c : bool) (body : W unit) : W unit :=
  if c then body else ret tt.

(** [if x is not None: body(x)]. *)
Definition when_some {A} (x : option A) (body : A -> W unit) : W unit :=
  match x with
  | Some v => body v
  | None => ret tt
  end.

(** [for i, x in enumerate(l): body(i, x)], started at index [i]. *)
Fixpoint for_enumerate {A} (i : nat) (l : list A) (body : nat -> A -> W unit)
  : W unit :=
  match l with
  | [] => ret tt
  | x :: l' => bind (body i x) (fun _ => for_enumerate (S i) l' body)
  end.

(** [config.write(text.encode("ascii"))]. *)
Definition write_ascii (text : string) : W unit :=
  bind (lift (Py.encode_ascii text)) write.

(* ===================================================================== *)
(** * Flag values                                                          *)
(* ===================================================================== *)

(** The characters of [str(x)] for a float [x]: digits, the point, the
    exponent mark and its sign, and the letters of [inf] and [nan]. *)
Definition float_char (c : ascii) : bool :=
  ((48 <=? nat_of_ascii c)%nat && (nat_of_ascii c <=? 57)%nat)
  || existsb (Ascii.eqb c) (list_ascii_of_string ".e+-infa").

(** A Python float is carried by the text [str] prints for it, the one
    observation the encoder makes of it. *)
Record pyfloat : Type := {
  float_str : string;
  float_str_ok : Is_true (Py.all_chars float_char float_str)
}.

(** What a flag's value can be at run time: the three types the annotation
    [dict[str, bool | int | float]] names and, since nothing enforces it,
    values of other types ([str] and [None] stand for them). *)
Inductive pyval : Type :=
| VBool (v : bool)
| VInt (n : Z)
| VFloat (x : pyfloat)
| VStr (s : string)
| VNone.

(** [isinstance(value, bool)], [isinstance(value, int)] (a [bool] is an
    [int]) and [isinstance(value, float)]. *)
Definition isinstance_bool (value : pyval) : bool :=
  match value with VBool _ => true | _ => false end.

Definition isinstance_int (value : pyval) : bool :=
  match value with VBool _ | VInt _ => true | _ => false end.

Definition isinstance_float (value : pyval) : bool :=
  match value with VFloat _ => true | _ => false end.

(** The truth value of [value], as [x if value else y] tests it. *)
Definition truth (value : pyval) : bool :=
  match value with
  | VBool v => v
  | VInt n => negb (n =? 0)%Z
  | VFloat x => negb ((float_str x =? "0.0") || (float_str x =? "-0.0"))
  | VStr s => negb (s =? "")
  | VNone => false
  end.

(** [str(value)]. *)
Definition str (value : pyval) : result string :=
  match value with
  | VBool v => inr (Py.str_bool v)
  | VInt n => Py.str_int n
  | VFloat x => inr (float_str x)
  | VStr s => inr s
  | VNone => inr "None"
  end.

(* ===================================================================== *)
(** * CostEstimate and CustomCallBackendConfig                             *)
(* ===================================================================== *)

Module CostEstimate.

Record t : Type := {
  flops : Z;
  transcendentals : Z;
  bytes_accessed : Z
}.

Definition to_json (self : t) : result bytes :=
  (text <- Py.fstring [
     Py.Text (b "{'flops': "); Py.Field self.(flops);
     Py.Text (b ", 'transcendentals': "); Py.Field self.(transcendentals);
     Py.Text (b ",");
     Py.Text (b " 'bytes_accessed': "); Py.Field self.(bytes_accessed);
     Py.Text (b "}")
   ] ;;
   Py.encode_ascii text)%result.

End CostEstimate.

Module CustomCallBackendConfig.

(** The unserialized backend config.  [flags] is a [dict], which keeps its
    items in insertion order: a list of items. *)
Record t : Type := {
  lowered_module_asm : bytes;
  has_communication : bool;
  collective_id : option Z;
  device_type : option string;
  cost_estimate : option CostEstimate.t;
  needs_hlo_passes : bool;
  needs_layout_passes : bool;
  vmem_limit_bytes : option Z;
  flags : option (list (string * pyval));
  allow_input_fusion : option (list bool);
  serialization_format : option Z;
  internal_scratch_in_bytes : option Z
}.

(** The writes of [to_json], statement by statement. *)
Definition to_json_writes (self : t) : W unit :=
  (write (b "{'custom_call_config': {'body': '") ;;
   write (base64.b64encode self.(lowered_module_asm)) ;;
   write (b "'") ;;
   when self.(has_communication) (
     write (b ", 'has_communication': ") ;;
     write_ascii (Py.lower (Py.str_bool self.(has_communication)))) ;;
   when_some self.(collective_id) (fun collective_id =>
     write (b ", 'collective_id': ") ;;
     text <- lift (Py.str_int collective_id) ;;
     write_ascii text) ;;
   when_some self.(cost_estimate) (fun cost_estimate =>
     write (b ", 'cost_estimate': ") ;;
     bind (lift (CostEstimate.to_json cost_estimate)) write) ;;
   when self.(needs_hlo_passes) (
     write (b ", 'needs_hlo_passes': ") ;;
     write_ascii (Py.lower (Py.str_bool self.(needs_hlo_passes)))) ;;
   when_some self.(serialization_format) (fun serialization_format =>
     write (b ", 'serialization_format': ") ;;
     text <- lift (Py.str_int serialization_format) ;;
     write_ascii (Py.lower text)) ;;
   when self.(needs_layout_passes) (
     write (b ", 'needs_layout_passes': ") ;;
     write_ascii (Py.lower (Py.str_bool self.(needs_layout_passes)))) ;;
   when_some self.(allow_input_fusion) (fun allow_input_fusion =>
     write (b ", 'allow_input_fusion': [") ;;
     for_enumerate 0 allow_input_fusion (fun i value =>
       write (if value then b "true" else b "false") ;;
       when (negb (i + 1 =? List.length allow_input_fusion)%nat)
         (write (b ","))) ;;
     write (b "]")) ;;
   when_some self.(internal_scratch_in_bytes) (fun internal_scratch_in_bytes =>
     write (b ", 'internal_scratch_in_bytes': ") ;;
     text <- lift (Py.str_int internal_scratch_in_bytes) ;;
     write_ascii text) ;;
   write (b "}") ;;
   when_some self.(device_type) (fun device_type =>
     write (b ", 'device_type': ") ;;
     write_ascii (b "'DEVICE_TYPE_" ++ Py.upper device_type ++ b "'")) ;;
   when_some self.(vmem_limit_bytes) (fun vmem_limit_bytes =>
     write (b ", 'scoped_memory_configs': [{'memory_space':1, 'offset': 0,"
            ++ b " 'size': ") ;;
     text <- lift (Py.str_int vmem_limit_bytes) ;;
     write_ascii text ;;
     write (b "}]")) ;;
   when_some self.(flags) (fun flags =>
     write (b ", 'flag_configs': [") ;;
     for_enumerate 0 flags (fun i item =>
       let '(flag, value) := item in
       write (b "{'flag_type': '") ;;
       write_ascii flag ;;
       write (b "', value: {") ;;
       (if isinstance_bool value then
          write (b "'boolean_value': ") ;;
          write (if truth value then b "true" else b "false")
        else if isinstance_int value then
          write (b "'integer_value': ") ;;
          text <- lift (str value) ;;
          write_ascii text
        else if isinstance_float value then
          write (b "'double_value': ") ;;
          text <- lift (str value) ;;
          write_ascii text
        else
          text <- lift (str value) ;;
          raise (ValueError ("invalid flag value: " ++ text))) ;;
       write (b "}}") ;;
       when (negb (i + 1 =? List.length flags)%nat) (write (b ","))) ;;
     write (b "]")) ;;
   write (b ", 'implicit_sharding': {'type': 'MANUAL'}") ;;
   write (b "}"))%writer.

(** Serializes the backend config into JSON. *)
Definition to_json (self : t) : result bytes := getvalue (to_json_writes self).

End CustomCallBackendConfig.

(* ===================================================================== *)
(** * Equality of configs                                                  *)
(* ===================================================================== *)




(** [d[k]], [None] when the key is missing. *)
Fixpoint dict_get (k : string) (d : list (string * pyval)) : option pyval :=
  match d with
  | [] => None
  | (k', v) :: d' => if k =? k' then Some v else dict_get k d'
  end.





(* ===================================================================== *)
(** * Config construction                                                  *)
(* ===================================================================== *)

Definition is_none {A} (x : option A) : bool :=
  match x with None => true | Some _ => false end.

(** A value that is no [int]: a [float] or a [str], which stand for the
    values of every type other than [int] and its subclasses. *)
Inductive non_int : Type :=
| AFloat (x : pyfloat)
| AStr (s : string).

(** The name of the type, as [type(value)] prints it between
    [<class '] and ['>]. *)
Definition type_name (value : non_int) : string :=
  match value with
  | AFloat _ => "float"
  | AStr _ => "str"
  end.

(** What a caller gives for [vmem_limit_bytes] when it is not [None]: an
    [int], or a value of another type.  ([isinstance(value, int)] holds of
    a [bool] too; a [bool] is left out of the model, as it is for the other
    [int] fields of the config.) *)
Inductive vmem_limit : Type :=
| AnInt (n : Z)
| NotAnInt (value : non_int).

(** The arguments are keyword-only in the source; they keep its names. *)
Definition _lowered_to_custom_call_config
    (lowered_module_asm : bytes)
    (vmem_limit_bytes : option vmem_limit)
    (cost_estimate : option CostEstimate.t)
    (flags : option (list (string * pyval)))
    (allow_input_fusion : option (list bool))
    (internal_scratch_in_bytes : option Z)
    (collective_id : option Z)
    (serialization_format : option Z)
    (has_custom_barrier : bool)
    (has_communication : bool)
    (needs_hlo_passes : bool)
    (needs_layout_passes : bool)
    (device_type : option string)
  : result CustomCallBackendConfig.t :=
  ((if has_custom_barrier then
      raise_if (is_none collective_id)
        (ValueError
           "collective_id has to be specified when using a custom barrier")
    else
      raise_if (negb (is_none collective_id))
        (ValueError
           ("collective_id has to be unspecified or None when not using a custom"
            ++ " barrier"))) ;;
   vmem_limit_bytes <-
     match vmem_limit_bytes with
     | Some (NotAnInt value) =>
         inl (ValueError
                ("vmem_limit_bytes must be an int: provided with a"
                 ++ " <class '" ++ type_name value ++ "'>."))
     | Some (AnInt n) => inr (Some n)
     | None => inr None
     end ;;
   inr {|
     CustomCallBackendConfig.lowered_module_asm := lowered_module_asm;
     CustomCallBackendConfig.has_communication := has_communication;
     CustomCallBackendConfig.collective_id := collective_id;
     CustomCallBackendConfig.device_type := device_type;
     CustomCallBackendConfig.cost_estimate := cost_estimate;
     CustomCallBackendConfig.needs_hlo_passes := needs_hlo_passes;
     CustomCallBackendConfig.needs_layout_passes := needs_layout_passes;
     CustomCallBackendConfig.vmem_limit_bytes := vmem_limit_bytes;
     CustomCallBackendConfig.flags := flags;
     CustomCallBackendConfig.allow_input_fusion := allow_input_fusion;
     CustomCallBackendConfig.serialization_format := serialization_format;
     CustomCallBackendConfig.internal_scratch_in_bytes := internal_scratch_in_bytes
   |})%result.

(* ===================================================================== *)
(** * The call emitter                                                     *)
(* ===================================================================== *)

(** An abstract value: its shape, a dimension being a constant or a
    symbolic size ([None]). *)
Record aval : Type := { shape : list (option Z) }.

Definition ndim (a : aval) : nat := List.length a.(shape).

(** [core.is_constant_shape]. *)
Definition is_constant_shape (s : list (option Z)) : bool :=
  forallb (fun d => negb (is_none d)) s.

(** [tuple(range(a.ndim - 1, -1, -1))] for every aval. *)
Definition _avals_to_layouts (avals : list aval) : list (list nat) :=
  map (fun a => List.rev (seq 0 (ndim a))) avals.

(** The axis contexts of [sharding_impls]; a frozenset of axis names is a
    list read as a set. *)
Inductive axis_context : Type :=
| SPMDAxisContext (mesh_axis_names : list string) (manual_axes : list string)
| ShardingContext (num_devices : Z)
| ReplicaAxisContext.

(** Equality of two sets of names, [==] on frozensets. *)
Definition set_incl (l1 l2 : list string) : bool :=
  forallb (fun x => existsb (String.eqb x) l2) l1.

Definition set_eqb (l1 l2 : list string) : bool :=
  set_incl l1 l2 && set_incl l2 l1.

(** [dict(pairs)]: a later pair with a key already there replaces its value. *)
Fixpoint dict_set (k v : nat) (d : list (nat * nat)) : list (nat * nat) :=
  match d with
  | [] => [(k, v)]
  | (k', v') :: d' => if (k =? k')%nat then (k, v) :: d' else (k', v') :: dict_set k v d'
  end.

Definition dict (pairs : list (nat * nat)) : list (nat * nat) :=
  fold_left (fun d kv => dict_set (fst kv) (snd kv) d) pairs [].

(** What the rule reads of its [ctx]. *)
Record LoweringRuleContext : Type := {
  ctx_axis_context : axis_context;
  avals_in : list aval;
  avals_out : list aval
}.

(** The custom call built by [mlir.custom_call], by its keyword arguments.
    Operands are IR values, named by numbers. *)
Record custom_call : Type := {
  call_target_name : string;
  result_types : list aval;
  operands : list nat;
  backend_config : bytes;
  api_version : Z;
  operand_output_aliases : list (nat * nat);
  operand_layouts : list (list nat);
  result_layouts : list (list nat);
  result_shapes : option (list (list (option Z)));
  extra_attributes : option (list (string * string))
}.

Definition partitioning_message : string :=
  "Mosaic kernels cannot be automatically partitioned. Please wrap the"
  ++ " call in a shard_map.".

Definition _tpu_custom_call_lowering
    (ctx : LoweringRuleContext)
    (in_nodes : list nat)
    (config : CustomCallBackendConfig.t)
    (kernel_name : option string)
    (out_avals : list aval)
    (input_output_aliases : list (nat * nat))
  : result custom_call :=
  (let result_types := out_avals in
   let axis_context := ctx.(ctx_axis_context) in
   match axis_context with
   | SPMDAxisContext mesh_axis_names manual_axes =>
       raise_if (negb (set_eqb manual_axes mesh_axis_names))
         (NotImplementedError partitioning_message)
   | ShardingContext num_devices =>
       raise_if (negb (num_devices =? 1)%Z)
         (NotImplementedError partitioning_message)
   | ReplicaAxisContext =>
       raise_if config.(CustomCallBackendConfig.has_communication)
         (NotImplementedError
            "Replica lowering for Mosaic kernels not implemented.")
   end ;;
   let result_shapes :=
     if forallb (fun aval_out => is_constant_shape aval_out.(shape))
          ctx.(avals_out)
     then None
     else Some (map shape ctx.(avals_out)) in
   let extra_attributes :=
     match kernel_name with
     | Some name => Some [("kernel_name", name)]
     | None => None
     end in
   backend_config <- CustomCallBackendConfig.to_json config ;;
   inr {|
     call_target_name := "tpu_custom_call";
     result_types := result_types;
     operands := in_nodes;
     backend_config := backend_config;
     api_version := 1;
     operand_output_aliases := dict input_output_aliases;
     operand_layouts := _avals_to_layouts ctx.(avals_in);
     result_layouts := _avals_to_layouts ctx.(avals_out);
     result_shapes := result_shapes;
     extra_attributes := extra_attributes
   |})%result.

(* ===================================================================== *)
(** * The lowering pipeline                                                *)
(* ===================================================================== *)

(** What the module reads from its surroundings: the MLIR bindings, the
    device list, the two config states and the absl flags.  The passes are
    opaque; only their pipeline text and order are the module's doing. *)
Class Runtime : Type := {
  ir_Module : Type;
  (** [module.operation.verify()]; [false] when it raises [ir.MLIRError]. *)
  verify : ir_Module -> bool;
  (** [PassManager.parse(pipeline).run(module.operation)], which rewrites the
      module in place; [None] when it raises. *)
  pass_manager_run : string -> ir_Module -> option ir_Module;
  (** [ir.Module.parse(module.operation.get_asm(binary=True, ...))]. *)
  parse_asm : ir_Module -> ir_Module;
  (** [module.operation.write_bytecode(buffer, desired_version=0)]. *)
  write_bytecode : ir_Module -> bytes;
  (** [tpu.private_has_communication(module.operation)]. *)
  private_has_communication : ir_Module -> bool * bool;
  (** [jax.devices(backend)], by the [device_kind] of its first device and
      of the others: the list it returns is never empty; [None] when it
      raises [RuntimeError], as it does for a backend without devices. *)
  jax_devices : string -> option (string * list string);
  (** [_MOSAIC_USE_PYTHON_PIPELINE.value] and [_MOSAIC_ALLOW_HLO.value]. *)
  _MOSAIC_USE_PYTHON_PIPELINE : bool;
  _MOSAIC_ALLOW_HLO : bool;
  (** [FLAGS[name].value]: [None] when the lookup raises [KeyError], else the
      flag's value, a string or Python's [None]. *)
  FLAGS : string -> option (option string);
  (** [os.environ.get(name, None)]. *)
  environ : string -> option string;
  (** [open(path, "w")] and [f.write(str(module))] for the dump [name] of
      [module], [path] being under the directory [outdir]: [None] when the
      file is written, and else the exception they raise, an [OSError] for
      a directory that is missing or cannot be written. *)
  write_dump : string -> string -> ir_Module -> option exn
}.

(** What lowering does to the world, in order. *)
Inductive event : Type :=
| Ran (pipeline : string)
| Dumped (name : string).

(** Lowering code: it may raise, and it leaves a trace, also when it
    raises. *)
Definition L (A : Type) : Type := list event -> result A * list event.

Definition lret {A} (x : A) : L A := fun log => (inr x, log).

Definition lbind {A B} (m : L A) (f : A -> L B) : L B :=
  fun log =>
    match m log with
    | (inl e, log') => (inl e, log')
    | (inr x, log') => f x log'
    end.

Definition lraise {A} (e : exn) : L A := fun log => (inl e, log).

Definition emit (ev : event) : L unit := fun log => (inr tt, (log ++ [ev])%list).

Definition llift {A} (r : result A) : L A := fun log => (r, log).

Declare Scope lower_scope.
Delimit Scope lower_scope with lower.
Notation "x <- m ;; k" := (lbind m (fun x => k))
  (at level 61, m at next level, right associativity) : lower_scope.
Notation "m ;; k" := (lbind m (fun _ => k))
  (at level 61, right associativity) : lower_scope.

(** The truth value of an optional string: [None] and the empty string are
    false. *)
Definition truthy (x : option string) : bool :=
  match x with
  | Some s => negb (s =? "")
  | None => false
  end.

(** [set(l)], [s.discard(x)] and [bool(s)] for sets of strings, a set being a
    list without repeats.  Python fixes no order on the items of a set; the
    list keeps one. *)
Definition set_of (l : list string) : list string := nodup string_dec l.

Definition discard (x : string) (s : list string) : list string :=
  remove string_dec x s.

Definition nonempty (s : list string) : bool :=
  match s with [] => false | _ :: _ => true end.

(** [f"builtin.module({','.join(pipeline)})"]. *)
Definition builtin_module (pipeline : list string) : string :=
  "builtin.module(" ++ Py.join "," pipeline ++ ")".

Section Lowering.

Context {R : Runtime}.

(** [pipeline = PassManager.parse(text); pipeline.run(module.operation)]. *)
Definition run_pipeline (text : string) (module : ir_Module) : L ir_Module :=
  (emit (Ran text) ;;
   match pass_manager_run text module with
   | Some module' => lret module'
   | None => lraise (MLIRError text)
   end)%lower.

(** A helper function to dump mosaic mlir module.  The file is opened and
    written outside any [try]: what that raises escapes. *)
Definition dump_mlir (module : ir_Module) (name : string) : L unit :=
  match FLAGS "xla_mosaic_dump_to" with
  | None => lret tt
  | Some should_dump =>
      if match should_dump with Some v => v =? "sponge" | None => false end
      then
        match environ "TEST_UNDECLARED_OUTPUTS_DIR" with
        | Some outdir =>
            if negb (outdir =? "") then
              match write_dump outdir name module with
              | None => emit (Dumped name)
              | Some e => lraise e
              end
            else lret tt
        | None => lret tt
        end
      else lret tt
  end.

(** The on-device checks of [_lower_tpu_kernel]: the lookup of the flag
    (a [KeyError] gives [False], read here as [None]: both are false) and the
    [if checks := on_device_checks:] statement. *)
Definition on_device_checks_stage (module : ir_Module) : L ir_Module :=
  (let on_device_checks :=
     match FLAGS "xla_mosaic_on_device_checks" with
     | Some value => value
     | None => None
     end in
   match on_device_checks with
   | Some checks =>
       if negb (checks =? "") then
         let checks := set_of (Py.split "," checks) in
         if set_eqb checks ["bounds"] then
           module <- run_pipeline
                       "builtin.module(func.func(debug-assert-insertion))" module ;;
           dump_mlir module "post-assert-insertion" ;;
           lret module
         else if nonempty checks then
           let checks := discard "bounds" checks in
           lraise (ValueError ("Unrecognized on-device check categories: "
                               ++ Py.join ", " checks))
         else lret module
       else lret module
   | None => lret module
   end)%lower.

(** Runs MLIR passes lowering the given module to an MLIR module. *)
Definition _lower_tpu_kernel (module : ir_Module) (hardware_generation : Z)
  : L ir_Module :=
  ((if verify module then lret tt
    else lraise (ValueError "The compiled module fails MLIR verification")) ;;
   dump_mlir module "original" ;;
   module <-
     (if _MOSAIC_ALLOW_HLO then
        let pipeline := [
          "hlo-legalize-to-arithmetic";
          "func.func(hlo-legalize-to-linalg)";
          "func.func(linalg-vectorization)"
        ] in
        module <- run_pipeline (builtin_module pipeline) module ;;
        dump_mlir module "post-hlo-conversion" ;;
        lret module
      else lret module) ;;
   text <- llift (Py.fstring [
     Py.Text "func.func(tpu-infer-memref-layout{hardware-generation=";
     Py.Field hardware_generation;
     Py.Text "})"
   ]) ;;
   let pipeline := [
     text
   ] in
   module <- run_pipeline (builtin_module pipeline) module ;;
   dump_mlir module "post-infer-memref-layout" ;;
   let pipeline := [
     "canonicalize";
     "cse"
   ] in
   module <- run_pipeline (builtin_module pipeline) module ;;
   dump_mlir module "post-infer-memref-layout-simplify" ;;
   module <- on_device_checks_stage module ;;
   let pipeline := [
     "func.func(tpu-canonicalize-mosaic{})"
   ] in
   module <- run_pipeline (builtin_module pipeline) module ;;
   dump_mlir module "post-canonicalize-mosaic" ;;
   let pipeline := [
     "func.func(tpu-infer-vector-layout{sublane-count=8 lane-count=128})"
   ] in
   module <- run_pipeline (builtin_module pipeline) module ;;
   dump_mlir module "post-infer-vector-layout" ;;
   let sl_cnt := 8%Z in
   let l_cnt := 128%Z in
   let mxu_size := if (hardware_generation <? 6)%Z then 128%Z else 256%Z in
   text <- llift (Py.fstring [
     Py.Text "func.func(tpu-apply-vector-layout{";
     Py.Text " sublane-count="; Py.Field sl_cnt;
     Py.Text " lane-count="; Py.Field l_cnt;
     Py.Text " hardware-generation="; Py.Field hardware_generation;
     Py.Text " mxu-contracting-size="; Py.Field mxu_size;
     Py.Text " mxu-noncontracting-size="; Py.Field mxu_size;
     Py.Text " max-sublanes-in-scratch="; Py.Field (sl_cnt * (sl_cnt + 1));
     Py.Text "})"
   ]) ;;
   let pipeline := [
     text
   ] in
   module <- run_pipeline (builtin_module pipeline) module ;;
   dump_mlir module "post-apply-vector-layout" ;;
   let pipeline := [
     "canonicalize";
     "cse"
   ] in
   module <- run_pipeline (builtin_module pipeline) module ;;
   dump_mlir module "post-apply-vector-layout-simplify" ;;
   lret module)%lower.

(** The hardware generation read off a device kind: the source's
    [startswith] test and [int(device_kind[len("TPU v")])]. *)
Definition hardware_generation_of (device_kind : string) : result Z :=
  (raise_if (negb (Py.startswith device_kind "TPU v"))
     (ValueError
        ("Unrecognized TPU device kind: " ++ device_kind ++ ". "
         ++ "tpu_custom_call cannot be lowered on a machine without TPUs "
         ++ "when mosaic_use_python_pipeline=True.")) ;;
   c <- match String.get (String.length "TPU v") device_kind with
        | Some c => inr c
        | None => inl IndexError
        end ;;
   Py.int_of_char c)%result.

Definition _lower_mosaic_module_to_asm
    (module : ir_Module) (backend : string) (device_type : option string)
  : L (bytes * (bool * bool * bool * bool)) :=
  (let '(has_communication, has_custom_barrier) :=
     private_has_communication module in
   let needs_hlo_passes := _MOSAIC_ALLOW_HLO in
   let needs_layout_passes := negb (truthy device_type) in
   let module := parse_asm module in
   lowered <-
     (if needs_layout_passes && _MOSAIC_USE_PYTHON_PIPELINE then
        device_kind <- llift (match jax_devices backend with
                              | Some (some_tpu, _) => inr some_tpu
                              | None => inl RuntimeError
                              end) ;;
        hardware_generation <- llift (hardware_generation_of device_kind) ;;
        module <- _lower_tpu_kernel module hardware_generation ;;
        lret (module, false, false)
      else lret (module, needs_hlo_passes, needs_layout_passes)) ;;
   let '(module, needs_hlo_passes, needs_layout_passes) := lowered in
   module <- run_pipeline "builtin.module(mosaic-serde{serialize=true})" module ;;
   let asm := write_bytecode module in
   lret (asm,
         (has_communication,
          has_custom_barrier,
          needs_hlo_passes,
          needs_layout_passes)))%lower.

Definition _lower_to_custom_call_config
    (module : ir_Module)
    (backend : string)
    (device_type : option string)
    (vmem_limit_bytes : option vmem_limit)
    (cost_estimate : option CostEstimate.t)
    (flags : option (list (string * pyval)))
    (allow_input_fusion : option (list bool))
    (internal_scratch_in_bytes : option Z)
    (collective_id : option Z)
    (serialization_format : option Z)
  : L CustomCallBackendConfig.t :=
  (lowered <- _lower_mosaic_module_to_asm module backend device_type ;;
   let '(lowered_module_asm,
         (has_communication,
          has_custom_barrier,
          needs_hlo_passes,
          needs_layout_passes)) := lowered in
   llift (_lowered_to_custom_call_config
            lowered_module_asm
            vmem_limit_bytes
            cost_estimate
            flags
            allow_input_fusion
            internal_scratch_in_bytes
            collective_id
            serialization_format
            has_custom_barrier
            has_communication
            needs_hlo_passes
            needs_layout_passes
            device_type))%lower.

Definition lower_module_to_custom_call
    (ctx : LoweringRuleContext)
    (in_nodes : list nat)
    (module : ir_Module)
    (out_type : list aval)
    (backend : string)
    (kernel_name : string)
    (cost_estimate : option CostEstimate.t)
    (vmem_limit_bytes : option vmem_limit)
    (flags : option (list (string * pyval)))
    (allow_input_fusion : option (list bool))
    (input_output_aliases : list (nat * nat))
    (internal_scratch_in_bytes : option Z)
    (collective_id : option Z)
    (serialization_format : option Z)
    (device_type : option string)
  : L custom_call :=
  (config <- _lower_to_custom_call_config
               module backend device_type vmem_limit_bytes cost_estimate flags
               allow_input_fusion internal_scratch_in_bytes collective_id
               serialization_format ;;
   llift (_tpu_custom_call_lowering
            ctx in_nodes config (Some kernel_name) out_type
            input_output_aliases))%lower.

End Lowering.

(* ===================================================================== *)
(** * The stage catalog, as the specification lists it                     *)
(* ===================================================================== *)

(** One entry of the catalog: a pipeline to run with the tag of the dump
    that follows it, or a rejection. *)
Inductive stage : Type :=
| Stage (pipeline : string) (tag : string)
| Reject (e : exn).

(** The matrix-unit tile size of a hardware generation. *)
Definition mxu_tile (hardware_generation : Z) : Z :=
  if (hardware_generation <? 6)%Z then 128%Z else 256%Z.

(** The value of the on-device check flag when it is set: a flag that is
    missing, [None] or empty is not set. *)
Definition checks_flag {R : Runtime} : option string :=
  match FLAGS "xla_mosaic_on_device_checks" with
  | Some (Some v) => if v =? "" then None else Some v
  | _ => None
  end.

(** Stage 5: nothing when the flag is unset, assertion insertion when its
    tokens are exactly [bounds], a rejection naming the other tokens
    otherwise. *)
Definition check_stages {R : Runtime} : list stage :=
  match checks_flag with
  | None => []
  | Some v =>
      if forallb (String.eqb "bounds") (Py.split "," v)
      then [Stage "builtin.module(func.func(debug-assert-insertion))"
              "post-assert-insertion"]
      else [Reject (ValueError
                      ("Unrecognized on-device check categories: "
                       ++ Py.join ", "
                            (filter (fun t => negb (t =? "bounds"))
                               (set_of (Py.split "," v)))))]
  end.

(** Stages 3 to 9 for a generation written [generation] in the pipelines. *)
Definition generation_stages {R : Runtime} (g : Z) (generation : string)
  : list stage :=
  ([Stage ("builtin.module(func.func(tpu-infer-memref-layout{hardware-generation="
           ++ generation ++ "}))")
      "post-infer-memref-layout";
    Stage "builtin.module(canonicalize,cse)"
      "post-infer-memref-layout-simplify"]
   ++ check_stages
   ++ [Stage "builtin.module(func.func(tpu-canonicalize-mosaic{}))"
         "post-canonicalize-mosaic";
       Stage ("builtin.module(func.func(tpu-infer-vector-layout{"
              ++ "sublane-count=8 lane-count=128}))")
         "post-infer-vector-layout";
       Stage ("builtin.module(func.func(tpu-apply-vector-layout{"
              ++ " sublane-count=8 lane-count=128"
              ++ " hardware-generation=" ++ generation
              ++ " mxu-contracting-size=" ++ Py.decimal (mxu_tile g)
              ++ " mxu-noncontracting-size=" ++ Py.decimal (mxu_tile g)
              ++ " max-sublanes-in-scratch=72}))")
         "post-apply-vector-layout";
       Stage "builtin.module(canonicalize,cse)"
         "post-apply-vector-layout-simplify"])%list.

(** Stages 2 to 9 of the Module Lowerer for a hardware generation.  The
    generation is written into the pipelines as [str] prints it; a number
    that [str] refuses, for its digits, is rejected where the first of
    these pipelines is made. *)
Definition stage_catalog {R : Runtime} (g : Z) : list stage :=
  ((if _MOSAIC_ALLOW_HLO
    then [Stage ("builtin.module(hlo-legalize-to-arithmetic,"
                 ++ "func.func(hlo-legalize-to-linalg),"
                 ++ "func.func(linalg-vectorization))")
            "post-hlo-conversion"]
    else [])
   ++ match Py.str_int g with
      | inr generation => generation_stages g generation
      | inl e => [Reject e]
      end)%list.

(** Applying a catalog in order: the first pipeline that raises, or the
    first rejection, ends the run. *)
Fixpoint apply_stages {R : Runtime} (stages : list stage) (module : ir_Module)
  : L ir_Module :=
  match stages with
  | [] => lret module
  | Stage pipeline tag :: rest =>
      (module <- run_pipeline pipeline module ;;
       dump_mlir module tag ;;
       apply_stages rest module)%lower
  | Reject e :: _ => lraise e
  end.

(** The pipelines a catalog names, in order, up to its first rejection. *)
Fixpoint pipelines_of (stages : list stage) : list string :=
  match stages with
  | [] => []
  | Stage pipeline _ :: rest => pipeline :: pipelines_of rest
  | Reject _ :: _ => []
  end.

(** The pipelines a trace ran, in order. *)
Fixpoint ran (log : list event) : list string :=
  match log with
  | [] => []
  | Ran pipeline :: rest => pipeline :: ran rest
  | Dumped _ :: rest => ran rest
  end.

(* ===================================================================== *)
(** * Keys of the payload                                                  *)
(* ===================================================================== *)

(** [p] occurs in [s]. *)
Definition occurs (p s : string) : Prop :=
  exists before after, s = before ++ p ++ after.

(** A key as the payload spells it: the name between double quotes,
    followed by the colon. *)
Definition key_pattern (key : string) : string :=
  String dq (key ++ String dq ":").

(** The payload has the key. *)
Definition has_key (key : string) (payload : bytes) : Prop :=
  occurs (key_pattern key) payload.

(** Whatever [w] raises satisfies [P]. *)
Definition escapes {A} (P : exn -> Prop) (w : W A) : Prop :=
  forall e, w = inl e -> P e.

(** The encoder raises only for text that does not encode, for an [int]
    beyond the digit limit of [str], or for a flag value of another type
    than [bool], [int] and [float]. *)
Definition encoding_error (e : exn) : Prop :=
  e = UnicodeEncodeError
  \/ e = Py.digit_limit_error
  \/ exists value, e = ValueError ("invalid flag value: " ++ value).

(** The optional fields of the config, by the key the encoder writes. *)
Inductive field : Type :=
| has_communication_field
| collective_id_field
| cost_estimate_field
| needs_hlo_passes_field
| serialization_format_field
| needs_layout_passes_field
| allow_input_fusion_field
| internal_scratch_in_bytes_field
| device_type_field
| vmem_limit_bytes_field
| flags_field.

Definition key_of (f : field) : string :=
  match f with
  | has_communication_field => "has_communication"
  | collective_id_field => "collective_id"
  | cost_estimate_field => "cost_estimate"
  | needs_hlo_passes_field => "needs_hlo_passes"
  | serialization_format_field => "serialization_format"
  | needs_layout_passes_field => "needs_layout_passes"
  | allow_input_fusion_field => "allow_input_fusion"
  | internal_scratch_in_bytes_field => "internal_scratch_in_bytes"
  | device_type_field => "device_type"
  | vmem_limit_bytes_field => "scoped_memory_configs"
  | flags_field => "flag_configs"
  end.

(** The field's source value is [None]; a [bool] never is. *)
Definition source_is_none (f : field) (self : CustomCallBackendConfig.t) : bool :=
  match f with
  | has_communication_field => false
  | collective_id_field => is_none self.(CustomCallBackendConfig.collective_id)
  | cost_estimate_field => is_none self.(CustomCallBackendConfig.cost_estimate)
  | needs_hlo_passes_field => false
  | serialization_format_field =>
      is_none self.(CustomCallBackendConfig.serialization_format)
  | needs_layout_passes_field => false
  | allow_input_fusion_field =>
      is_none self.(CustomCallBackendConfig.allow_input_fusion)
  | internal_scratch_in_bytes_field =>
      is_none self.(CustomCallBackendConfig.internal_scratch_in_bytes)
  | device_type_field => is_none self.(CustomCallBackendConfig.device_type)
  | vmem_limit_bytes_field =>
      is_none self.(CustomCallBackendConfig.vmem_limit_bytes)
  | flags_field => is_none self.(CustomCallBackendConfig.flags)
  end.

(** The guard of the field's block in [to_json]: the field itself for the
    three booleans, [is not None] for the others. *)
Definition guard (f : field) (self : CustomCallBackendConfig.t) : bool :=
  match f with
  | has_communication_field => self.(CustomCallBackendConfig.has_communication)
  | needs_hlo_passes_field => self.(CustomCallBackendConfig.needs_hlo_passes)
  | needs_layout_passes_field =>
      self.(CustomCallBackendConfig.needs_layout_passes)
  | _ => negb (source_is_none f self)
  end.

(** No double quote in the string. *)
Definition quote_free (s : string) : bool :=
  Py.all_chars (fun c => negb (Ascii.eqb c dq)) s.

(** The names of the flags hold no double quote.  The encoder writes a
    name between two quotes as it is, so a name with a quote in it could
    spell any key. *)
Definition flag_names_plain (self : CustomCallBackendConfig.t) : bool :=
  match self.(CustomCallBackendConfig.flags) with
  | Some flags => forallb (fun item => quote_free (fst item)) flags
  | None => true
  end.

(** ** Flag entries, as the encoder writes them *)

(** The inside of an entry's value object: the inner key named after the
    type of the value, and the value. *)
Definition flag_value_text (value : pyval) : bytes :=
  match value with
  | VBool v => b "'boolean_value': " ++ (if v then b "true" else b "false")
  | VInt n => b "'integer_value': " ++ Py.decimal n
  | VFloat x => b "'double_value': " ++ float_str x
  | _ => ""
  end.

(** The JSON of a cost estimate, with its numbers in decimal. *)
Definition cost_estimate_text (c : CostEstimate.t) : bytes :=
  b "{'flops': " ++ Py.decimal c.(CostEstimate.flops)
  ++ b ", 'transcendentals': " ++ Py.decimal c.(CostEstimate.transcendentals)
  ++ b ", 'bytes_accessed': " ++ Py.decimal c.(CostEstimate.bytes_accessed)
  ++ b "}".

(** The entry of one flag; its [value] key is written without quotes. *)
Definition flag_entry_text (item : string * pyval) : bytes :=
  b "{'flag_type': '" ++ fst item ++ b "', value: {"
  ++ flag_value_text (snd item) ++ b "}}".

(** The value is a [bool], an [int] or a [float]. *)
Definition is_flag_value (value : pyval) : bool :=
  isinstance_bool value || isinstance_int value || isinstance_float value.

(** ** Scanning a payload for a key

    A scanner for [key_pattern key], one character at a time: nothing of the
    pattern read yet, a quote and part of the name read ([rest] is still to
    come), the closing quote read, the colon read. *)
Module KeyScan.

Inductive state : Type :=
| Idle
| Matching (rest : string)
| Closed
| Found.

Definition advance (key rest : string) (c : ascii) : state :=
  if Ascii.eqb c dq then
    match rest with
    | EmptyString => Closed
    | String _ _ => Matching key
    end
  else
    match rest with
    | String c' rest' => if Ascii.eqb c c' then Matching rest' else Idle
    | EmptyString => Idle
    end.

Definition step (key : string) (st : state) (c : ascii) : state :=
  match st with
  | Idle => if Ascii.eqb c dq then Matching key else Idle
  | Matching rest => advance key rest c
  | Closed => if Ascii.eqb c ":" then Found else advance key key c
  | Found => Found
  end.

Fixpoint scan (key : string) (st : state) (s : string) : state :=
  match s with
  | EmptyString => st
  | String c s' => scan key (step key st c) s'
  end.

Definition state_eqb (x y : state) : bool :=
  match x, y with
  | Idle, Idle | Closed, Closed | Found, Found => true
  | Matching r, Matching r' => String.eqb r r'
  | _, _ => false
  end.

Definition mem (x : state) (l : list state) : bool := existsb (state_eqb x) l.

(** Sets of states, as lists without repeats. *)
Fixpoint uniq (l : list state) : list state :=
  match l with
  | [] => []
  | x :: l' => if mem x l' then uniq l' else x :: uniq l'
  end.

Definition union (l1 l2 : list state) : list state := uniq (l1 ++ l2)%list.

Definition subset (l1 l2 : list state) : bool := forallb (fun x => mem x l2) l1.

(** The states a set of states reaches over [s]. *)
Definition image (key : string) (pre : list state) (s : string) : list state :=
  uniq (map (fun st => scan key st s) pre).

Fixpoint suffixes (s : string) : list string :=
  s :: match s with
       | EmptyString => []
       | String _ s' => suffixes s'
       end.

(** The states with no closing quote read. *)
Definition open_states (key : string) : list state :=
  Idle :: map Matching (suffixes key).

(** The states over text that has no lower-case letter. *)
Definition upper_states (key : string) : list state := [Idle; Matching key].

Definition starts_lower (key : string) : bool :=
  match key with
  | String c _ => Py.is_lower c
  | EmptyString => false
  end.

(** What a state says of the text read so far. *)
Definition reads (key : string) (st : state) (s : string) : Prop :=
  match st with
  | Idle => True
  | Matching rest =>
      exists before name, s = before ++ String dq name /\ key = name ++ rest
  | Closed => exists before, s = before ++ String dq key ++ String dq ""
  | Found => has_key key s
  end.

(** Whatever writes [w] makes, a scan that enters them in a state of [pre]
    leaves them in a state of [post]. *)
Definition transfers (key : string) (pre : list state) (w : W unit)
    (post : list state) : Prop :=
  forall o, w = inr (tt, o) ->
  forall st, mem st pre = true -> mem (scan key st o) post = true.

End KeyScan.

(* ===================================================================== *)
(** * When the encoder returns, and what it writes                         *)
(* ===================================================================== *)

(** The writer returns: it raises nothing. *)
Definition returns {A} (w : W A) : bool :=
  match w with
  | inr _ => true
  | inl _ => false
  end.

(** What [to_json] needs of a config to encode it: every [int] it prints
    is within the digit limit of [str], the upper-cased device type is
    ASCII, and every flag has an ASCII name and a value that is a [bool],
    an [int] within the limit or a [float]. *)
Definition optional_printable (x : option Z) : bool :=
  match x with
  | Some n => Py.printable n
  | None => true
  end.

Definition cost_estimate_printable (x : option CostEstimate.t) : bool :=
  match x with
  | Some c =>
      Py.printable c.(CostEstimate.flops)
      && Py.printable c.(CostEstimate.transcendentals)
      && Py.printable c.(CostEstimate.bytes_accessed)
  | None => true
  end.

(** The [int] fields written inside [custom_call_config], before the
    device type. *)
Definition inner_fields_printable (self : CustomCallBackendConfig.t) : bool :=
  optional_printable self.(CustomCallBackendConfig.collective_id)
  && cost_estimate_printable self.(CustomCallBackendConfig.cost_estimate)
  && optional_printable self.(CustomCallBackendConfig.serialization_format)
  && optional_printable self.(CustomCallBackendConfig.internal_scratch_in_bytes).

Definition flag_value_encodable (value : pyval) : bool :=
  match value with
  | VBool _ | VFloat _ => true
  | VInt n => Py.printable n
  | VStr _ | VNone => false
  end.

Definition encodable_flag (item : string * pyval) : bool :=
  Py.all_chars Py.is_ascii (fst item) && flag_value_encodable (snd item).

(** The exception the encoder raises at a flag it cannot encode: the name
    is encoded first, then the value is printed. *)
Definition flag_error (item : string * pyval) : exn :=
  if Py.all_chars Py.is_ascii (fst item) then
    match str (snd item) with
    | inr text => ValueError ("invalid flag value: " ++ text)
    | inl e => e
    end
  else UnicodeEncodeError.

Definition device_type_encodable (self : CustomCallBackendConfig.t) : bool :=
  match self.(CustomCallBackendConfig.device_type) with
  | Some device_type => Py.all_chars Py.is_ascii (Py.upper device_type)
  | None => true
  end.

Definition flags_encodable (self : CustomCallBackendConfig.t) : bool :=
  match self.(CustomCallBackendConfig.flags) with
  | Some flags => forallb encodable_flag flags
  | None => true
  end.

Definition encodable (self : CustomCallBackendConfig.t) : bool :=
  inner_fields_printable self
  && device_type_encodable self
  && optional_printable self.(CustomCallBackendConfig.vmem_limit_bytes)
  && flags_encodable self.

(** Whatever [w] writes, every byte of it satisfies [P]. *)
Definition writes_only (P : ascii -> bool) (w : W unit) : Prop :=
  forall o, w = inr (tt, o) -> Py.all_chars P o = true.

(** [text] stands in the payload as a whole member of an object: the byte
    after it is the comma before the next member, or the brace that closes
    the object. *)
Definition member (text payload : bytes) : Prop :=
  occurs (text ++ b ",") payload \/ occurs (text ++ b "}") payload.

(** What [w] writes is nothing, or text that a comma leads. *)
Definition comma_led (w : W unit) : Prop :=
  forall o, w = inr (tt, o) -> o = "" \/ exists rest, o = String "," rest.

(** What [w] writes starts with the comma before a member, or with the
    brace that closes the object. *)
Definition closes (w : W unit) : Prop :=
  forall o, w = inr (tt, o) ->
  exists c rest, o = String c rest /\ (c = ","%char \/ c = "}"%char).

(** The text of [b"true" if value else b"false"]. *)
Definition json_bool (value : bool) : bytes :=
  if value then b "true" else b "false".

(* ===================================================================== *)
(** * Checks and traces of the lowering                                    *)
(* ===================================================================== *)

(** The partitioning check of [_tpu_custom_call_lowering] passes. *)
Definition partitioning_ok (ctx : LoweringRuleContext)
    (config : CustomCallBackendConfig.t) : bool :=
  match ctx.(ctx_axis_context) with
  | SPMDAxisContext mesh_axis_names manual_axes =>
      set_eqb manual_axes mesh_axis_names
  | ShardingContext num_devices => (num_devices =? 1)%Z
  | ReplicaAxisContext => negb config.(CustomCallBackendConfig.has_communication)
  end.

(** The names of the dumps a trace made, in order. *)
Fixpoint dumped (log : list event) : list string :=
  match log with
  | [] => []
  | Ran _ :: rest => dumped rest
  | Dumped name :: rest => name :: dumped rest
  end.

(** The dump tags a catalog names, in order, up to its first rejection. *)
Fixpoint tags_of (stages : list stage) : list string :=
  match stages with
  | [] => []
  | Stage _ tag :: rest => tag :: tags_of rest
  | Reject _ :: _ => []
  end.

(** The directory [dump_mlir] writes to, when it writes: the dump flag is
    registered with the value [sponge] and the outputs directory is set and
    not empty. *)
Definition dump_directory {R : Runtime} : option string :=
  match FLAGS "xla_mosaic_dump_to" with
  | Some (Some v) =>
      if v =? "sponge" then
        match environ "TEST_UNDECLARED_OUTPUTS_DIR" with
        | Some outdir => if outdir =? "" then None else Some outdir
        | None => None
        end
      else None
  | _ => None
  end.

Definition dump_enabled {R : Runtime} : bool :=
  match dump_directory with Some _ => true | None => false end.

(** The exception is one that the writing of a dump raised. *)
Definition dump_error {R : Runtime} (e : exn) : Prop :=
  exists outdir name module,
    dump_directory = Some outdir /\ write_dump outdir name module = Some e.

(** How a run can fail, having run the pipelines [done]: a [ValueError]; a
    pipeline that raised [MLIRError], the last one run; or a dump that
    raised. *)
Definition failure {R : Runtime} (e : exn) (done : list string) : Prop :=
  (exists msg, e = ValueError msg)
  \/ (exists before p, e = MLIRError p /\ done = (before ++ [p])%list)
  \/ dump_error e.

(** The eager path of [_lower_mosaic_module_to_asm] is taken. *)
Definition eager_lowering {R : Runtime} (device_type : option string) : bool :=
  negb (truthy device_type) && _MOSAIC_USE_PYTHON_PIPELINE.

(** The pipeline [_lower_mosaic_module_to_asm] serializes the module with. *)
Definition serde_pipeline : string :=
  "builtin.module(mosaic-serde{serialize=true})".

(** The exceptions lowering can raise: [ValueError], [IndexError],
    [MLIRError], the [RuntimeError] of the device lookup, and what a dump
    raised. *)
Definition lowering_error {R : Runtime} (e : exn) : Prop :=
  match e with
  | ValueError _ | IndexError | MLIRError _ | RuntimeError => True
  | _ => dump_error e
  end.

(* ===================================================================== *)
(** * The kernel as a JAX callable                                         *)
(* ===================================================================== *)

(** A type of [out_type]: what the code reads of it is [ty.shape] and
    [ty.dtype]. *)
Record ShapeDtypeStruct : Type := {
  sds_shape : list (option Z);
  sds_dtype : string
}.

(** [out_type] is one type, or an iterable of types. *)
Inductive out_types : Type :=
| OneType (ty : ShapeDtypeStruct)
| ManyTypes (tys : list ShapeDtypeStruct).

(** [core.ShapedArray(shape, dtype)]. *)
Record ShapedArray : Type := {
  sa_shape : list (option Z);
  sa_dtype : string
}.

(** The keyword arguments [tpu_custom_call_p.bind] is given. *)
Record bind_params : Type := {
  bind_config : CustomCallBackendConfig.t;
  bind_kernel_name : option string;
  bind_out_avals : list ShapedArray;
  bind_input_output_aliases : list (nat * nat)
}.

(** The abstract evaluation of the primitive: the [out_avals] it is given. *)
Definition _tpu_custom_call_abstract_eval (params : bind_params)
  : list ShapedArray :=
  params.(bind_out_avals).

(** The function [_as_jax_callable] returns, [jax.jit(apply_kernel)], by
    what [apply_kernel] closes over. *)
Record jax_callable : Type := {
  callable_params : bind_params;
  callable_unpack : bool
}.

Definition _as_jax_callable
    (config : CustomCallBackendConfig.t)
    (out_type : out_types)
    (kernel_name : option string)
    (input_output_aliases : list (nat * nat))
  : jax_callable :=
  let '(out_type, unpack) :=
    match out_type with
    | OneType ty => ([ty], true)
    | ManyTypes tys => (tys, false)
    end in
  let out_avals :=
    map (fun ty => {| sa_shape := ty.(sds_shape); sa_dtype := ty.(sds_dtype) |})
      out_type in
  {| callable_params := {|
       bind_config := config;
       bind_kernel_name := kernel_name;
       bind_out_avals := out_avals;
       bind_input_output_aliases := input_output_aliases
     |};
     callable_unpack := unpack |}.

(** [apply_kernel] on its arguments, over the primitive's [bind]: it
    returns [result[0]] or [result]. *)
Definition apply_kernel {array : Type}
    (bind : list array -> bind_params -> list array)
    (callable : jax_callable) (args : list array)
  : result (array + list array) :=
  let result := bind args callable.(callable_params) in
  if callable.(callable_unpack) then
    match result with
    | first :: _ => inr (inl first)
    | [] => inl IndexError
    end
  else inr (inr result).

Section Kernels.

Context {R : Runtime}.

(** Turns an MLIR Mosaic kernel into a JAX-compatible function. *)
Definition as_tpu_kernel
    (module : ir_Module)
    (out_type : out_types)
    (cost_estimate : option CostEstimate.t)
    (backend : string)
    (device_type : option string)
    (kernel_name : option string)
    (vmem_limit_bytes : option vmem_limit)
    (flags : option (list (string * pyval)))
    (allow_input_fusion : option (list bool))
    (input_output_aliases : list (nat * nat))
    (internal_scratch_in_bytes : option Z)
    (collective_id : option Z)
    (serialization_format : option Z)
  : L jax_callable :=
  (config <- _lower_to_custom_call_config
               module backend device_type vmem_limit_bytes cost_estimate flags
               allow_input_fusion internal_scratch_in_bytes collective_id
               serialization_format ;;
   lret (_as_jax_callable config out_type kernel_name input_output_aliases))%lower.

(** [as_tpu_kernel(module, out_type)], every keyword at its default. *)
Definition as_tpu_kernel_by_default (module : ir_Module) (out_type : out_types)
  : L jax_callable :=
  as_tpu_kernel module out_type None "tpu" None None None None None [] None None
    (Some 1%Z).

(** [get_asm] stands for
    [lowered_module.operation.get_asm(binary=True, enable_debug_info=True)]. *)
Definition lowered_as_tpu_kernel
    (get_asm : ir_Module -> bytes)
    (lowered_module : ir_Module)
    (out_type : out_types)
    (collective_id : option Z)
    (cost_estimate : option CostEstimate.t)
    (needs_hlo_passes : bool)
    (needs_layout_passes : bool)
    (device_type : option string)
    (has_communication : bool)
    (has_custom_barrier : bool)
    (kernel_name : option string)
    (vmem_limit_bytes : option vmem_limit)
    (flags : option (list (string * pyval)))
    (allow_input_fusion : option (list bool))
    (input_output_aliases : list (nat * nat))
    (serialization_format : option Z)
    (internal_scratch_in_bytes : option Z)
  : result jax_callable :=
  (let lowered_module_asm := get_asm lowered_module in
   config <- _lowered_to_custom_call_config
               lowered_module_asm vmem_limit_bytes cost_estimate flags
               allow_input_fusion internal_scratch_in_bytes collective_id
               serialization_format has_custom_barrier has_communication
               needs_hlo_passes needs_layout_passes device_type ;;
   inr (_as_jax_callable config out_type kernel_name input_output_aliases))%result.

(** [lowered_as_tpu_kernel(lowered_module, out_type)], every keyword at its
    default. *)
Definition lowered_as_tpu_kernel_by_default
    (get_asm : ir_Module -> bytes) (lowered_module : ir_Module)
    (out_type : out_types) : result jax_callable :=
  lowered_as_tpu_kernel get_asm lowered_module out_type None None false false
    None false false None None None None [] None None.

End Kernels.

(* ===================================================================== *)
(** * Example values                                                       *)
(* ===================================================================== *)

(** A config with every optional field absent and every flag false. *)
Definition minimal_config : CustomCallBackendConfig.t := {|
  CustomCallBackendConfig.lowered_module_asm := "";
  CustomCallBackendConfig.has_communication := false;
  CustomCallBackendConfig.collective_id := None;
  CustomCallBackendConfig.device_type := None;
  CustomCallBackendConfig.cost_estimate := None;
  CustomCallBackendConfig.needs_hlo_passes := false;
  CustomCallBackendConfig.needs_layout_passes := false;
  CustomCallBackendConfig.vmem_limit_bytes := None;
  CustomCallBackendConfig.flags := None;
  CustomCallBackendConfig.allow_input_fusion := None;
  CustomCallBackendConfig.serialization_format := None;
  CustomCallBackendConfig.internal_scratch_in_bytes := None
|}.

(** [minimal_config] with the flags [{"a": True}]. *)
Definition single_flag_config : CustomCallBackendConfig.t := {|
  CustomCallBackendConfig.lowered_module_asm := "";
  CustomCallBackendConfig.has_communication := false;
  CustomCallBackendConfig.collective_id := None;
  CustomCallBackendConfig.device_type := None;
  CustomCallBackendConfig.cost_estimate := None;
  CustomCallBackendConfig.needs_hlo_passes := false;
  CustomCallBackendConfig.needs_layout_passes := false;
  CustomCallBackendConfig.vmem_limit_bytes := None;
  CustomCallBackendConfig.flags := Some [("a", VBool true)];
  CustomCallBackendConfig.allow_input_fusion := None;
  CustomCallBackendConfig.serialization_format := None;
  CustomCallBackendConfig.internal_scratch_in_bytes := None
|}.

(** A config with every field given, and flags of the three types. *)
Definition full_config : CustomCallBackendConfig.t := {|
  CustomCallBackendConfig.lowered_module_asm := "Man";
  CustomCallBackendConfig.has_communication := true;
  CustomCallBackendConfig.collective_id := Some 3%Z;
  CustomCallBackendConfig.device_type := Some "tc7";
  CustomCallBackendConfig.cost_estimate :=
    Some {| CostEstimate.flops := 1;
            CostEstimate.transcendentals := 2;
            CostEstimate.bytes_accessed := 3 |};
  CustomCallBackendConfig.needs_hlo_passes := true;
  CustomCallBackendConfig.needs_layout_passes := false;
  CustomCallBackendConfig.vmem_limit_bytes := Some 1048576%Z;
  CustomCallBackendConfig.flags :=
    Some [("a", VBool true);
          ("b", VInt 5);
          ("c", VFloat {| float_str := "1.5"; float_str_ok := I |})];
  CustomCallBackendConfig.allow_input_fusion := Some [true; false];
  CustomCallBackendConfig.serialization_format := Some 1%Z;
  CustomCallBackendConfig.internal_scratch_in_bytes := Some 0%Z
|}.

(** [minimal_config] with one flag whose name holds double quotes. *)
Definition quoted_flag_config : CustomCallBackendConfig.t := {|
  CustomCallBackendConfig.lowered_module_asm := "";
  CustomCallBackendConfig.has_communication := false;
  CustomCallBackendConfig.collective_id := None;
  CustomCallBackendConfig.device_type := None;
  CustomCallBackendConfig.cost_estimate := None;
  CustomCallBackendConfig.needs_hlo_passes := false;
  CustomCallBackendConfig.needs_layout_passes := false;
  CustomCallBackendConfig.vmem_limit_bytes := None;
  CustomCallBackendConfig.flags :=
    Some [(b "x', 'has_communication': 'y", VBool true)];
  CustomCallBackendConfig.allow_input_fusion := None;
  CustomCallBackendConfig.serialization_format := None;
  CustomCallBackendConfig.internal_scratch_in_bytes := None
|}.

(** The flags [{"a": True, "b": False}], and the same mapping built in the
    other order. *)
Definition flags_ab_config : CustomCallBackendConfig.t := {|
  CustomCallBackendConfig.lowered_module_asm := "";
  CustomCallBackendConfig.has_communication := false;
  CustomCallBackendConfig.collective_id := None;
  CustomCallBackendConfig.device_type := None;
  CustomCallBackendConfig.cost_estimate := None;
  CustomCallBackendConfig.needs_hlo_passes := false;
  CustomCallBackendConfig.needs_layout_passes := false;
  CustomCallBackendConfig.vmem_limit_bytes := None;
  CustomCallBackendConfig.flags := Some [("a", VBool true); ("b", VBool false)];
  CustomCallBackendConfig.allow_input_fusion := None;
  CustomCallBackendConfig.serialization_format := None;
  CustomCallBackendConfig.internal_scratch_in_bytes := None
|}.


(** [minimal_config] with one flag whose name spells the key
    [collective_id]. *)
Definition quoted_id_config : CustomCallBackendConfig.t := {|
  CustomCallBackendConfig.lowered_module_asm := "";
  CustomCallBackendConfig.has_communication := false;
  CustomCallBackendConfig.collective_id := None;
  CustomCallBackendConfig.device_type := None;
  CustomCallBackendConfig.cost_estimate := None;
  CustomCallBackendConfig.needs_hlo_passes := false;
  CustomCallBackendConfig.needs_layout_passes := false;
  CustomCallBackendConfig.vmem_limit_bytes := None;
  CustomCallBackendConfig.flags :=
    Some [(b "x', 'collective_id': 'y", VBool true)];
  CustomCallBackendConfig.allow_input_fusion := None;
  CustomCallBackendConfig.serialization_format := None;
  CustomCallBackendConfig.internal_scratch_in_bytes := None
|}.

(** A lowering context under a mesh with axes [x] and [y], all manual. *)
Definition manual_context : LoweringRuleContext := {|
  ctx_axis_context := SPMDAxisContext ["x"; "y"] ["y"; "x"];
  avals_in := [{| shape := [Some 8%Z; Some 128%Z] |}];
  avals_out := [{| shape := [Some 8%Z; Some 128%Z] |}]
|}.

(** A lowering context under a mesh with the one axis [x], whose manual
    axes are [x] and an axis [z] that the mesh does not have. *)
Definition stray_axis_context : LoweringRuleContext := {|
  ctx_axis_context := SPMDAxisContext ["x"] ["x"; "z"];
  avals_in := [{| shape := [Some 8%Z; Some 128%Z] |}];
  avals_out := [{| shape := [Some 8%Z; Some 128%Z] |}]
|}.

(** [minimal_config] with a device type that is not ASCII, upper-cased or
    not (the one letter e with an acute accent), and flags that would
    encode. *)
Definition latin_device_config : CustomCallBackendConfig.t := {|
  CustomCallBackendConfig.lowered_module_asm := "";
  CustomCallBackendConfig.has_communication := false;
  CustomCallBackendConfig.collective_id := None;
  CustomCallBackendConfig.device_type := Some (String "233" "");
  CustomCallBackendConfig.cost_estimate := None;
  CustomCallBackendConfig.needs_hlo_passes := false;
  CustomCallBackendConfig.needs_layout_passes := false;
  CustomCallBackendConfig.vmem_limit_bytes := None;
  CustomCallBackendConfig.flags := Some [("a", VBool true)];
  CustomCallBackendConfig.allow_input_fusion := None;
  CustomCallBackendConfig.serialization_format := None;
  CustomCallBackendConfig.internal_scratch_in_bytes := None
|}.

(** [minimal_config] with the flags [{"a": True, "b": "x", "c": 1}]: the
    second value is a [str]. *)
Definition bad_flag_config : CustomCallBackendConfig.t := {|
  CustomCallBackendConfig.lowered_module_asm := "";
  CustomCallBackendConfig.has_communication := false;
  CustomCallBackendConfig.collective_id := None;
  CustomCallBackendConfig.device_type := None;
  CustomCallBackendConfig.cost_estimate := None;
  CustomCallBackendConfig.needs_hlo_passes := false;
  CustomCallBackendConfig.needs_layout_passes := false;
  CustomCallBackendConfig.vmem_limit_bytes := None;
  CustomCallBackendConfig.flags :=
    Some [("a", VBool true); ("b", VStr "x"); ("c", VInt 1)];
  CustomCallBackendConfig.allow_input_fusion := None;
  CustomCallBackendConfig.serialization_format := None;
  CustomCallBackendConfig.internal_scratch_in_bytes := None
|}.

(** A runtime to run the lowering on: a module is the list of the pipelines
    run on it, every module verifies, the pipeline [broken] raises and every
    other one runs, the device lookup gives [devices], the eager lowering is
    on or off by [eager], and no flag is registered. *)
Definition example_runtime (broken : string)
    (devices : option (string * list string)) (eager : bool) : Runtime := {|
  ir_Module := list string;
  verify := fun _ => true;
  pass_manager_run := fun pipeline module =>
    if pipeline =? broken then None else Some (module ++ [pipeline])%list;
  parse_asm := fun module => module;
  write_bytecode := fun module => Py.join ";" module;
  private_has_communication := fun _ => (false, false);
  jax_devices := fun _ => devices;
  _MOSAIC_USE_PYTHON_PIPELINE := eager;
  _MOSAIC_ALLOW_HLO := false;
  FLAGS := fun _ => None;
  environ := fun _ => None;
  write_dump := fun _ _ _ => None
|}.

(** The same runtime with dumping on, into a directory [out] that cannot be
    written when [writable] is false. *)
Definition dumping_runtime (writable : bool) : Runtime := {|
  ir_Module := list string;
  verify := fun _ => true;
  pass_manager_run := fun pipeline module => Some (module ++ [pipeline])%list;
  parse_asm := fun module => module;
  write_bytecode := fun module => Py.join ";" module;
  private_has_communication := fun _ => (false, false);
  jax_devices := fun _ => Some ("TPU v4", []);
  _MOSAIC_USE_PYTHON_PIPELINE := true;
  _MOSAIC_ALLOW_HLO := false;
  FLAGS := fun name =>
    if name =? "xla_mosaic_dump_to" then Some (Some "sponge") else None;
  environ := fun name =>
    if name =? "TEST_UNDECLARED_OUTPUTS_DIR" then Some "out" else None;
  write_dump := fun _ _ _ => if writable then None else Some OSError
|}.

(* ===================================================================== *)
(** * Facts about strings                                                  *)
(* ===================================================================== *)

Lemma append_assoc (x y z : string) : (x ++ y) ++ z = x ++ (y ++ z).
Proof.
  induction x as [|c x IH]; simpl; [reflexivity | now rewrite IH].
Qed.

Lemma append_empty_r (x : string) : x ++ "" = x.
Proof.
  induction x as [|c x IH]; simpl; [reflexivity | now rewrite IH].
Qed.

Lemma append_cancel_l (p x y : string) : p ++ x = p ++ y -> x = y.
Proof.
  induction p as [|c p IH]; simpl; [trivial | ]. intros [= H]. now apply IH.
Qed.

(** A run of characters that satisfy [P] ends at the first character that
    does not. *)
Lemma run_cancel (P : ascii -> bool) (x y : string) (c d : ascii) (r s : string) :
  Py.all_chars P x = true ->
  Py.all_chars P y = true ->
  P c = false -> P d = false ->
  x ++ String c r = y ++ String d s ->
  x = y /\ r = s.
Proof.
  revert y. induction x as [|a x IH]; intros [|a' y] Hx Hy Hc Hd H; simpl in *.
  - injection H as _ <-. now split.
  - injection H as -> _. apply andb_true_iff in Hy as [Hy _]. congruence.
  - injection H as -> _. apply andb_true_iff in Hx as [Hx _]. congruence.
  - injection H as <- H.
    apply andb_true_iff in Hx as [_ Hx]. apply andb_true_iff in Hy as [_ Hy].
    destruct (IH y Hx Hy Hc Hd H) as [-> ->]. now split.
Qed.

Lemma all_chars_app p (x y : string) :
  Py.all_chars p (x ++ y) = Py.all_chars p x && Py.all_chars p y.
Proof.
  induction x as [|c x IH]; simpl; [reflexivity | ].
  now rewrite IH, andb_assoc.
Qed.

Lemma all_chars_weaken (p q : ascii -> bool) (s : string) :
  (forall c, p c = true -> q c = true) ->
  Py.all_chars p s = true -> Py.all_chars q s = true.
Proof.
  intros Hpq. induction s as [|c s IH]; simpl; [reflexivity | ].
  rewrite !andb_true_iff. intros [Hc Hs]. split; auto.
Qed.

(* ===================================================================== *)
(** * Config construction                                                  *)
(* ===================================================================== *)

(** C4, as the code has it.  [_lowered_to_custom_call_config] enforces the
    collective-barrier invariant in both directions, and first: a
    collective id without a custom barrier is refused, and a custom barrier
    without a collective id is refused, whatever [vmem_limit_bytes] is.
    The two consistent combinations give the config built from the
    arguments when [vmem_limit_bytes] is [None] or an [int]; when it is a
    value of another type they are refused too, with a [ValueError] that
    names the type.  A refusal yields no config, so nothing is left to
    encode: in [lower_module_to_custom_call] the refusal is the result
    whatever the encoder would have made of the other arguments. *)
Theorem lowered_to_custom_call_config_barrier_invariant :
  forall asm cost flags fusion scratch sformat comm hlo layout dtype,
    let build vmem barrier cid :=
      _lowered_to_custom_call_config asm vmem cost flags fusion scratch cid
        sformat barrier comm hlo layout dtype in
    let config vmem cid := {|
      CustomCallBackendConfig.lowered_module_asm := asm;
      CustomCallBackendConfig.has_communication := comm;
      CustomCallBackendConfig.collective_id := cid;
      CustomCallBackendConfig.device_type := dtype;
      CustomCallBackendConfig.cost_estimate := cost;
      CustomCallBackendConfig.needs_hlo_passes := hlo;
      CustomCallBackendConfig.needs_layout_passes := layout;
      CustomCallBackendConfig.vmem_limit_bytes := vmem;
      CustomCallBackendConfig.flags := flags;
      CustomCallBackendConfig.allow_input_fusion := fusion;
      CustomCallBackendConfig.serialization_format := sformat;
      CustomCallBackendConfig.internal_scratch_in_bytes := scratch
    |} in
    (forall vmem id,
        build vmem false (Some id) =
        inl (ValueError
               "collective_id has to be unspecified or None when not using a custom barrier"))
    /\ (forall vmem,
           build vmem true None =
           inl (ValueError
                  "collective_id has to be specified when using a custom barrier"))
    /\ (forall vmem id,
           build (option_map AnInt vmem) true (Some id)
           = inr (config vmem (Some id)))
    /\ (forall vmem,
           build (option_map AnInt vmem) false None = inr (config vmem None))
    /\ (forall value barrier cid,
           barrier = negb (is_none cid) ->
           build (Some (NotAnInt value)) barrier cid
           = inl (ValueError
                    ("vmem_limit_bytes must be an int: provided with a <class '"
                     ++ type_name value ++ "'>.")))
    /\ (forall (R : Runtime) ctx in_nodes module out_type backend kernel_name
               aliases vmem cid log log' barrier,
           _lower_mosaic_module_to_asm module backend dtype log
           = (inr (asm, (comm, barrier, hlo, layout)), log') ->
           barrier = is_none cid ->
           exists msg,
             lower_module_to_custom_call ctx in_nodes module out_type backend
               kernel_name cost vmem flags fusion aliases scratch cid sformat
               dtype log
             = (inl (ValueError msg), log')).
Proof.
  intros. subst build config.
  split; [ | split; [ | split; [ | split; [ | split ] ] ] ].
  - intros vmem id. reflexivity.
  - intros vmem. reflexivity.
  - intros [n | ] id; reflexivity.
  - intros [n | ]; reflexivity.
  - intros value barrier [id | ] ->; reflexivity.
  - intros R ctx in_nodes module out_type backend kernel_name aliases vmem cid
           log log' barrier Hasm Hbar.
    unfold lower_module_to_custom_call, _lower_to_custom_call_config, lbind.
    rewrite Hasm. unfold llift, _lowered_to_custom_call_config.
    subst barrier. destruct cid; simpl; eexists; reflexivity.
Qed.

(** C4, as the specification words it, fails: with the float [1.5] for
    [vmem_limit_bytes], both consistent combinations of the barrier and the
    collective id are refused. *)
Lemma consistent_barrier_pair_refused :
  _lowered_to_custom_call_config ""
    (Some (NotAnInt (AFloat {| float_str := "1.5"; float_str_ok := I |})))
    None None None None None None false false false false None
  = inl (ValueError
           "vmem_limit_bytes must be an int: provided with a <class 'float'>.")
  /\ _lowered_to_custom_call_config ""
       (Some (NotAnInt (AFloat {| float_str := "1.5"; float_str_ok := I |})))
       None None None None (Some 3%Z) None true false false false None
     = inl (ValueError
              "vmem_limit_bytes must be an int: provided with a <class 'float'>.").
Proof. split; reflexivity. Qed.

(* ===================================================================== *)
(** * Device kinds                                                         *)
(* ===================================================================== *)

Lemma startswith_append (p s : string) : Py.startswith (p ++ s) p = true.
Proof.
  unfold Py.startswith. induction p as [|c p IH]; simpl.
  - destruct s; reflexivity.
  - destruct (ascii_dec c c) as [_|Hne]; [exact IH | now destruct Hne].
Qed.

(** C8. When the eager lowering is taken, a device kind that does not start
    with [TPU v] makes the lowering raise, before any pipeline runs;
    otherwise the generation is the character after the prefix, read as a
    decimal digit: [TPU v4] and [TPU v4lite] give 4, [GPU] raises. *)
Theorem hardware_generation_of_device_kind :
  (forall device_kind,
      Py.startswith device_kind "TPU v" = false ->
      exists msg, hardware_generation_of device_kind = inl (ValueError msg))
  /\ (forall c rest,
         hardware_generation_of ("TPU v" ++ String c rest) = Py.int_of_char c)
  /\ (forall d rest, (d < 10)%nat ->
         hardware_generation_of ("TPU v" ++ String (ascii_of_nat (48 + d)) rest)
         = inr (Z.of_nat d))
  /\ hardware_generation_of "TPU v4" = inr 4%Z
  /\ hardware_generation_of "TPU v4lite" = inr 4%Z
  /\ (exists msg, hardware_generation_of "GPU" = inl (ValueError msg))
  /\ (forall (R : Runtime) module backend device_type log device_kind others,
         truthy device_type = false ->
         _MOSAIC_USE_PYTHON_PIPELINE = true ->
         jax_devices backend = Some (device_kind, others) ->
         Py.startswith device_kind "TPU v" = false ->
         exists msg,
           _lower_mosaic_module_to_asm module backend device_type log
           = (inl (ValueError msg), log)).
Proof.
  split; [ | split; [ | split; [ | split; [ | split; [ | split ] ] ] ] ].
  - intros k Hk. unfold hardware_generation_of. rewrite Hk. simpl.
    eexists; reflexivity.
  - intros c rest. reflexivity.
  - intros d rest Hd.
    do 10 (destruct d as [|d]; [reflexivity | ]). lia.
  - reflexivity.
  - reflexivity.
  - eexists; reflexivity.
  - intros R module backend dt log k others Hdt Hflag Hdev Hk.
    unfold _lower_mosaic_module_to_asm.
    destruct (private_has_communication module) as [hc hb].
    unfold lbind, llift. rewrite Hdt, Hflag, Hdev. simpl.
    unfold hardware_generation_of. rewrite Hk. simpl.
    eexists; reflexivity.
Qed.

(* ===================================================================== *)
(** * Sets of tokens                                                       *)
(* ===================================================================== *)

Lemma split_nonempty sep s : Py.split sep s <> [].
Proof.
  destruct s as [|c s]; simpl; [discriminate | ].
  destruct (Ascii.eqb c sep); [discriminate | ].
  destruct (Py.split sep s); discriminate.
Qed.

Lemma existsb_eqb_In (x : string) (l : list string) :
  existsb (String.eqb x) l = true <-> In x l.
Proof.
  rewrite existsb_exists. split.
  - intros [y [Hy Heq]]. apply String.eqb_eq in Heq. now subst.
  - intros H. exists x. split; [exact H | apply String.eqb_refl].
Qed.

Lemma set_eqb_singleton (x : string) (l : list string) :
  set_eqb (set_of l) [x] = forallb (String.eqb x) l && nonempty l.
Proof.
  apply eq_true_iff_eq. unfold set_eqb, set_incl, set_of.
  rewrite !andb_true_iff, !forallb_forall. split.
  - intros [Hall Hx]. split.
    + intros y Hy. apply String.eqb_eq.
      specialize (Hall y (proj2 (nodup_In string_dec l y) Hy)).
      simpl in Hall. rewrite orb_false_r in Hall.
      apply String.eqb_eq in Hall. now subst.
    + specialize (Hx x (or_introl eq_refl)).
      apply existsb_eqb_In, nodup_In in Hx. destruct l; [contradiction | reflexivity].
  - intros [Hall Hne]. split.
    + intros y Hy. apply nodup_In in Hy. specialize (Hall y Hy).
      simpl. rewrite orb_false_r. now rewrite String.eqb_sym.
    + intros y [Hy | []]. subst y. apply existsb_eqb_In, nodup_In.
      destruct l as [|z l]; [discriminate | ].
      specialize (Hall z (or_introl eq_refl)). apply String.eqb_eq in Hall.
      subst. now left.
Qed.

Lemma discard_filter (x : string) (l : list string) :
  discard x l = filter (fun t => negb (t =? x)) l.
Proof.
  unfold discard. induction l as [|y l IH]; simpl; [reflexivity | ].
  destruct (string_dec x y) as [Heq | Hne].
  - subst. rewrite String.eqb_refl. exact IH.
  - destruct (String.eqb_spec y x) as [Heq | _]; [now subst | ].
    simpl. now rewrite IH.
Qed.

Lemma nonempty_set_of (l : list string) : nonempty (set_of l) = nonempty l.
Proof.
  destruct l as [|x l]; [reflexivity | ].
  unfold set_of. destruct (nodup string_dec (x :: l)) eqn:E; [ | reflexivity].
  assert (H : In x (nodup string_dec (x :: l))) by (apply nodup_In; now left).
  rewrite E in H. destruct H.
Qed.

Lemma nonempty_split sep s : nonempty (Py.split sep s) = true.
Proof.
  pose proof (split_nonempty sep s). destruct (Py.split sep s); [congruence | reflexivity].
Qed.

(* ===================================================================== *)
(** * The lowering pipeline                                                *)
(* ===================================================================== *)

Section LoweringFacts.

Context {R : Runtime}.

Lemma on_device_checks_stage_catalog (module : ir_Module) (log : list event) :
  on_device_checks_stage module log = apply_stages check_stages module log.
Proof.
  unfold on_device_checks_stage, check_stages, checks_flag.
  destruct (FLAGS "xla_mosaic_on_device_checks") as [[v | ] | ]; try reflexivity.
  destruct (v =? "") eqn:Ev; cbn [negb]; [reflexivity | ].
  rewrite set_eqb_singleton, nonempty_split, andb_true_r.
  destruct (forallb (String.eqb "bounds") (Py.split "," v)) eqn:Eb.
  - cbn [apply_stages]. unfold lbind.
    destruct (run_pipeline _ module log) as [[e | m'] log']; [reflexivity | ].
    destruct (dump_mlir m' _ log') as [[e | []] log'']; reflexivity.
  - rewrite nonempty_set_of, nonempty_split. cbn [apply_stages].
    now rewrite discard_filter.
Qed.

Lemma lbind_assoc {A B C} (m : L A) (f : A -> L B) (g : B -> L C) log :
  lbind (lbind m f) g log = lbind m (fun x => lbind (f x) g) log.
Proof.
  unfold lbind. destruct (m log) as [[e | x] log']; reflexivity.
Qed.

Lemma lbind_lret {A B} (x : A) (f : A -> L B) log :
  lbind (lret x) f log = f x log.
Proof. reflexivity. Qed.

Lemma lbind_congr {A B} (m m' : L A) (f f' : A -> L B) log :
  (forall log0, m log0 = m' log0) ->
  (forall x log', f x log' = f' x log') ->
  lbind m f log = lbind m' f' log.
Proof.
  intros Hm Hf. unfold lbind. rewrite Hm.
  destruct (m' log) as [[e | x] log']; [reflexivity | apply Hf].
Qed.

Lemma apply_stages_app (l1 l2 : list stage) (module : ir_Module) log :
  apply_stages (l1 ++ l2) module log
  = lbind (apply_stages l1 module) (apply_stages l2) log.
Proof.
  revert module log. induction l1 as [|[p tag | e] l1 IH]; intros module log.
  - reflexivity.
  - cbn [apply_stages app]. rewrite lbind_assoc.
    apply lbind_congr; [reflexivity | intros m1 log1].
    rewrite lbind_assoc.
    apply lbind_congr; [reflexivity | intros [] log2]. apply IH.
  - reflexivity.
Qed.

Lemma memref_pipeline (g : Z) :
  Py.fstring [
    Py.Text "func.func(tpu-infer-memref-layout{hardware-generation=";
    Py.Field g;
    Py.Text "})"
  ]
  = match Py.str_int g with
    | inr generation =>
        inr ("func.func(tpu-infer-memref-layout{hardware-generation="
             ++ generation ++ "})")
    | inl e => inl e
    end.
Proof.
  cbn [Py.fstring rbind]. destruct (Py.str_int g); reflexivity.
Qed.

Lemma apply_vector_layout_pipeline (g : Z) (generation : string) :
  Py.str_int g = inr generation ->
  Py.fstring [
    Py.Text "func.func(tpu-apply-vector-layout{";
    Py.Text " sublane-count="; Py.Field 8;
    Py.Text " lane-count="; Py.Field 128;
    Py.Text " hardware-generation="; Py.Field g;
    Py.Text " mxu-contracting-size=";
    Py.Field (if (g <? 6)%Z then 128%Z else 256%Z);
    Py.Text " mxu-noncontracting-size=";
    Py.Field (if (g <? 6)%Z then 128%Z else 256%Z);
    Py.Text " max-sublanes-in-scratch="; Py.Field (8 * (8 + 1));
    Py.Text "})"
  ]
  = inr ("func.func(tpu-apply-vector-layout{"
         ++ " sublane-count=8 lane-count=128"
         ++ " hardware-generation=" ++ generation
         ++ " mxu-contracting-size=" ++ Py.decimal (mxu_tile g)
         ++ " mxu-noncontracting-size=" ++ Py.decimal (mxu_tile g)
         ++ " max-sublanes-in-scratch=72})").
Proof.
  intros Hg. cbn [Py.fstring]. rewrite Hg. unfold mxu_tile.
  change (Py.str_int 8) with (@inr exn string "8").
  change (Py.str_int 128) with (@inr exn string "128").
  change (Py.str_int (8 * (8 + 1))) with (@inr exn string "72").
  destruct (g <? 6)%Z.
  - change (Py.str_int 128) with (@inr exn string "128").
    cbn [rbind]. reflexivity.
  - change (Py.str_int 256) with (@inr exn string "256").
    cbn [rbind]. reflexivity.
Qed.

Lemma builtin_module_one (text : string) :
  builtin_module [text] = "builtin.module(" ++ text ++ ")".
Proof. reflexivity. Qed.

Lemma lower_tpu_kernel_refines (module : ir_Module) (g : Z) (log : list event) :
    _lower_tpu_kernel module g log
    = if verify module
      then lbind (dump_mlir module "original")
             (fun _ => apply_stages (stage_catalog g) module) log
      else (inl (ValueError "The compiled module fails MLIR verification"), log).
Proof.
  unfold _lower_tpu_kernel.
  destruct (verify module); [ | reflexivity].
  rewrite lbind_lret.
  apply lbind_congr; [reflexivity | intros [] log0].
  assert (Hrest :
            forall (m1 : ir_Module) log1,
              lbind (llift (Py.fstring [
                       Py.Text "func.func(tpu-infer-memref-layout{hardware-generation=";
                       Py.Field g; Py.Text "})"]))
                (fun text =>
                   lbind (run_pipeline (builtin_module [text]) m1)
                     (fun m2 =>
                        lbind (dump_mlir m2 "post-infer-memref-layout")
                          (fun _ =>
                             lbind (run_pipeline
                                      (builtin_module ["canonicalize"; "cse"]) m2)
                               (fun m3 =>
                                  lbind (dump_mlir m3
                                           "post-infer-memref-layout-simplify")
                                    (fun _ =>
                                       lbind (on_device_checks_stage m3)
                                         (fun m4 =>
   lbind (run_pipeline
            (builtin_module ["func.func(tpu-canonicalize-mosaic{})"]) m4)
     (fun m5 =>
        lbind (dump_mlir m5 "post-canonicalize-mosaic")
          (fun _ =>
             lbind (run_pipeline
                      (builtin_module
                         ["func.func(tpu-infer-vector-layout{sublane-count=8 lane-count=128})"])
                      m5)
               (fun m6 =>
                  lbind (dump_mlir m6 "post-infer-vector-layout")
                    (fun _ =>
                       lbind (llift (Py.fstring [
                                Py.Text "func.func(tpu-apply-vector-layout{";
                                Py.Text " sublane-count="; Py.Field 8;
                                Py.Text " lane-count="; Py.Field 128;
                                Py.Text " hardware-generation="; Py.Field g;
                                Py.Text " mxu-contracting-size=";
                                Py.Field (if (g <? 6)%Z then 128%Z else 256%Z);
                                Py.Text " mxu-noncontracting-size=";
                                Py.Field (if (g <? 6)%Z then 128%Z else 256%Z);
                                Py.Text " max-sublanes-in-scratch=";
                                Py.Field (8 * (8 + 1));
                                Py.Text "})"]))
                         (fun text' =>
                            lbind (run_pipeline (builtin_module [text']) m6)
                              (fun m7 =>
                                 lbind (dump_mlir m7 "post-apply-vector-layout")
                                   (fun _ =>
                                      lbind (run_pipeline
                                               (builtin_module ["canonicalize"; "cse"])
                                               m7)
                                        (fun m8 =>
                                           lbind (dump_mlir m8
                                                    "post-apply-vector-layout-simplify")
                                             (fun _ => lret m8))))))))))))))) log1
              = apply_stages
                  match Py.str_int g with
                  | inr generation => generation_stages g generation
                  | inl e => [Reject e]
                  end m1 log1).
  { intros m1 log1. rewrite memref_pipeline. unfold lbind at 1, llift.
    destruct (Py.str_int g) as [e | generation] eqn:Hg; [reflexivity | ].
    unfold generation_stages. cbn [apply_stages app].
    rewrite builtin_module_one, !append_assoc.
    apply lbind_congr; [reflexivity | intros m2 log2].
    apply lbind_congr; [reflexivity | intros [] log3].
    apply lbind_congr; [reflexivity | intros m3 log4].
    apply lbind_congr; [reflexivity | intros [] log5].
    rewrite apply_stages_app.
    apply lbind_congr; [apply on_device_checks_stage_catalog | intros m4 log6].
    cbn [apply_stages].
    apply lbind_congr; [reflexivity | intros m5 log7].
    apply lbind_congr; [reflexivity | intros [] log8].
    apply lbind_congr; [reflexivity | intros m6 log9].
    apply lbind_congr; [reflexivity | intros [] log10].
    rewrite (apply_vector_layout_pipeline g generation Hg).
    unfold lbind at 1, llift. rewrite builtin_module_one, !append_assoc.
    repeat (apply lbind_congr; [reflexivity | intros ? ?]).
    reflexivity. }
  unfold stage_catalog.
  destruct _MOSAIC_ALLOW_HLO.
  - cbn [apply_stages app]. rewrite lbind_assoc.
    apply lbind_congr; [reflexivity | intros m1 log1].
    rewrite lbind_assoc.
    apply lbind_congr; [reflexivity | intros [] log2].
    rewrite lbind_lret. apply Hrest.
  - cbn [apply_stages app]. rewrite lbind_lret. apply Hrest.
Qed.

Lemma ran_app (l1 l2 : list event) : ran (l1 ++ l2) = (ran l1 ++ ran l2)%list.
Proof.
  induction l1 as [|[p | n] l1 IH]; simpl; [reflexivity | now rewrite IH | exact IH].
Qed.

Lemma run_pipeline_ran (p : string) (module module' : ir_Module) log log' :
  run_pipeline p module log = (inr module', log') ->
  ran log' = (ran log ++ [p])%list.
Proof.
  unfold run_pipeline, lbind, emit.
  destruct (pass_manager_run p module); intros H; inversion H; subst.
  now rewrite ran_app.
Qed.

(** What [dump_mlir] does: nothing when dumping is off, and else one dump,
    or the exception of the writing with nothing dumped. *)
Lemma dump_mlir_spec (module : ir_Module) (name : string) (log : list event) :
  dump_mlir module name log
  = match dump_directory with
    | Some outdir =>
        match write_dump outdir name module with
        | None => (inr tt, (log ++ [Dumped name])%list)
        | Some e => (inl e, log)
        end
    | None => (inr tt, log)
    end.
Proof.
  unfold dump_mlir, dump_directory, emit, lret, lraise.
  destruct (FLAGS "xla_mosaic_dump_to") as [[v | ] | ]; try reflexivity.
  destruct (v =? "sponge"); [ | reflexivity].
  destruct (environ "TEST_UNDECLARED_OUTPUTS_DIR") as [outdir | ]; [ | reflexivity].
  destruct (outdir =? ""); cbn [negb]; [reflexivity | ].
  now destruct (write_dump outdir name module).
Qed.

Lemma dump_mlir_ran (module : ir_Module) (name : string) log r log' :
  dump_mlir module name log = (r, log') -> ran log' = ran log.
Proof.
  rewrite dump_mlir_spec.
  destruct dump_directory as [outdir | ]; [ | now intros [= _ <-]].
  destruct (write_dump outdir name module); intros [= _ <-]; [reflexivity | ].
  rewrite ran_app. simpl. apply app_nil_r.
Qed.

Lemma apply_stages_ran (stages : list stage) :
  forall (module module' : ir_Module) log log',
    apply_stages stages module log = (inr module', log') ->
    ran log' = (ran log ++ pipelines_of stages)%list.
Proof.
  induction stages as [|[p tag | e] stages IH]; intros module module' log log'.
  - intros H. inversion H. simpl. now rewrite app_nil_r.
  - cbn [apply_stages pipelines_of]. unfold lbind at 1.
    destruct (run_pipeline p module log) as [[e | m1] log1] eqn:Hrun;
      [discriminate | ].
    unfold lbind at 1.
    destruct (dump_mlir m1 tag log1) as [[e | []] log2] eqn:Hdump;
      [discriminate | ].
    intros H. apply IH in H. rewrite H.
    rewrite (dump_mlir_ran _ _ _ _ _ Hdump), (run_pipeline_ran _ _ _ _ _ Hrun).
    now rewrite <- app_assoc.
  - discriminate.
Qed.

Lemma lower_tpu_kernel_ran (module module' : ir_Module) (g : Z) log log' :
  _lower_tpu_kernel module g log = (inr module', log') ->
  ran log' = (ran log ++ pipelines_of (stage_catalog g))%list.
Proof.
  rewrite lower_tpu_kernel_refines.
  destruct (verify module); [ | discriminate].
  unfold lbind at 1.
  destruct (dump_mlir module "original" log) as [[e | []] log0] eqn:Hdump;
    [discriminate | ].
  intros H. apply apply_stages_ran in H.
  now rewrite H, (dump_mlir_ran _ _ _ _ _ Hdump).
Qed.

(** C5. For every module and hardware generation the Module Lowerer fails
    at once, with nothing run, when the module does not verify; otherwise it
    is the stage catalog applied in its order, a raising pipeline or a
    rejection ending the run: the legalization sub-pipeline when the
    non-standard dialect is allowed, memref-layout inference for the
    generation, canonicalize and cse, the on-device check stage, the
    kernel-specific canonicalization, vector-layout inference with 8
    sublanes and 128 lanes, vector-layout application with 8 sublanes, 128
    lanes, the generation, a tile of 128 below generation 6 and 256 from it
    on, and 72 sublanes of scratch, then canonicalize and cse again.  A run
    that returns has run exactly the catalog's pipelines, in that order. *)
Theorem lower_tpu_kernel_stage_order :
  forall (module : ir_Module) (g : Z) (log : list event),
    _lower_tpu_kernel module g log
    = (if verify module
       then lbind (dump_mlir module "original")
              (fun _ => apply_stages (stage_catalog g) module) log
       else (inl (ValueError "The compiled module fails MLIR verification"),
             log))
    /\ (forall module' log',
           _lower_tpu_kernel module g log = (inr module', log') ->
           ran log' = (ran log ++ pipelines_of (stage_catalog g))%list)
    /\ ((g < 6)%Z -> mxu_tile g = 128%Z)
    /\ ((6 <= g)%Z -> mxu_tile g = 256%Z).
Proof.
  intros module g log.
  split; [apply lower_tpu_kernel_refines | ].
  split; [ | unfold mxu_tile; split; intros Hg;
             destruct (Z.ltb_spec g 6); [reflexivity | lia | lia | reflexivity]].
  intros module' log'. rewrite lower_tpu_kernel_refines.
  destruct (verify module); [ | discriminate].
  unfold lbind at 1.
  destruct (dump_mlir module "original" log) as [[e | []] log0] eqn:Hdump;
    [discriminate | ].
  intros H. apply apply_stages_ran in H.
  now rewrite H, (dump_mlir_ran _ _ _ _ _ Hdump).
Qed.

(** C9. When the on-device check flag is set, its value is split on commas:
    if every token is [bounds] the assertion-insertion pipeline runs; if
    some token is not, the stage raises, nothing having run, and the error
    lists the tokens other than [bounds], each once; when the flag is unset
    the stage does nothing and raises nothing. *)
Theorem on_device_checks_outcomes :
  forall (module : ir_Module) (log : list event),
    match checks_flag with
    | None => on_device_checks_stage module log = (inr module, log)
    | Some value =>
        let tokens := Py.split "," value in
        ((forall t, In t tokens -> t = "bounds") ->
         on_device_checks_stage module log
         = lbind (run_pipeline
                    "builtin.module(func.func(debug-assert-insertion))" module)
             (fun module' =>
                lbind (dump_mlir module' "post-assert-insertion")
                  (fun _ => lret module')) log)
        /\ ((exists t, In t tokens /\ t <> "bounds") ->
            exists listed,
              on_device_checks_stage module log
              = (inl (ValueError ("Unrecognized on-device check categories: "
                                  ++ Py.join ", " listed)), log)
              /\ NoDup listed
              /\ (forall t, In t listed <-> In t tokens /\ t <> "bounds"))
    end.
Proof.
  intros module log. rewrite on_device_checks_stage_catalog.
  unfold check_stages. destruct checks_flag as [value | ]; [ | reflexivity].
  cbv zeta. split.
  - intros Hall.
    assert (E : forallb (String.eqb "bounds") (Py.split "," value) = true).
    { apply forallb_forall. intros t Ht. apply String.eqb_eq.
      symmetry. now apply Hall. }
    rewrite E. reflexivity.
  - intros [t [Ht Hne]].
    assert (E : forallb (String.eqb "bounds") (Py.split "," value) = false).
    { apply not_true_is_false. intros Hall.
      rewrite forallb_forall in Hall. apply Hne. symmetry.
      apply String.eqb_eq. now apply Hall. }
    rewrite E. eexists. split; [reflexivity | ]. split.
    + apply NoDup_filter, NoDup_nodup.
    + intros u. rewrite filter_In. unfold set_of. rewrite nodup_In.
      rewrite negb_true_iff, String.eqb_neq. reflexivity.
Qed.

(** C6, as the code has it.  The lowering decision starts from
    [needs_hlo_passes] equal to the allow-hlo state and
    [needs_layout_passes] equal to [not device_type]: true when the device
    type is [None] and also when it is the empty string, false for any
    other tag.  When [needs_layout_passes] and the eager-lowering state
    both hold, the first device of the backend is looked up and the module
    lowerer runs on the clone for its generation; on its success both
    returned flags are false, and a failure of the lookup, of the reading
    of the generation or of the lowerer is the failure of the whole.
    Otherwise the lowerer does not run, the clone is serialized as it is
    and the returned flags are their initial values. *)
Theorem lower_mosaic_module_to_asm_decision :
  forall (module : ir_Module) (backend : string) (device_type : option string)
         (log : list event),
    let has_communication := fst (private_has_communication module) in
    let has_custom_barrier := snd (private_has_communication module) in
    let needs_hlo_passes := _MOSAIC_ALLOW_HLO in
    let needs_layout_passes :=
      match device_type with
      | None => true
      | Some tag => tag =? ""
      end in
    let serialize m needs :=
      lbind (run_pipeline "builtin.module(mosaic-serde{serialize=true})" m)
        (fun m' =>
           lret (write_bytecode m',
                 (has_communication, has_custom_barrier, fst needs, snd needs))) in
    let lowered := _lower_mosaic_module_to_asm module backend device_type log in
    (needs_layout_passes && _MOSAIC_USE_PYTHON_PIPELINE = false ->
     lowered
     = serialize (parse_asm module) (needs_hlo_passes, needs_layout_passes) log)
    /\ (needs_layout_passes && _MOSAIC_USE_PYTHON_PIPELINE = true ->
        match jax_devices backend with
        | None => lowered = (inl RuntimeError, log)
        | Some (device_kind, _) =>
            match hardware_generation_of device_kind with
            | inl e => lowered = (inl e, log)
            | inr g =>
                lowered
                = match _lower_tpu_kernel (parse_asm module) g log with
                  | (inr module', log') => serialize module' (false, false) log'
                  | (inl e, log') => (inl e, log')
                  end
            end
        end).
Proof.
  intros module backend device_type log. cbv zeta.
  assert (Hneeds : negb (truthy device_type)
                   = match device_type with
                     | None => true
                     | Some tag => tag =? ""
                     end).
  { destruct device_type as [tag | ]; [apply negb_involutive | reflexivity]. }
  rewrite <- Hneeds.
  unfold _lower_mosaic_module_to_asm.
  destruct (private_has_communication module) as [hc hb]. simpl fst; simpl snd.
  split.
  - intros Hcond. rewrite Hcond. rewrite lbind_lret. reflexivity.
  - intros Hcond. rewrite Hcond. unfold lbind, llift.
    destruct (jax_devices backend) as [[device_kind others] | ]; [ | reflexivity].
    destruct (hardware_generation_of device_kind) as [e | g]; [reflexivity | ].
    destruct (_lower_tpu_kernel (parse_asm module) g log) as [[e | lowered] log'];
      reflexivity.
Qed.

End LoweringFacts.

(** C6, as the specification words it, fails at the empty device type.  A
    tag is given, and it is a tag of the config, which the encoder writes
    under the key [device_type]; all the same [needs_layout_passes] is
    true, as for no tag, and with the eager lowering on the module lowerer
    runs. *)
Lemma empty_device_type_needs_layout_passes :
  (exists config log' payload,
      @_lower_to_custom_call_config (example_runtime "" None false) [] "tpu"
        (Some "") None None None None None None (Some 1%Z) []
      = (inr config, log')
      /\ config.(CustomCallBackendConfig.device_type) = Some ""
      /\ config.(CustomCallBackendConfig.needs_layout_passes) = true
      /\ CustomCallBackendConfig.to_json config = inr payload
      /\ occurs (b ", 'device_type': 'DEVICE_TYPE_'") payload
      /\ occurs (b ", 'needs_layout_passes': true") payload)
  /\ (exists asm log',
         @_lower_mosaic_module_to_asm
           (example_runtime "" (Some ("TPU v4", [])) true) [] "tpu" (Some "") []
         = (inr (asm, (false, false, false, false)), log')
         /\ In "builtin.module(func.func(tpu-infer-memref-layout{hardware-generation=4}))"
              (ran log')).
Proof.
  split.
  - eexists. eexists. eexists. split; [lazy; reflexivity | ].
    split; [reflexivity | ]. split; [reflexivity | ].
    split; [lazy; reflexivity | ]. split.
    + exists (b "{'custom_call_config': {'body': 'YnVpbHRpbi5tb2R1bGUobW9zYWljLXNlcmRle3NlcmlhbGl6ZT10cnVlfSk='"
              ++ b ", 'serialization_format': 1, 'needs_layout_passes': true}"),
             (b ", 'implicit_sharding': {'type': 'MANUAL'}}").
      vm_compute. reflexivity.
    + exists (b "{'custom_call_config': {'body': 'YnVpbHRpbi5tb2R1bGUobW9zYWljLXNlcmRle3NlcmlhbGl6ZT10cnVlfSk='"
              ++ b ", 'serialization_format': 1"),
             (b "}, 'device_type': 'DEVICE_TYPE_', 'implicit_sharding': {'type': 'MANUAL'}}").
      vm_compute. reflexivity.
  - eexists. eexists. split; [lazy; reflexivity | ].
    vm_compute. left. reflexivity.
Qed.

(* ===================================================================== *)
(** * The key scanner                                                      *)
(* ===================================================================== *)

Module KeyScanFacts.

Import KeyScan.

Lemma scan_app key st (x y : string) :
  scan key st (x ++ y) = scan key (scan key st x) y.
Proof.
  revert st. induction x as [|c x IH]; intros st; simpl; [reflexivity | apply IH].
Qed.

Lemma scan_found key (s : string) : scan key Found s = Found.
Proof.
  induction s as [|c s IH]; simpl; [reflexivity | exact IH].
Qed.

Lemma occurs_extend (p s x y : string) : occurs p s -> occurs p (x ++ s ++ y).
Proof.
  intros [u [v ->]]. exists (x ++ u), (v ++ y).
  now rewrite !append_assoc.
Qed.

Lemma occurs_snoc (p s : string) c : occurs p s -> occurs p (s ++ String c "").
Proof.
  intros H. apply (occurs_extend p s "" (String c "")) in H. exact H.
Qed.

(** *** The scanner finds every occurrence *)

Lemma scan_name key (rest tail : string) :
  quote_free rest = true ->
  scan key (Matching rest) (rest ++ tail) = scan key (Matching "") tail.
Proof.
  induction rest as [|c rest IH]; intros Hq; [reflexivity | ].
  simpl in Hq. apply andb_true_iff in Hq as [Hc Hq].
  apply negb_true_iff in Hc.
  simpl. unfold advance. rewrite Hc, Ascii.eqb_refl. now apply IH.
Qed.

Lemma scan_pattern_tail key (tail : string) :
  scan key (Matching "") (String dq (String ":" tail)) = Found.
Proof. simpl. apply scan_found. Qed.

Lemma scan_pattern key st (tail : string) :
  quote_free key = true ->
  scan key st (key_pattern key ++ tail) = Found.
Proof.
  intros Hq. unfold key_pattern.
  change (String dq (key ++ String dq ":") ++ tail)
    with (String dq ((key ++ String dq ":") ++ tail)).
  rewrite append_assoc.
  change (String dq ":" ++ tail) with (String dq (String ":" tail)).
  assert (Hopen : scan key (Matching key) (key ++ String dq (String ":" tail))
                  = Found).
  { rewrite scan_name by exact Hq. apply scan_pattern_tail. }
  assert (Hclosed : scan key Closed (key ++ String dq (String ":" tail)) = Found).
  { destruct key as [|c key]; [simpl; apply scan_found | ].
    simpl in Hq. apply andb_true_iff in Hq as [Hc Hq].
    apply negb_true_iff in Hc.
    cbn [append scan step].
    destruct (Ascii.eqb c ":"); [apply scan_found | ].
    unfold advance. rewrite Hc, Ascii.eqb_refl.
    rewrite scan_name by exact Hq. apply scan_pattern_tail. }
  destruct st as [ | rest | | ]; cbn [scan step].
  - rewrite Ascii.eqb_refl. exact Hopen.
  - unfold advance. rewrite Ascii.eqb_refl.
    destruct rest; [exact Hclosed | exact Hopen].
  - change (Ascii.eqb dq ":") with false. unfold advance.
    rewrite Ascii.eqb_refl. destruct key; [ | exact Hopen].
    simpl. apply scan_found.
  - apply scan_found.
Qed.

Lemma scan_complete key (s : string) :
  quote_free key = true ->
  has_key key s -> scan key Idle s = Found.
Proof.
  intros Hq [u [v ->]]. rewrite scan_app. now apply scan_pattern.
Qed.

(** *** What the scanner finds is an occurrence *)

Lemma reads_open key (s : string) : reads key (Matching key) (s ++ String dq "").
Proof. exists s, "". split; reflexivity. Qed.

Lemma reads_advance key rest (s : string) c :
  reads key (Matching rest) s ->
  reads key (advance key rest c) (s ++ String c "").
Proof.
  intros [before [name [-> Hkey]]]. unfold advance.
  destruct (Ascii.eqb_spec c dq) as [-> | Hc].
  - destruct rest as [|c' rest'].
    + rewrite append_empty_r in Hkey. subst name.
      exists before. now rewrite !append_assoc.
    + apply reads_open.
  - destruct rest as [|c' rest']; [exact I | ].
    destruct (Ascii.eqb_spec c c') as [-> | _]; [ | exact I].
    exists before, (name ++ String c' ""). split.
    + now rewrite append_assoc.
    + now rewrite append_assoc.
Qed.

Lemma reads_step key st (s : string) c :
  reads key st s -> reads key (step key st c) (s ++ String c "").
Proof.
  destruct st as [ | rest | | ]; cbn [step].
  - intros _. destruct (Ascii.eqb_spec c dq) as [-> | _]; [apply reads_open | exact I].
  - apply reads_advance.
  - intros [before ->].
    destruct (Ascii.eqb_spec c ":") as [-> | _].
    + exists before, "". unfold key_pattern.
      rewrite !append_assoc. simpl. now rewrite !append_assoc.
    + apply reads_advance. exists (before ++ String dq key), "".
      split; [ | reflexivity]. now rewrite !append_assoc.
  - apply occurs_snoc.
Qed.

Lemma reads_scan key (t : string) :
  forall st s, reads key st s -> reads key (scan key st t) (s ++ t).
Proof.
  induction t as [|c t IH]; intros st s H.
  - now rewrite append_empty_r.
  - simpl. change (String c t) with (String c "" ++ t).
    rewrite <- append_assoc. apply IH. now apply reads_step.
Qed.

Lemma scan_sound key (s : string) : scan key Idle s = Found -> has_key key s.
Proof.
  intros H. pose proof (reads_scan key s Idle "" I) as Hr.
  rewrite H in Hr. exact Hr.
Qed.

Lemma scan_spec key (s : string) :
  quote_free key = true ->
  (scan key Idle s = Found <-> has_key key s).
Proof.
  intros Hq. split; [apply scan_sound | now apply scan_complete].
Qed.


(** *** Sets of states *)

Lemma state_eqb_eq (x y : state) : state_eqb x y = true <-> x = y.
Proof.
  destruct x, y; simpl; try (split; [discriminate | discriminate]);
    try (split; reflexivity).
  rewrite String.eqb_eq. split; [now intros -> | now intros [= ->]].
Qed.

Lemma mem_In (x : state) (l : list state) : mem x l = true <-> In x l.
Proof.
  unfold mem. rewrite existsb_exists. split.
  - intros [y [Hy Heq]]. apply state_eqb_eq in Heq. now subst.
  - intros H. exists x. split; [exact H | now apply state_eqb_eq].
Qed.

Lemma mem_uniq (x : state) (l : list state) : mem x (uniq l) = mem x l.
Proof.
  induction l as [|y l IH]; [reflexivity | ].
  cbn [uniq]. destruct (mem y l) eqn:Ey.
  - rewrite IH. simpl. destruct (state_eqb x y) eqn:Exy; [ | reflexivity].
    apply state_eqb_eq in Exy. subst. now rewrite Ey.
  - simpl. now rewrite IH.
Qed.

Lemma mem_union (x : state) (l1 l2 : list state) :
  mem x (union l1 l2) = mem x l1 || mem x l2.
Proof.
  unfold union. rewrite mem_uniq. unfold mem. apply existsb_app.
Qed.

Lemma subset_mem (l1 l2 : list state) (x : state) :
  subset l1 l2 = true -> mem x l1 = true -> mem x l2 = true.
Proof.
  unfold subset. rewrite forallb_forall. intros H Hx.
  apply H. now apply mem_In.
Qed.

Lemma mem_image key (pre : list state) (s : string) (st : state) :
  mem st pre = true -> mem (scan key st s) (image key pre s) = true.
Proof.
  intros H. unfold image. rewrite mem_uniq. apply mem_In.
  apply in_map_iff. exists st. split; [reflexivity | now apply mem_In].
Qed.

(** *** Rules for the writer *)

Lemma bind_inv (w : W unit) (f : unit -> W unit) (o : bytes) :
  bind w f = inr (tt, o) ->
  exists o1 o2, w = inr (tt, o1) /\ f tt = inr (tt, o2) /\ o = o1 ++ o2.
Proof.
  unfold bind. destruct w as [e | [[] o1]]; [discriminate | ].
  destruct (f tt) as [e | [[] o2]]; [discriminate | ].
  intros [= <-]. now exists o1, o2.
Qed.

Lemma bind_lift_inv {A} (r : result A) (f : A -> W unit) (o : bytes) :
  bind (lift r) f = inr (tt, o) -> exists x, r = inr x /\ f x = inr (tt, o).
Proof.
  destruct r as [e | x]; [discriminate | ]. cbn [lift bind].
  destruct (f x) as [e | [[] o2]] eqn:E; [discriminate | ].
  intros [= <-]. exists x. split; [reflexivity | exact E].
Qed.

Section Rules.

Variable key : string.

Lemma transfers_bind pre mid post (w : W unit) (f : unit -> W unit) :
  transfers key pre w mid -> transfers key mid (f tt) post ->
  transfers key pre (bind w f) post.
Proof.
  intros H1 H2 o Ho st Hst.
  apply bind_inv in Ho as [o1 [o2 [Hw [Hf ->]]]].
  rewrite scan_app. eapply H2; [exact Hf | ]. eapply H1; eassumption.
Qed.

Lemma transfers_lift {A} pre post (r : result A) (f : A -> W unit) :
  (forall x, r = inr x -> transfers key pre (f x) post) ->
  transfers key pre (bind (lift r) f) post.
Proof.
  intros H o Ho. apply bind_lift_inv in Ho as [x [Hr Hf]].
  eapply H; eassumption.
Qed.

Lemma transfers_write pre (s : bytes) post :
  image key pre s = post -> transfers key pre (write s) post.
Proof.
  intros <- o [= <-] st Hst. now apply mem_image.
Qed.

Lemma transfers_weaken pre post post' (w : W unit) :
  transfers key pre w post' -> subset post' post = true ->
  transfers key pre w post.
Proof.
  intros H Hsub o Ho st Hst. eapply subset_mem; [exact Hsub | ]. eapply H; eassumption.
Qed.

Lemma transfers_write_app pre mid post (x y : bytes) :
  transfers key pre (write x) mid -> transfers key mid (write y) post ->
  transfers key pre (write (x ++ y)) post.
Proof.
  intros H1 H2 o [= <-] st Hst. rewrite scan_app.
  eapply H2; [reflexivity | ]. eapply H1; [reflexivity | exact Hst].
Qed.

Lemma transfers_write_ascii pre post (s : string) :
  transfers key pre (write s) post -> transfers key pre (write_ascii s) post.
Proof.
  intros H o Ho. unfold write_ascii, Py.encode_ascii in Ho.
  destruct (Py.all_chars Py.is_ascii s); [ | discriminate].
  simpl in Ho. apply H. exact Ho.
Qed.

Lemma transfers_write_if pre p1 p2 post (c : bool) (x y : bytes) :
  transfers key pre (write x) p1 -> transfers key pre (write y) p2 ->
  union p1 p2 = post ->
  transfers key pre (write (if c then x else y)) post.
Proof.
  intros H1 H2 <- o Ho st Hst. rewrite mem_union.
  destruct c; [erewrite H1 | erewrite H2, orb_true_r]; eauto.
Qed.

Lemma transfers_if pre p1 p2 post (c : bool) (w1 w2 : W unit) :
  (c = true -> transfers key pre w1 p1) ->
  (c = false -> transfers key pre w2 p2) ->
  union p1 p2 = post ->
  transfers key pre (if c then w1 else w2) post.
Proof.
  intros H1 H2 <- o Ho st Hst. rewrite mem_union.
  destruct c; [erewrite H1 | erewrite H2, orb_true_r]; eauto.
Qed.

Lemma transfers_ret pre : transfers key pre (ret tt) pre.
Proof.
  intros o [= <-] st Hst. exact Hst.
Qed.

Lemma transfers_raise pre (e : exn) : transfers key pre (raise e) [].
Proof. intros o Ho. discriminate. Qed.

Lemma transfers_when pre p post (c : bool) (w : W unit) :
  transfers key pre w p -> union pre p = post ->
  transfers key pre (when c w) post.
Proof.
  intros H <- o Ho st Hst. rewrite mem_union. destruct c; simpl in Ho.
  - erewrite H, orb_true_r; eauto.
  - injection Ho as <-. simpl. now rewrite Hst.
Qed.

Lemma transfers_when_true pre post (w : W unit) :
  transfers key pre w post -> transfers key pre (when true w) post.
Proof. exact (fun H => H). Qed.

Lemma transfers_when_false pre (w : W unit) :
  transfers key pre (when false w) pre.
Proof. apply transfers_ret. Qed.

Lemma transfers_when_some {A} pre p post (x : option A) (f : A -> W unit) :
  (forall v, transfers key pre (f v) p) -> union pre p = post ->
  transfers key pre (when_some x f) post.
Proof.
  intros H <- o Ho st Hst. rewrite mem_union. destruct x as [v | ]; simpl in Ho.
  - erewrite H, orb_true_r; eauto.
  - injection Ho as <-. simpl. now rewrite Hst.
Qed.

Lemma transfers_when_present {A} pre post (v : A) (f : A -> W unit) :
  transfers key pre (f v) post -> transfers key pre (when_some (Some v) f) post.
Proof. exact (fun H => H). Qed.

Lemma transfers_when_none {A} pre (f : A -> W unit) :
  transfers key pre (when_some None f) pre.
Proof. apply transfers_ret. Qed.

Lemma transfers_for {A} pre post (l : list A) (body : nat -> A -> W unit) :
  (forall i x, In x l -> transfers key pre (body i x) post) ->
  subset post pre = true ->
  forall i, transfers key pre (for_enumerate i l body) pre.
Proof.
  intros Hbody Hsub. induction l as [|x l IH]; intros i.
  - apply transfers_ret.
  - cbn [for_enumerate]. eapply transfers_bind.
    + eapply transfers_weaken; [apply Hbody; now left | exact Hsub].
    + apply IH. intros j y Hy. apply Hbody. now right.
Qed.

Lemma transfers_found (w : W unit) : transfers key [Found] w [Found].
Proof.
  intros o _ st Hst. apply mem_In in Hst as [<- | []].
  now rewrite scan_found.
Qed.

(** Text without a double quote keeps the scanner among the open states. *)

Lemma suffixes_tail c (rest : string) (s : string) :
  In (String c rest) (suffixes s) -> In rest (suffixes s).
Proof.
  induction s as [|c' s IH]; simpl.
  - intros [H | []]. discriminate.
  - intros [[= _ <-] | H].
    + right. destruct s; now left.
    + right. now apply IH.
Qed.

Lemma open_states_In (st : state) :
  In st (open_states key) <->
  st = Idle \/ exists rest, st = Matching rest /\ In rest (suffixes key).
Proof.
  unfold open_states. simpl. rewrite in_map_iff. split.
  - intros [<- | [rest [<- H]]]; [now left | right; now exists rest].
  - intros [-> | [rest [-> H]]]; [now left | right; now exists rest].
Qed.

Lemma step_open (st : state) c :
  Ascii.eqb c dq = false ->
  In st (open_states key) -> In (step key st c) (open_states key).
Proof.
  intros Hc. rewrite !open_states_In.
  intros [-> | [rest [-> Hrest]]]; cbn [step].
  - rewrite Hc. now left.
  - unfold advance. rewrite Hc. destruct rest as [|c' rest']; [now left | ].
    destruct (Ascii.eqb c c'); [ | now left].
    right. exists rest'. split; [reflexivity | ].
    eapply suffixes_tail; eassumption.
Qed.

Lemma scan_open (s : string) :
  quote_free s = true ->
  forall st, In st (open_states key) -> In (scan key st s) (open_states key).
Proof.
  induction s as [|c s IH]; intros Hq st Hst; [exact Hst | ].
  simpl in Hq. apply andb_true_iff in Hq as [Hc Hq].
  apply negb_true_iff in Hc. simpl. apply IH; [exact Hq | ].
  now apply step_open.
Qed.

Lemma transfers_plain pre (s : bytes) :
  quote_free s = true -> subset pre (open_states key) = true ->
  transfers key pre (write s) (open_states key).
Proof.
  intros Hq Hsub o [= <-] st Hst. apply mem_In. apply scan_open; [exact Hq | ].
  apply mem_In. eapply subset_mem; eassumption.
Qed.

(** Text without a lower-case letter never starts on a name that begins
    with one. *)

Lemma step_upper (st : state) c :
  starts_lower key = true -> Py.is_lower c = false ->
  In st (upper_states key) -> In (step key st c) (upper_states key).
Proof.
  intros Hk Hc. unfold upper_states.
  destruct key as [|c0 rest] eqn:Ekey; [discriminate | ]. simpl in Hk.
  intros [<- | [<- | []]]; cbn [step].
  - destruct (Ascii.eqb c dq); [right; now left | now left].
  - unfold advance. destruct (Ascii.eqb c dq); [right; now left | ].
    destruct (Ascii.eqb_spec c c0) as [-> | _]; [congruence | now left].
Qed.

Lemma scan_upper (s : string) :
  starts_lower key = true ->
  Py.all_chars (fun c => negb (Py.is_lower c)) s = true ->
  forall st, In st (upper_states key) -> In (scan key st s) (upper_states key).
Proof.
  intros Hk. induction s as [|c s IH]; intros Hs st Hst; [exact Hst | ].
  simpl in Hs. apply andb_true_iff in Hs as [Hc Hs].
  apply negb_true_iff in Hc. simpl. apply IH; [exact Hs | ].
  now apply step_upper.
Qed.

Lemma transfers_upper pre (s : bytes) :
  starts_lower key = true ->
  Py.all_chars (fun c => negb (Py.is_lower c)) s = true ->
  subset pre (upper_states key) = true ->
  transfers key pre (write s) (upper_states key).
Proof.
  intros Hk Hs Hsub o [= <-] st Hst. apply mem_In. apply scan_upper; try assumption.
  apply mem_In. eapply subset_mem; eassumption.
Qed.

End Rules.

End KeyScanFacts.
(* ===================================================================== *)
(** * The text of numbers, base64 and upper-cased tags                     *)
(* ===================================================================== *)

Lemma string_of_uint_chars (d : Decimal.uint) :
  Py.all_chars Py.int_char (DecimalString.NilEmpty.string_of_uint d) = true.
Proof.
  induction d; simpl; try exact IHd; reflexivity.
Qed.

Lemma decimal_chars (n : Z) : Py.all_chars Py.int_char (Py.decimal n) = true.
Proof.
  unfold Py.decimal, DecimalString.NilZero.string_of_int.
  destruct (Z.to_int n) as [d | d]; simpl;
    unfold DecimalString.NilZero.string_of_uint;
    destruct d; try reflexivity; apply (string_of_uint_chars (_ d)).
Qed.

Lemma int_char_plain (c : ascii) :
  Py.int_char c = true ->
  negb (Ascii.eqb c dq) && Py.is_ascii c && negb (Py.is_upper c) = true.
Proof.
  destruct c as [[] [] [] [] [] [] [] []]; vm_compute; congruence.
Qed.

Lemma quote_free_decimal (n : Z) : quote_free (Py.decimal n) = true.
Proof.
  eapply all_chars_weaken; [ | apply decimal_chars].
  intros c Hc. apply int_char_plain in Hc.
  now apply andb_true_iff in Hc as [Hc _]; apply andb_true_iff in Hc as [Hc _].
Qed.

Lemma lower_fixed (s : string) :
  Py.all_chars (fun c => negb (Py.is_upper c)) s = true -> Py.lower s = s.
Proof.
  induction s as [|c s IH]; simpl; [reflexivity | ].
  intros H. apply andb_true_iff in H as [Hc Hs].
  apply negb_true_iff in Hc. now rewrite Hc, IH.
Qed.

Lemma lower_decimal (n : Z) : Py.lower (Py.decimal n) = Py.decimal n.
Proof.
  apply lower_fixed. eapply all_chars_weaken; [ | apply decimal_chars].
  intros c Hc. apply int_char_plain in Hc.
  now apply andb_true_iff in Hc as [_ Hc].
Qed.

Lemma is_ascii_decimal (n : Z) : Py.all_chars Py.is_ascii (Py.decimal n) = true.
Proof.
  eapply all_chars_weaken; [ | apply decimal_chars].
  intros c Hc. apply int_char_plain in Hc.
  apply andb_true_iff in Hc as [Hc _]. now apply andb_true_iff in Hc as [_ Hc].
Qed.

Lemma encode_ascii_decimal (n : Z) :
  Py.encode_ascii (Py.decimal n) = inr (Py.decimal n).
Proof.
  unfold Py.encode_ascii. now rewrite is_ascii_decimal.
Qed.

(** [str] of an [int] returns its decimal numeral, for a number within the
    digit limit only. *)
Lemma str_int_inv (n : Z) (text : string) :
  Py.str_int n = inr text -> text = Py.decimal n /\ Py.printable n = true.
Proof.
  unfold Py.str_int. destruct (Py.printable n); [ | discriminate].
  intros [= <-]. now split.
Qed.

Lemma is_ascii_cost_estimate_text (c : CostEstimate.t) :
  Py.all_chars Py.is_ascii (cost_estimate_text c) = true.
Proof.
  unfold cost_estimate_text. now rewrite !all_chars_app, !is_ascii_decimal.
Qed.

(** What [CostEstimate.to_json] gives: the text, or the error of the first
    number beyond the digit limit. *)
Lemma cost_estimate_to_json_spec (c : CostEstimate.t) :
  CostEstimate.to_json c
  = if cost_estimate_printable (Some c) then inr (cost_estimate_text c)
    else inl Py.digit_limit_error.
Proof.
  unfold CostEstimate.to_json, cost_estimate_printable. cbn [Py.fstring].
  unfold Py.str_int.
  destruct (Py.printable (CostEstimate.flops c)); [ | reflexivity].
  destruct (Py.printable (CostEstimate.transcendentals c)); [ | reflexivity].
  destruct (Py.printable (CostEstimate.bytes_accessed c)); [ | reflexivity].
  cbn [rbind andb]. unfold Py.encode_ascii.
  pose proof (is_ascii_cost_estimate_text c) as H.
  unfold cost_estimate_text in *.
  change (b "," ++ b " 'bytes_accessed': " ++ ?x)
    with (b ", 'bytes_accessed': " ++ x).
  rewrite append_empty_r, H. reflexivity.
Qed.

Lemma cost_estimate_to_json_inv (c : CostEstimate.t) (text : bytes) :
  CostEstimate.to_json c = inr text ->
  text = cost_estimate_text c /\ cost_estimate_printable (Some c) = true.
Proof.
  rewrite cost_estimate_to_json_spec.
  destruct (cost_estimate_printable (Some c)); [ | discriminate].
  intros [= <-]. now split.
Qed.

Lemma quote_free_lower_str_bool (v : bool) :
  quote_free (Py.lower (Py.str_bool v)) = true.
Proof. destruct v; reflexivity. Qed.

Lemma float_char_plain (c : ascii) :
  float_char c = true -> negb (Ascii.eqb c dq) && Py.is_ascii c = true.
Proof.
  destruct c as [[] [] [] [] [] [] [] []]; vm_compute; congruence.
Qed.

Lemma quote_free_float (x : pyfloat) : quote_free (float_str x) = true.
Proof.
  eapply all_chars_weaken; [ | apply Is_true_eq_true, (float_str_ok x)].
  intros c Hc. apply float_char_plain in Hc.
  now apply andb_true_iff in Hc as [Hc _].
Qed.

Lemma digit_plain (n : nat) : Ascii.eqb (base64.digit n) dq = false.
Proof.
  assert (H : forallb (fun i => negb (Ascii.eqb (base64.digit i) dq)) (seq 0 64)
              = true) by reflexivity.
  rewrite forallb_forall in H.
  assert (Hn : (n mod 64 < 64)%nat) by (apply Nat.mod_upper_bound; discriminate).
  specialize (H (n mod 64)%nat (proj2 (in_seq _ _ _) (conj (Nat.le_0_l _) Hn))).
  apply negb_true_iff in H. unfold base64.digit in *.
  now rewrite Nat.Div0.mod_mod in H.
Qed.

Lemma quote_free_b64encode (s : bytes) : quote_free (base64.b64encode s) = true.
Proof.
  assert (H : forall n (t : bytes), (String.length t <= n)%nat ->
                                    quote_free (base64.b64encode t) = true).
  { induction n as [|n IH]; intros t Ht.
    - destruct t; [reflexivity | simpl in Ht; lia].
    - destruct t as [|x [|y [|z t]]]; try reflexivity;
        cbn [base64.b64encode quote_free Py.all_chars];
        rewrite ?digit_plain; try reflexivity.
      cbn [negb andb]. apply IH. simpl in Ht. lia. }
  exact (H _ s (Nat.le_refl _)).
Qed.

Lemma upper_char (c : ascii) :
  Py.is_lower c = true ->
  Py.is_lower (ascii_of_nat (nat_of_ascii c - 32)) = false.
Proof.
  destruct c as [[] [] [] [] [] [] [] []]; vm_compute; congruence.
Qed.

Lemma upper_chars (s : string) :
  Py.all_chars (fun c => negb (Py.is_lower c)) (Py.upper s) = true.
Proof.
  induction s as [|c s IH]; [reflexivity | ].
  cbn [Py.upper]. destruct (Py.is_lower c) eqn:Hc.
  - cbn [Py.all_chars]. now rewrite (upper_char c Hc), IH.
  - destruct (Ascii.eqb c "223"); cbn [Py.all_chars].
    + exact IH.
    + now rewrite Hc, IH.
Qed.
(* ===================================================================== *)
(** * Scanning the encoder's writes                                        *)
(* ===================================================================== *)

Import KeyScan KeyScanFacts.

Ltac compute_eq :=
  lazymatch goal with
  | |- ?l = ?r =>
      let v := eval vm_compute in l in
      unify r v; exact (@eq_refl _ v)
  end.

Lemma quote_free_str (value : pyval) (text : string) :
  is_flag_value value = true -> str value = inr text -> quote_free text = true.
Proof.
  destruct value as [v | n | x | s | ]; cbn [str]; try discriminate; intros _.
  - intros [= <-]. now destruct v.
  - intros H. apply str_int_inv in H as [-> _]. apply quote_free_decimal.
  - intros [= <-]. apply quote_free_float.
Qed.

Ltac plain :=
  first
    [ assumption
    | apply quote_free_decimal
    | rewrite lower_decimal; apply quote_free_decimal
    | apply quote_free_lower_str_bool
    | apply quote_free_b64encode
    | apply quote_free_float
    | match goal with
      | Hall : forallb _ ?l = true, Hin : In (?flag, _) ?l
        |- quote_free ?flag = true =>
          exact (proj1 (forallb_forall _ l) Hall _ Hin)
      end
    | match goal with
      | E : str ?v = inr ?text |- quote_free ?text = true =>
          apply (quote_free_str v text); [ | exact E];
          unfold is_flag_value;
          repeat match goal with H : _ = _ |- _ => rewrite H end;
          reflexivity
      end ].

Ltac literal :=
  lazymatch goal with
  | |- transfers ?k ?pre (write ?s) _ =>
      let r := eval vm_compute in (image k pre s) in
      apply (transfers_write k pre s r); vm_compute; reflexivity
  end.

Ltac transfer :=
  lazymatch goal with
  | |- transfers _ [Found] _ _ => apply transfers_found
  | |- transfers _ _ (write_ascii _) _ => apply transfers_write_ascii; transfer
  | |- transfers _ _ (bind (lift (CostEstimate.to_json _)) write) _ =>
      apply transfers_lift;
      let text := fresh "text" in
      let E := fresh "E" in
      intros text E; apply cost_estimate_to_json_inv in E as [-> _];
      unfold cost_estimate_text; transfer
  | |- transfers _ _ (bind (lift (Py.str_int _)) _) _ =>
      apply transfers_lift;
      let text := fresh "text" in
      let E := fresh "E" in
      intros text E; apply str_int_inv in E as [-> _]; transfer
  | |- transfers _ _ (bind (lift (str _)) _) _ =>
      apply transfers_lift;
      let text := fresh "text" in
      let E := fresh "E" in
      intros text E; transfer
  | |- transfers _ _ (bind _ _) _ =>
      eapply transfers_bind; [transfer | cbv beta; transfer]
  | |- transfers _ _ (when true _) _ => apply transfers_when_true; transfer
  | |- transfers _ _ (when false _) _ => apply transfers_when_false
  | |- transfers _ _ (when _ _) _ =>
      eapply transfers_when; [transfer | compute_eq]
  | |- transfers _ _ (when_some (Some _) _) _ =>
      apply transfers_when_present; cbv beta; transfer
  | |- transfers _ _ (when_some None _) _ => apply transfers_when_none
  | |- transfers _ _ (when_some _ _) _ =>
      eapply transfers_when_some; [intros ?; cbv beta; transfer | compute_eq]
  | |- transfers _ _ (for_enumerate _ _ _) _ =>
      eapply transfers_for;
      [ intros ? ? ?;
        try match goal with x : (_ * _)%type |- _ => destruct x end;
        cbv beta iota; transfer
      | vm_compute; reflexivity ]
  | |- transfers _ _ (if _ then _ else _) _ =>
      eapply transfers_if; [intros ?; transfer | intros ?; transfer | compute_eq]
  | |- transfers _ _ (raise _) _ => apply transfers_raise
  | |- transfers _ _ (write (b _)) _ => literal
  | |- transfers _ _ (write (if _ then _ else _)) _ =>
      eapply transfers_write_if; [transfer | transfer | compute_eq]
  | |- transfers _ _ (write (_ ++ _)) _ =>
      eapply transfers_write_app; [transfer | transfer]
  | |- transfers _ _ (write (Py.upper _)) _ =>
      apply transfers_upper;
      [reflexivity | apply upper_chars | vm_compute; reflexivity]
  | |- transfers _ _ (write _) _ =>
      apply transfers_plain; [plain | vm_compute; reflexivity]
  end.


Ltac project :=
  unfold CustomCallBackendConfig.to_json_writes;
  cbn [CustomCallBackendConfig.lowered_module_asm
       CustomCallBackendConfig.has_communication
       CustomCallBackendConfig.collective_id
       CustomCallBackendConfig.device_type
       CustomCallBackendConfig.cost_estimate
       CustomCallBackendConfig.needs_hlo_passes
       CustomCallBackendConfig.needs_layout_passes
       CustomCallBackendConfig.vmem_limit_bytes
       CustomCallBackendConfig.flags
       CustomCallBackendConfig.allow_input_fusion
       CustomCallBackendConfig.serialization_format
       CustomCallBackendConfig.internal_scratch_in_bytes].

Lemma key_quote_free (f : field) : quote_free (key_of f) = true.
Proof. destruct f; reflexivity. Qed.

Lemma is_none_true {A} (x : option A) : negb (is_none x) = false -> x = None.
Proof. destruct x; [discriminate | reflexivity]. Qed.

Lemma is_none_false {A} (x : option A) :
  negb (is_none x) = true -> exists v, x = Some v.
Proof. destruct x as [v | ]; [now exists v | discriminate]. Qed.

(** A field whose guard fails leaves no trace of its key. *)
Lemma absent_never_found (f : field) (self : CustomCallBackendConfig.t) :
  flag_names_plain self = true -> guard f self = false ->
  exists post,
    transfers (key_of f) [Idle] (CustomCallBackendConfig.to_json_writes self) post
    /\ mem Found post = false.
Proof.
  destruct self as [asm hc cid dt ce nh nl vmem fl aif sf isb].
  unfold flag_names_plain, guard, source_is_none.
  cbn [CustomCallBackendConfig.lowered_module_asm
       CustomCallBackendConfig.has_communication
       CustomCallBackendConfig.collective_id
       CustomCallBackendConfig.device_type
       CustomCallBackendConfig.cost_estimate
       CustomCallBackendConfig.needs_hlo_passes
       CustomCallBackendConfig.needs_layout_passes
       CustomCallBackendConfig.vmem_limit_bytes
       CustomCallBackendConfig.flags
       CustomCallBackendConfig.allow_input_fusion
       CustomCallBackendConfig.serialization_format
       CustomCallBackendConfig.internal_scratch_in_bytes].
  intros Hplain Hguard.
  destruct fl as [l | ]; destruct f; cbn [is_none negb] in Hguard;
    try discriminate; try apply is_none_true in Hguard; subst;
    (eexists; split; [project; cbn [key_of]; transfer | vm_compute; reflexivity]).
Qed.

(** A field whose guard holds has its key written. *)
Lemma present_found (f : field) (self : CustomCallBackendConfig.t) :
  guard f self = true ->
  transfers (key_of f) [Idle] (CustomCallBackendConfig.to_json_writes self) [Found].
Proof.
  destruct self as [asm hc cid dt ce nh nl vmem fl aif sf isb].
  unfold guard, source_is_none.
  cbn [CustomCallBackendConfig.lowered_module_asm
       CustomCallBackendConfig.has_communication
       CustomCallBackendConfig.collective_id
       CustomCallBackendConfig.device_type
       CustomCallBackendConfig.cost_estimate
       CustomCallBackendConfig.needs_hlo_passes
       CustomCallBackendConfig.needs_layout_passes
       CustomCallBackendConfig.vmem_limit_bytes
       CustomCallBackendConfig.flags
       CustomCallBackendConfig.allow_input_fusion
       CustomCallBackendConfig.serialization_format
       CustomCallBackendConfig.internal_scratch_in_bytes].
  intros Hguard.
  destruct f; try (apply is_none_false in Hguard as [v Hv]); subst;
    (project; cbn [key_of]; transfer).
Qed.

Lemma to_json_writes_of (self : CustomCallBackendConfig.t) (out : bytes) :
  CustomCallBackendConfig.to_json self = inr out ->
  CustomCallBackendConfig.to_json_writes self = inr (tt, out).
Proof.
  unfold CustomCallBackendConfig.to_json, getvalue.
  destruct (CustomCallBackendConfig.to_json_writes self) as [e | [[] o]]; [discriminate | ].
  now intros [= ->].
Qed.

(** The payload has a field's key exactly when the guard of its block
    holds, for a config whose flag names hold no double quote. *)
Lemma key_presence (f : field) (self : CustomCallBackendConfig.t) (out : bytes) :
  CustomCallBackendConfig.to_json self = inr out ->
  flag_names_plain self = true ->
  (has_key (key_of f) out <-> guard f self = true).
Proof.
  intros Hout Hplain. apply to_json_writes_of in Hout. split.
  - intros Hkey. apply scan_complete in Hkey; [ | apply key_quote_free].
    destruct (guard f self) eqn:Hguard; [reflexivity | ].
    destruct (absent_never_found f self Hplain Hguard) as [post [Ht Hpost]].
    specialize (Ht out Hout Idle eq_refl). rewrite Hkey in Ht. congruence.
  - intros Hguard. apply scan_sound.
    pose proof (present_found f self Hguard out Hout Idle eq_refl) as H.
    apply mem_In in H as [H | []]. now symmetry.
Qed.
(* ===================================================================== *)
(** * Field presence                                                       *)
(* ===================================================================== *)

(** C10, as the specification words it, fails: a flag name is written
    between two quotes as it is, so a name with double quotes in it spells a
    key of its own.  Here [has_communication] is false and its key is in
    the payload all the same. *)
Lemma quoted_flag_name_spells_a_key :
  CustomCallBackendConfig.has_communication quoted_flag_config = false
  /\ CustomCallBackendConfig.to_json quoted_flag_config
     = inr (b "{'custom_call_config': {'body': ''}, 'flag_configs': [{'flag_type': "
            ++ b "'x', 'has_communication': 'y', value: {'boolean_value': true}}]"
            ++ b ", 'implicit_sharding': {'type': 'MANUAL'}}")
  /\ has_key "has_communication"
       (b "{'custom_call_config': {'body': ''}, 'flag_configs': [{'flag_type': "
        ++ b "'x', 'has_communication': 'y', value: {'boolean_value': true}}]"
        ++ b ", 'implicit_sharding': {'type': 'MANUAL'}}").
Proof.
  split; [reflexivity | ]. split; [reflexivity | ].
  apply scan_sound. vm_compute. reflexivity.
Qed.

(** C10, as the code has it.  For a config whose flag names hold no
    double quote, each of the keys [has_communication], [needs_hlo_passes] and [needs_layout_passes]
    is in the encoded payload exactly when the field is true: a false value
    is not written at all. *)
Theorem boolean_keys_written_iff_true :
  forall (self : CustomCallBackendConfig.t) (payload : bytes),
    CustomCallBackendConfig.to_json self = inr payload ->
    flag_names_plain self = true ->
    (has_key "has_communication" payload
     <-> self.(CustomCallBackendConfig.has_communication) = true)
    /\ (has_key "needs_hlo_passes" payload
        <-> self.(CustomCallBackendConfig.needs_hlo_passes) = true)
    /\ (has_key "needs_layout_passes" payload
        <-> self.(CustomCallBackendConfig.needs_layout_passes) = true).
Proof.
  intros self payload Hout Hplain.
  split; [ | split].
  - exact (key_presence has_communication_field self payload Hout Hplain).
  - exact (key_presence needs_hlo_passes_field self payload Hout Hplain).
  - exact (key_presence needs_layout_passes_field self payload Hout Hplain).
Qed.

Lemma boolean_keys_written_iff_true_witness :
  exists payload,
    CustomCallBackendConfig.to_json full_config = inr payload
    /\ flag_names_plain full_config = true
    /\ (has_key "has_communication" payload <-> true = true)
    /\ (has_key "needs_hlo_passes" payload <-> true = true)
    /\ (has_key "needs_layout_passes" payload <-> false = true).
Proof.
  eexists. split; [reflexivity | ]. split; [reflexivity | ].
  apply (boolean_keys_written_iff_true full_config); reflexivity.
Defined.

(** *** Empty containers *)

Lemma bind_occurs_l (p : string) (w : W unit) (f : unit -> W unit) :
  (forall o, w = inr (tt, o) -> occurs p o) ->
  forall o, bind w f = inr (tt, o) -> occurs p o.
Proof.
  intros H o Ho. apply bind_inv in Ho as [o1 [o2 [Hw [_ ->]]]].
  apply (occurs_extend p o1 "" o2). now apply H.
Qed.

Lemma bind_occurs_r (p : string) (w : W unit) (f : unit -> W unit) :
  (forall o, f tt = inr (tt, o) -> occurs p o) ->
  forall o, bind w f = inr (tt, o) -> occurs p o.
Proof.
  intros H o Ho. apply bind_inv in Ho as [o1 [o2 [_ [Hf ->]]]].
  pose proof (occurs_extend p o2 o1 "" (H o2 Hf)) as Ho.
  now rewrite append_empty_r in Ho.
Qed.

Lemma empty_fusion_list_written (self : CustomCallBackendConfig.t) (payload : bytes) :
  CustomCallBackendConfig.to_json self = inr payload ->
  self.(CustomCallBackendConfig.allow_input_fusion) = Some [] ->
  occurs (b "'allow_input_fusion': []") payload.
Proof.
  intros Hout Hempty. apply to_json_writes_of in Hout. revert payload Hout.
  unfold CustomCallBackendConfig.to_json_writes. rewrite Hempty.
  do 9 (apply bind_occurs_r; cbv beta).
  apply bind_occurs_l. intros o [= <-].
  exists ", ", "". reflexivity.
Qed.

Lemma empty_flags_written (self : CustomCallBackendConfig.t) (payload : bytes) :
  CustomCallBackendConfig.to_json self = inr payload ->
  self.(CustomCallBackendConfig.flags) = Some [] ->
  occurs (b "'flag_configs': []") payload.
Proof.
  intros Hout Hempty. apply to_json_writes_of in Hout. revert payload Hout.
  unfold CustomCallBackendConfig.to_json_writes. rewrite Hempty.
  do 14 (apply bind_occurs_r; cbv beta).
  apply bind_occurs_l. intros o [= <-].
  exists ", ", "". reflexivity.
Qed.

(** C2, as the code has it.  For a config whose flag names hold no double
    quote, the key of an optional field is in the encoded payload exactly
    when the guard of its block holds: for [has_communication],
    [needs_hlo_passes] and [needs_layout_passes] the field is true, for the
    other fields the source value is not [None] ([vmem_limit_bytes] under
    the key [scoped_memory_configs], [flags] under [flag_configs]).  A
    present but empty [allow_input_fusion] list or [flags] mapping is
    written as an empty list. *)
Theorem optional_field_keys :
  forall (self : CustomCallBackendConfig.t) (payload : bytes),
    CustomCallBackendConfig.to_json self = inr payload ->
    flag_names_plain self = true ->
    (forall f : field,
        has_key (key_of f) payload <->
        match f with
        | has_communication_field =>
            self.(CustomCallBackendConfig.has_communication) = true
        | needs_hlo_passes_field =>
            self.(CustomCallBackendConfig.needs_hlo_passes) = true
        | needs_layout_passes_field =>
            self.(CustomCallBackendConfig.needs_layout_passes) = true
        | _ => source_is_none f self = false
        end)
    /\ (self.(CustomCallBackendConfig.allow_input_fusion) = Some [] ->
        occurs (b "'allow_input_fusion': []") payload)
    /\ (self.(CustomCallBackendConfig.flags) = Some [] ->
        occurs (b "'flag_configs': []") payload).
Proof.
  intros self payload Hout Hplain. split; [ | split].
  - intros f. rewrite (key_presence f self payload Hout Hplain).
    destruct f; unfold guard; try reflexivity; apply negb_true_iff.
  - now apply empty_fusion_list_written.
  - now apply empty_flags_written.
Qed.

Lemma optional_field_keys_witness :
  exists payload,
    CustomCallBackendConfig.to_json full_config = inr payload
    /\ (forall f : field,
           has_key (key_of f) payload <->
           match f with
           | has_communication_field => true = true
           | needs_hlo_passes_field => true = true
           | needs_layout_passes_field => false = true
           | _ => source_is_none f full_config = false
           end).
Proof.
  eexists. split; [reflexivity | ].
  apply (optional_field_keys full_config); reflexivity.
Defined.

(** C2, as the specification words it, fails.  [has_communication] is a
    [bool], never [None], and when it is false its key is not written; and
    [collective_id] is [None] here while a flag name with double quotes in
    it spells its key. *)
Lemma boolean_field_key_is_not_by_none :
  (source_is_none has_communication_field minimal_config = false
   /\ CustomCallBackendConfig.to_json minimal_config
      = inr (b "{'custom_call_config': {'body': ''}, 'implicit_sharding': {'type': 'MANUAL'}}")
   /\ ~ has_key "has_communication"
          (b "{'custom_call_config': {'body': ''}, 'implicit_sharding': {'type': 'MANUAL'}}"))
  /\ (source_is_none collective_id_field quoted_id_config = true
      /\ exists payload,
           CustomCallBackendConfig.to_json quoted_id_config = inr payload
           /\ has_key "collective_id" payload).
Proof.
  split.
  - split; [reflexivity | ]. split; [reflexivity | ].
    intros Hkey. apply scan_complete in Hkey; [ | reflexivity].
    vm_compute in Hkey. discriminate.
  - split; [reflexivity | ]. eexists. split; [reflexivity | ].
    apply scan_sound. vm_compute. reflexivity.
Qed.

(* ===================================================================== *)
(** * Determinism                                                          *)
(* ===================================================================== *)






Lemma dict_get_other (k : string) (d : list (string * pyval)) :
  ~ In k (map fst d) -> dict_get k d = None.
Proof.
  induction d as [|[k' v] d IH]; simpl; [reflexivity | ].
  intros H. destruct (String.eqb_spec k k') as [-> | _].
  - destruct H. now left.
  - apply IH. intros Hin. apply H. now right.
Qed.


(* ===================================================================== *)
(** * What the encoder can raise                                           *)
(* ===================================================================== *)

Section Escapes.

Variable P : exn -> Prop.

Lemma escapes_bind {A B} (w : W A) (f : A -> W B) :
  escapes P w -> (forall x, escapes P (f x)) -> escapes P (bind w f).
Proof.
  intros Hw Hf e. unfold bind. destruct w as [e' | [x o]].
  - intros [= <-]. now apply Hw.
  - destruct (f x) as [e' | [y o']] eqn:E; [ | discriminate].
    intros [= <-]. now apply (Hf x).
Qed.

Lemma escapes_write (s : bytes) : escapes P (write s).
Proof. intros e H. discriminate. Qed.

Lemma escapes_ret {A} (x : A) : escapes P (ret x).
Proof. intros e H. discriminate. Qed.

Lemma escapes_raise {A} (e : exn) : P e -> escapes P (@raise A e).
Proof. intros He e' [= <-]. exact He. Qed.

Lemma escapes_write_ascii (s : string) :
  P UnicodeEncodeError -> escapes P (write_ascii s).
Proof.
  intros HP e. unfold write_ascii, Py.encode_ascii.
  destruct (Py.all_chars Py.is_ascii s); simpl; [discriminate | ].
  now intros [= <-].
Qed.

Lemma escapes_str_int (n : Z) :
  P Py.digit_limit_error -> escapes P (lift (Py.str_int n)).
Proof.
  intros HP e. unfold Py.str_int.
  destruct (Py.printable n); simpl; [discriminate | ]. now intros [= <-].
Qed.

Lemma escapes_str (value : pyval) :
  P Py.digit_limit_error -> escapes P (lift (str value)).
Proof.
  intros HP. destruct value; try (intros e H; discriminate).
  now apply escapes_str_int.
Qed.

Lemma escapes_cost_estimate (c : CostEstimate.t) :
  P Py.digit_limit_error -> escapes P (lift (CostEstimate.to_json c)).
Proof.
  intros HP e. rewrite cost_estimate_to_json_spec.
  destruct (cost_estimate_printable (Some c)); simpl; [discriminate | ].
  now intros [= <-].
Qed.

Lemma escapes_when (c : bool) (w : W unit) : escapes P w -> escapes P (when c w).
Proof. destruct c; [trivial | intros _; apply escapes_ret]. Qed.

Lemma escapes_when_some {A} (x : option A) (f : A -> W unit) :
  (forall v, escapes P (f v)) -> escapes P (when_some x f).
Proof. destruct x; [intros H; apply H | intros _; apply escapes_ret]. Qed.

Lemma escapes_for {A} (l : list A) (body : nat -> A -> W unit) :
  (forall i x, escapes P (body i x)) ->
  forall i, escapes P (for_enumerate i l body).
Proof.
  intros Hbody. induction l as [|x l IH]; intros i.
  - apply escapes_ret.
  - apply escapes_bind; [apply Hbody | intros _; apply IH].
Qed.

End Escapes.

Lemma to_json_writes_errors (self : CustomCallBackendConfig.t) :
  escapes encoding_error (CustomCallBackendConfig.to_json_writes self).
Proof.
  assert (Hu : encoding_error UnicodeEncodeError) by now left.
  assert (Hd : encoding_error Py.digit_limit_error) by (right; now left).
  unfold CustomCallBackendConfig.to_json_writes.
  repeat first
    [ apply escapes_write_ascii; exact Hu
    | apply escapes_write
    | apply escapes_str_int; exact Hd
    | apply escapes_cost_estimate; exact Hd
    | apply escapes_bind; [ | intros ? ]
    | apply escapes_when
    | apply escapes_when_some; intros ?
    | apply escapes_for; intros ? ?;
      try match goal with x : (string * pyval)%type |- _ => destruct x as [? ?] end;
      cbv beta iota ].
  match goal with |- context [isinstance_bool ?v] => rename v into value end.
  destruct (isinstance_bool value);
      [ | destruct (isinstance_int value);
          [ | destruct (isinstance_float value) ] ];
      repeat first
        [ apply escapes_write_ascii; exact Hu
        | apply escapes_write
        | apply escapes_str; exact Hd
        | apply escapes_bind; [ | intros ? ] ].
  apply escapes_raise. right. right. eexists. reflexivity.
Qed.

Lemma to_json_errors (self : CustomCallBackendConfig.t) (e : exn) :
  CustomCallBackendConfig.to_json self = inl e -> encoding_error e.
Proof.
  unfold CustomCallBackendConfig.to_json, getvalue.
  destruct (CustomCallBackendConfig.to_json_writes self) as [e' | [[] o]] eqn:E;
    [ | discriminate].
  intros [= <-]. exact (to_json_writes_errors self e' E).
Qed.

(* ===================================================================== *)
(** * Flag entries                                                         *)
(* ===================================================================== *)

Lemma write_ascii_inv (s : string) (o : bytes) :
  write_ascii s = inr (tt, o) -> o = s /\ Py.all_chars Py.is_ascii s = true.
Proof.
  unfold write_ascii, Py.encode_ascii.
  destruct (Py.all_chars Py.is_ascii s); simpl; [ | discriminate].
  intros [= <-]. now split.
Qed.

(** What [text = str(n); write(text.encode("ascii"))] writes for an [int]. *)
Lemma str_int_written (n : Z) (o : bytes) :
  (text <- lift (Py.str_int n) ;; write_ascii text)%writer = inr (tt, o) ->
  o = Py.decimal n /\ Py.printable n = true.
Proof.
  intros H. apply bind_lift_inv in H as [text [E H]].
  apply str_int_inv in E as [-> Hn]. apply write_ascii_inv in H as [-> _].
  now split.
Qed.

(** What the body of the flags loop writes for one item. *)
Lemma flag_loop_body (n i : nat) (item : string * pyval) (o : bytes) :
  (let '(flag, value) := item in
   write (b "{'flag_type': '") ;;
   write_ascii flag ;;
   write (b "', value: {") ;;
   (if isinstance_bool value then
      write (b "'boolean_value': ") ;;
      write (if truth value then b "true" else b "false")
    else if isinstance_int value then
      write (b "'integer_value': ") ;;
      text <- lift (str value) ;;
      write_ascii text
    else if isinstance_float value then
      write (b "'double_value': ") ;;
      text <- lift (str value) ;;
      write_ascii text
    else
      text <- lift (str value) ;;
      raise (ValueError ("invalid flag value: " ++ text))) ;;
   write (b "}}") ;;
   when (negb (i + 1 =? n)%nat) (write (b ",")))%writer = inr (tt, o) ->
  is_flag_value (snd item) = true
  /\ Py.all_chars Py.is_ascii (fst item) = true
  /\ o = flag_entry_text item ++ (if (i + 1 =? n)%nat then "" else b ",").
Proof.
  destruct item as [flag value]. cbn [fst snd]. intros H.
  apply bind_inv in H as [o1 [r1 [H1 [H ->]]]]. injection H1 as <-.
  apply bind_inv in H as [o2 [r2 [H2 [H ->]]]].
  apply write_ascii_inv in H2 as [-> Hascii].
  apply bind_inv in H as [o3 [r3 [H3 [H ->]]]]. injection H3 as <-.
  apply bind_inv in H as [o4 [r4 [H4 [H ->]]]].
  apply bind_inv in H as [o5 [r5 [H5 [H ->]]]]. injection H5 as <-.
  assert (Hlast : r5 = if (i + 1 =? n)%nat then "" else b ",").
  { destruct (i + 1 =? n)%nat; simpl in H; now injection H as <-. }
  subst r5. unfold flag_entry_text, is_flag_value. cbn [fst snd].
  assert (Hvalue : is_flag_value value = true /\ o4 = flag_value_text value).
  { unfold is_flag_value.
    destruct value as [v | m | x | s | ];
      cbn [isinstance_bool isinstance_int isinstance_float truth str] in H4.
    - apply bind_inv in H4 as [u1 [u2 [E1 [E2 ->]]]].
      injection E1 as <-. destruct v; injection E2 as <-; now split.
    - apply bind_inv in H4 as [u1 [u2 [E1 [E2 ->]]]].
      injection E1 as <-. apply str_int_written in E2 as [-> _]. now split.
    - apply bind_inv in H4 as [u1 [u2 [E1 [E2 ->]]]].
      injection E1 as <-. apply bind_lift_inv in E2 as [text [[= <-] E2]].
      apply write_ascii_inv in E2 as [-> _]. now split.
    - discriminate.
    - discriminate. }
  destruct Hvalue as [Hok ->]. split; [exact Hok | ]. split; [exact Hascii | ].
  now rewrite !append_assoc.
Qed.

(** What a loop that writes one text per item, and a comma after every
    item but the last, has written. *)
Lemma for_enumerate_join {A} (text : A -> bytes) (ok : A -> Prop) (n : nat)
    (body : nat -> A -> W unit) :
  (forall i x o, body i x = inr (tt, o) ->
                 ok x /\ o = text x ++ (if (i + 1 =? n)%nat then "" else b ",")) ->
  forall (l : list A) (i : nat) (o : bytes),
    i + List.length l = n ->
    for_enumerate i l body = inr (tt, o) ->
    Forall ok l /\ o = Py.join "," (map text l).
Proof.
  intros Hbody. induction l as [|x l IH]; intros i o Hn H.
  - cbn [for_enumerate] in H. unfold ret in H. injection H as <-. now split.
  - cbn [for_enumerate] in H.
    apply bind_inv in H as [o1 [o2 [H1 [H2 ->]]]].
    apply Hbody in H1 as [Hx ->].
    simpl in Hn. apply IH in H2 as [Hl ->]; [ | lia].
    split; [now constructor | ].
    destruct l as [|y l].
    + simpl in Hn. replace (i + 1 =? n)%nat with true
        by (symmetry; apply Nat.eqb_eq; lia).
      simpl. now rewrite !append_empty_r.
    + replace (i + 1 =? n)%nat with false
        by (symmetry; apply Nat.eqb_neq; simpl in Hn; lia).
      change (Py.join "," (map text (x :: y :: l)))
        with (text x ++ "," ++ Py.join "," (map text (y :: l))).
      change (b ",") with ",". now rewrite append_assoc.
Qed.

(** The flags of a config that encodes: every value is a [bool], an [int]
    or a [float], every name is ASCII, and the payload ends with the
    [flag_configs] list, one entry per flag in the order of the mapping,
    followed by the sharding marker. *)
Lemma flag_configs_written (self : CustomCallBackendConfig.t)
    (flags : list (string * pyval)) (payload : bytes) :
  CustomCallBackendConfig.to_json self = inr payload ->
  self.(CustomCallBackendConfig.flags) = Some flags ->
  Forall (fun item => is_flag_value (snd item) = true
                      /\ Py.all_chars Py.is_ascii (fst item) = true) flags
  /\ exists before,
       payload
       = before ++ b ", 'flag_configs': ["
         ++ Py.join "," (map flag_entry_text flags) ++ b "]"
         ++ b ", 'implicit_sharding': {'type': 'MANUAL'}}".
Proof.
  intros Hout Hflags. apply to_json_writes_of in Hout.
  unfold CustomCallBackendConfig.to_json_writes in Hout. rewrite Hflags in Hout.
  do 14 (let o := fresh "o" in let r := fresh "r" in let H := fresh "H" in
         apply bind_inv in Hout as [o [r [H [Hout ->]]]]; clear H).
  apply bind_inv in Hout as [w [r [Hblock [Hout ->]]]].
  apply bind_inv in Hout as [w1 [w2 [E1 [E2 ->]]]].
  injection E1 as <-. injection E2 as <-.
  cbn [when_some] in Hblock.
  apply bind_inv in Hblock as [u1 [u2 [E1 [Hblock ->]]]]. injection E1 as <-.
  apply bind_inv in Hblock as [u3 [u4 [Hloop [E4 ->]]]]. injection E4 as <-.
  apply (for_enumerate_join flag_entry_text
           (fun item => is_flag_value (snd item) = true
                        /\ Py.all_chars Py.is_ascii (fst item) = true)
           (List.length flags)) in Hloop.
  - destruct Hloop as [Hall ->]. split; [exact Hall | ].
    exists (o ++ o0 ++ o1 ++ o2 ++ o3 ++ o4 ++ o5 ++ o6 ++ o7 ++ o8 ++ o9
            ++ o10 ++ o11 ++ o12).
    rewrite !append_assoc. reflexivity.
  - intros i x t Hbody. apply flag_loop_body in Hbody as [H1 [H2 ->]].
    now repeat split.
  - reflexivity.
Qed.

(** ** Equal configs

    Two configs that [==] holds of differ at most in the order of their
    flags, and the payload tells that order. *)







(** A flag whose value is of another type makes the encoder raise. *)
Lemma other_flag_value_raises (self : CustomCallBackendConfig.t)
    (flags : list (string * pyval)) (name : string) (value : pyval) :
  self.(CustomCallBackendConfig.flags) = Some flags ->
  In (name, value) flags ->
  is_flag_value value = false ->
  exists e, CustomCallBackendConfig.to_json self = inl e /\ encoding_error e.
Proof.
  intros Hflags Hin Hvalue.
  destruct (CustomCallBackendConfig.to_json self) as [e | payload] eqn:E.
  - exists e. split; [reflexivity | now apply (to_json_errors self)].
  - destruct (flag_configs_written self flags payload E Hflags) as [Hall _].
    rewrite Forall_forall in Hall. destruct (Hall _ Hin) as [Hok _].
    simpl in Hok. congruence.
Qed.

(** C1, at the flags [{"a": True}].  The entry the encoder writes has its
    [value] key without quotes, so the payload has no key ["value"]: the
    entry is not the JSON object the grammar describes. *)
Theorem flag_entry_value_key_unquoted :
  let payload :=
    b ("{'custom_call_config': {'body': ''}"
       ++ ", 'flag_configs': [{'flag_type': 'a', value: {'boolean_value': true}}]"
       ++ ", 'implicit_sharding': {'type': 'MANUAL'}}") in
  CustomCallBackendConfig.to_json single_flag_config = inr payload
  /\ ~ has_key "value" payload
  /\ occurs (b "', value: {'boolean_value': true}}") payload.
Proof.
  cbv zeta. split; [reflexivity | split].
  - intros Hkey. apply scan_complete in Hkey; [ | reflexivity].
    vm_compute in Hkey. discriminate.
  - exists (b "{'custom_call_config': {'body': ''}, 'flag_configs': [{'flag_type': 'a"),
           (b "], 'implicit_sharding': {'type': 'MANUAL'}}").
    reflexivity.
Qed.

(* ===================================================================== *)
(** * The call emitter                                                     *)
(* ===================================================================== *)

Lemma set_incl_spec (l1 l2 : list string) :
  set_incl l1 l2 = true <-> (forall a, In a l1 -> In a l2).
Proof.
  unfold set_incl. rewrite forallb_forall.
  split; intros H a Ha; apply existsb_eqb_In; auto.
Qed.

Lemma to_json_never_refuses (config : CustomCallBackendConfig.t)
    (build : bytes -> custom_call) (msg : string) :
  rbind (CustomCallBackendConfig.to_json config) (fun payload => inr (build payload))
  <> inl (NotImplementedError msg).
Proof.
  unfold rbind.
  destruct (CustomCallBackendConfig.to_json config) as [e | payload] eqn:E;
    [ | discriminate].
  apply to_json_errors in E. intros [= ->].
  destruct E as [E | [E | [v E]]]; discriminate.
Qed.

Lemma set_eqb_spec (l1 l2 : list string) :
  set_eqb l1 l2 = true <-> (forall a, In a l1 <-> In a l2).
Proof.
  unfold set_eqb. rewrite andb_true_iff, !set_incl_spec. split.
  - intros [H1 H2] a. split; [apply H1 | apply H2].
  - intros H. split; intros a; apply H.
Qed.

(** C7, as the code has it.  Call emission checks the partitioning first.
    Under a manual-partitioning scope of mesh axes it raises
    [NotImplementedError] unless the manual axes are the axes of the mesh,
    no more and no fewer; when every manual axis is an axis of the mesh,
    that is: unless every mesh axis is in the scope.  Under a fixed device
    count it raises unless the count is one; under neither it raises
    exactly when [has_communication] holds.  In every other case it goes
    on: the call is built as soon as the config encodes, with the encoder's
    bytes as its backend config. *)
Theorem tpu_custom_call_lowering_partitioning :
  forall ctx in_nodes config kernel_name out_avals aliases,
    let emitted :=
      _tpu_custom_call_lowering ctx in_nodes config kernel_name out_avals
        aliases in
    let refused := exists msg, emitted = inl (NotImplementedError msg) in
    match ctx.(ctx_axis_context) with
    | SPMDAxisContext mesh_axis_names manual_axes =>
        (refused <-> ~ (forall a, In a manual_axes <-> In a mesh_axis_names))
        /\ ((forall a, In a manual_axes -> In a mesh_axis_names) ->
            (refused <-> ~ (forall a, In a mesh_axis_names -> In a manual_axes)))
    | ShardingContext num_devices => refused <-> num_devices <> 1%Z
    | ReplicaAxisContext =>
        refused <-> config.(CustomCallBackendConfig.has_communication) = true
    end
    /\ (~ refused ->
        forall payload,
          CustomCallBackendConfig.to_json config = inr payload ->
          exists call, emitted = inr call /\ call.(backend_config) = payload).
Proof.
  intros ctx in_nodes config kernel_name out_avals aliases.
  cbv zeta. unfold _tpu_custom_call_lowering.
  assert (Hgoes :
            forall (check : bool) e,
              check = false ->
              let emitted :=
                rbind (raise_if check e)
                  (fun _ =>
                     rbind (CustomCallBackendConfig.to_json config)
                       (fun payload =>
                          inr {|
                            call_target_name := "tpu_custom_call";
                            result_types := out_avals;
                            operands := in_nodes;
                            backend_config := payload;
                            api_version := 1;
                            operand_output_aliases := dict aliases;
                            operand_layouts := _avals_to_layouts ctx.(avals_in);
                            result_layouts := _avals_to_layouts ctx.(avals_out);
                            result_shapes :=
                              if forallb
                                   (fun aval_out => is_constant_shape aval_out.(shape))
                                   ctx.(avals_out)
                              then None
                              else Some (map shape ctx.(avals_out));
                            extra_attributes :=
                              match kernel_name with
                              | Some name => Some [("kernel_name", name)]
                              | None => None
                              end
                          |})) in
              ~ (exists msg, emitted = inl (NotImplementedError msg))
              /\ (forall payload,
                     CustomCallBackendConfig.to_json config = inr payload ->
                     exists call,
                       emitted = inr call /\ call.(backend_config) = payload)).
  { intros check e ->. cbn [raise_if rbind]. split.
    - intros [msg H]. exact (to_json_never_refuses _ _ _ H).
    - intros payload ->. eexists. split; reflexivity. }
  assert (Hstops :
            forall (check : bool) msg (rest : unit -> result custom_call),
              check = true ->
              exists msg', rbind (raise_if check (NotImplementedError msg)) rest
                           = inl (NotImplementedError msg')).
  { intros check msg rest ->. now exists msg. }
  destruct (ctx_axis_context ctx) as [mesh manual | n | ].
  - destruct (set_eqb manual mesh) eqn:Heq.
    + destruct (Hgoes (negb true) (NotImplementedError partitioning_message) eq_refl)
        as [Hnot Hcall].
      pose proof (proj1 (set_eqb_spec _ _) Heq) as Hsame.
      split; [ | intros _; exact Hcall]. split.
      * split; [intros H; now destruct Hnot | ].
        intros Hn. now destruct Hn.
      * intros _. split; [intros H; now destruct Hnot | ].
        intros Hn. destruct Hn. intros a. apply Hsame.
    + assert (Hne : ~ (forall a, In a manual <-> In a mesh)).
      { intros Hall. pose proof (proj2 (set_eqb_spec _ _) Hall). congruence. }
      split; [split | ].
      * split; [intros _; exact Hne | intros _; now apply Hstops].
      * intros Hsub. split; [ | intros _; now apply Hstops].
        intros _ Hall. apply Hne. intros a. split; [apply Hsub | apply Hall].
      * intros Hnot. destruct Hnot. now apply Hstops.
  - destruct (Z.eqb_spec n 1) as [-> | Hn].
    + destruct (Hgoes (negb true) (NotImplementedError partitioning_message) eq_refl)
        as [Hnot Hcall].
      split; [ | intros _; exact Hcall].
      split; [intros H; now destruct Hnot | intros H; now destruct H].
    + split.
      * split; [intros _; exact Hn | intros _; now apply Hstops].
      * intros Hnot. destruct Hnot. now apply Hstops.
  - destruct (CustomCallBackendConfig.has_communication config) eqn:Hc.
    + split.
      * split; [reflexivity | intros _; now apply Hstops].
      * intros Hnot. destruct Hnot. now apply Hstops.
    + destruct (Hgoes false
                  (NotImplementedError
                     "Replica lowering for Mosaic kernels not implemented.")
                  eq_refl) as [Hnot Hcall].
      split; [ | intros _; exact Hcall].
      split; [intros H; now destruct Hnot | discriminate].
Qed.

(** C7, as the specification words it, fails under a manual-partitioning
    scope that is wider than the mesh.  With the mesh axis [x] and the
    manual axes [x] and [z], every mesh axis is in the scope, and the
    emission is refused all the same: the code compares the two sets for
    equality. *)
Lemma wider_manual_scope_refused :
  ctx_axis_context stray_axis_context = SPMDAxisContext ["x"] ["x"; "z"]
  /\ (forall a, In a ["x"] -> In a ["x"; "z"])
  /\ _tpu_custom_call_lowering stray_axis_context [0%nat] full_config
       (Some "kernel") [{| shape := [Some 8%Z; Some 128%Z] |}] []
     = inl (NotImplementedError partitioning_message).
Proof.
  split; [reflexivity | ]. split; [ | reflexivity].
  intros a [<- | []]. now left.
Qed.

(* ===================================================================== *)
(** * The cost estimate                                                   *)
(* ===================================================================== *)

Lemma decimal_inj (n m : Z) : Py.decimal n = Py.decimal m -> n = m.
Proof.
  unfold Py.decimal. intros H.
  apply DecimalZ.to_int_inj.
  assert (Hnil : forall k, Z.to_int k <> Decimal.Pos Decimal.Nil
                           /\ Z.to_int k <> Decimal.Neg Decimal.Nil).
  { intros [|p|p]; simpl; split; try discriminate;
      intros [= E]; now apply (DecimalPos.Unsigned.to_uint_nonnil p). }
  destruct (Hnil n) as [Hn1 Hn2]. destruct (Hnil m) as [Hm1 Hm2].
  pose proof (DecimalString.NilZero.isi _ Hn1 Hn2) as En.
  pose proof (DecimalString.NilZero.isi _ Hm1 Hm2) as Em.
  rewrite H in En. congruence.
Qed.

Lemma cost_estimate_text_inj (x y : CostEstimate.t) :
  cost_estimate_text x = cost_estimate_text y -> x = y.
Proof.
  unfold cost_estimate_text. intros H.
  destruct x as [f t a], y as [f' t' a']. cbn [CostEstimate.flops
    CostEstimate.transcendentals CostEstimate.bytes_accessed] in H.
  apply append_cancel_l in H.
  apply (run_cancel Py.int_char) in H as [Hf H];
    [ | apply decimal_chars | apply decimal_chars | reflexivity | reflexivity].
  apply append_cancel_l with (p := " " ++ b "'transcendentals': ") in H.
  apply (run_cancel Py.int_char) in H as [Ht H];
    [ | apply decimal_chars | apply decimal_chars | reflexivity | reflexivity].
  apply append_cancel_l with (p := " " ++ b "'bytes_accessed': ") in H.
  apply (run_cancel Py.int_char) in H as [Ha _];
    [ | apply decimal_chars | apply decimal_chars | reflexivity | reflexivity].
  apply decimal_inj in Hf, Ht, Ha. now subst.
Qed.

(** X1. [CostEstimate.to_json] returns exactly when each of its three
    numbers is within the digit limit of [str], and raises [ValueError]
    otherwise.  The text it returns tells the three numbers apart: two
    estimates with the same JSON are equal. *)
Theorem cost_estimate_to_json_injective :
  forall x y : CostEstimate.t,
    ((exists payload, CostEstimate.to_json x = inr payload)
     <-> Py.printable x.(CostEstimate.flops) = true
         /\ Py.printable x.(CostEstimate.transcendentals) = true
         /\ Py.printable x.(CostEstimate.bytes_accessed) = true)
    /\ ((forall payload, CostEstimate.to_json x <> inr payload) ->
        exists msg, CostEstimate.to_json x = inl (ValueError msg))
    /\ (forall payload,
          CostEstimate.to_json x = inr payload ->
          CostEstimate.to_json y = inr payload -> x = y).
Proof.
  intros x y. rewrite !cost_estimate_to_json_spec.
  unfold cost_estimate_printable. split; [ | split].
  - rewrite <- !andb_true_iff, andb_assoc.
    destruct (_ && _ && _).
    + split; [reflexivity | intros _; eexists; reflexivity].
    + split; [intros [payload H]; discriminate | discriminate].
  - destruct (_ && _ && _); intros H; [now destruct (H _ eq_refl) | ].
    eexists. reflexivity.
  - intros payload.
    destruct (_ && _ && _); [ | discriminate]. intros [= <-].
    destruct (_ && _ && _); [ | discriminate]. intros H.
    apply cost_estimate_text_inj. congruence.
Qed.

(* ===================================================================== *)
(** * When the encoder returns                                             *)
(* ===================================================================== *)

Lemma returns_bind (w : W unit) (f : unit -> W unit) :
  returns (bind w f) = returns w && returns (f tt).
Proof.
  unfold bind. destruct w as [e | [[] o]]; [reflexivity | ].
  destruct (f tt) as [e | [[] o']]; reflexivity.
Qed.

Lemma returns_lift {A} (r : result A) (f : A -> W unit) :
  returns (bind (lift r) f)
  = match r with
    | inr x => returns (f x)
    | inl _ => false
    end.
Proof.
  destruct r as [e | x]; [reflexivity | ]. cbn [lift bind].
  destruct (f x) as [e | [y o]]; reflexivity.
Qed.

Lemma returns_write_ascii (s : string) :
  returns (write_ascii s) = Py.all_chars Py.is_ascii s.
Proof.
  unfold write_ascii, Py.encode_ascii.
  destruct (Py.all_chars Py.is_ascii s); reflexivity.
Qed.

Lemma returns_when (c : bool) (w : W unit) :
  returns (when c w) = negb c || returns w.
Proof. destruct c; reflexivity. Qed.

Lemma returns_for {A} (g : A -> bool) (body : nat -> A -> W unit) :
  (forall i x, returns (body i x) = g x) ->
  forall l i, returns (for_enumerate i l body) = forallb g l.
Proof.
  intros Hbody. induction l as [|x l IH]; intros i; [reflexivity | ].
  cbn [for_enumerate forallb]. now rewrite returns_bind, Hbody, IH.
Qed.

Lemma returns_spec (w : W unit) :
  returns w = true <-> exists o, w = inr (tt, o).
Proof.
  destruct w as [e | [[] o]]; simpl; split; try discriminate.
  - intros [o H]. discriminate.
  - intros _. now exists o.
  - reflexivity.
Qed.

Lemma is_ascii_float (x : pyfloat) :
  Py.all_chars Py.is_ascii (float_str x) = true.
Proof.
  eapply all_chars_weaken; [ | apply Is_true_eq_true, (float_str_ok x)].
  intros c Hc. apply float_char_plain in Hc.
  now apply andb_true_iff in Hc as [_ Hc].
Qed.

(** The outcome of [write(str(n).encode("ascii"))] for an [int]: the
    numeral, or the error of the digit limit. *)
Lemma str_int_block (n : Z) :
  (text <- lift (Py.str_int n) ;; write_ascii text)%writer
  = if Py.printable n then inr (tt, Py.decimal n) else inl Py.digit_limit_error.
Proof.
  unfold Py.str_int. destruct (Py.printable n); [ | reflexivity].
  cbn [lift bind]. unfold write_ascii. rewrite encode_ascii_decimal.
  reflexivity.
Qed.

Lemma lower_str_int_block (n : Z) :
  (text <- lift (Py.str_int n) ;; write_ascii (Py.lower text))%writer
  = if Py.printable n then inr (tt, Py.decimal n) else inl Py.digit_limit_error.
Proof.
  unfold Py.str_int. destruct (Py.printable n); [ | reflexivity].
  cbn [lift bind]. unfold write_ascii. rewrite lower_decimal, encode_ascii_decimal.
  reflexivity.
Qed.

Lemma cost_estimate_block (c : CostEstimate.t) :
  bind (lift (CostEstimate.to_json c)) write
  = if cost_estimate_printable (Some c) then inr (tt, cost_estimate_text c)
    else inl Py.digit_limit_error.
Proof.
  rewrite cost_estimate_to_json_spec.
  destruct (cost_estimate_printable (Some c)); reflexivity.
Qed.

(** The body of the flags loop returns for an encodable flag only. *)
Lemma returns_flag_body (n i : nat) (item : string * pyval) :
  returns
    (let '(flag, value) := item in
     write (b "{'flag_type': '") ;;
     write_ascii flag ;;
     write (b "', value: {") ;;
     (if isinstance_bool value then
        write (b "'boolean_value': ") ;;
        write (if truth value then b "true" else b "false")
      else if isinstance_int value then
        write (b "'integer_value': ") ;;
        text <- lift (str value) ;;
        write_ascii text
      else if isinstance_float value then
        write (b "'double_value': ") ;;
        text <- lift (str value) ;;
        write_ascii text
      else
        text <- lift (str value) ;;
        raise (ValueError ("invalid flag value: " ++ text))) ;;
     write (b "}}") ;;
     when (negb (i + 1 =? n)%nat) (write (b ",")))%writer
  = encodable_flag item.
Proof.
  destruct item as [flag value]. unfold encodable_flag, flag_value_encodable.
  cbn [fst snd]. rewrite !returns_bind, returns_write_ascii, returns_when.
  cbn [returns write]. rewrite orb_true_r, !andb_true_r. cbn [andb].
  f_equal.
  destruct value as [v | m | x | s | ];
    cbn [isinstance_bool isinstance_int isinstance_float str].
  - reflexivity.
  - rewrite returns_bind, str_int_block. now destruct (Py.printable m).
  - rewrite returns_bind, returns_lift, returns_write_ascii. apply is_ascii_float.
  - reflexivity.
  - reflexivity.
Qed.

Lemma returns_bool_block (key : bytes) (v : bool) :
  returns (when v (write key ;; write_ascii (Py.lower (Py.str_bool v)))%writer)
  = true.
Proof. now destruct v. Qed.

Lemma returns_fusion_block (x : option (list bool)) :
  returns (when_some x (fun allow_input_fusion =>
             write (b ", 'allow_input_fusion': [") ;;
             for_enumerate 0 allow_input_fusion (fun i value =>
               write (if value then b "true" else b "false") ;;
               when (negb (i + 1 =? List.length allow_input_fusion)%nat)
                 (write (b ","))) ;;
             write (b "]"))%writer) = true.
Proof.
  destruct x as [l | ]; [ | reflexivity]. cbn [when_some].
  rewrite !returns_bind, (returns_for (fun _ => true)).
  - cbn [returns write andb]. rewrite andb_true_r.
    induction l as [|x l IH]; [reflexivity | exact IH].
  - intros i x. rewrite returns_bind, returns_when. cbn [returns write].
    now rewrite orb_true_r.
Qed.

Lemma returns_int_block (key : bytes) (x : option Z) :
  returns (when_some x (fun n =>
             write key ;; text <- lift (Py.str_int n) ;; write_ascii text)%writer)
  = optional_printable x.
Proof.
  destruct x as [n | ]; [ | reflexivity]. cbn [when_some optional_printable].
  rewrite returns_bind, str_int_block. now destruct (Py.printable n).
Qed.

Lemma returns_lower_int_block (key : bytes) (x : option Z) :
  returns (when_some x (fun n =>
             write key ;; text <- lift (Py.str_int n) ;;
             write_ascii (Py.lower text))%writer)
  = optional_printable x.
Proof.
  destruct x as [n | ]; [ | reflexivity]. cbn [when_some optional_printable].
  rewrite returns_bind, lower_str_int_block. now destruct (Py.printable n).
Qed.

Lemma returns_cost_estimate_block (key : bytes) (x : option CostEstimate.t) :
  returns (when_some x (fun c =>
             write key ;; bind (lift (CostEstimate.to_json c)) write)%writer)
  = cost_estimate_printable x.
Proof.
  destruct x as [c | ]; [ | reflexivity]. cbn [when_some].
  rewrite returns_bind, cost_estimate_block.
  now destruct (cost_estimate_printable (Some c)).
Qed.

Lemma returns_vmem_block (x : option Z) :
  returns (when_some x (fun vmem_limit_bytes =>
             write (b ", 'scoped_memory_configs': [{'memory_space':1, 'offset': 0,"
                    ++ b " 'size': ") ;;
             text <- lift (Py.str_int vmem_limit_bytes) ;;
             write_ascii text ;;
             write (b "}]"))%writer)
  = optional_printable x.
Proof.
  destruct x as [n | ]; [ | reflexivity]. cbn [when_some optional_printable].
  rewrite returns_bind, returns_lift. unfold Py.str_int.
  destruct (Py.printable n); [ | reflexivity].
  now rewrite returns_bind, returns_write_ascii, is_ascii_decimal.
Qed.

Lemma returns_device_type_block (x : option string) :
  returns (when_some x (fun device_type =>
             write (b ", 'device_type': ") ;;
             write_ascii (b "'DEVICE_TYPE_" ++ Py.upper device_type ++ b "'"))%writer)
  = match x with
    | Some device_type => Py.all_chars Py.is_ascii (Py.upper device_type)
    | None => true
    end.
Proof.
  destruct x as [d | ]; [ | reflexivity]. cbn [when_some].
  rewrite returns_bind, returns_write_ascii, !all_chars_app.
  cbn [returns write andb].
  change (Py.all_chars Py.is_ascii (b "'DEVICE_TYPE_")) with true.
  change (Py.all_chars Py.is_ascii (b "'")) with true.
  now rewrite andb_true_r.
Qed.

Lemma returns_to_json_writes (self : CustomCallBackendConfig.t) :
  returns (CustomCallBackendConfig.to_json_writes self) = encodable self.
Proof.
  destruct self as [asm hc cid dt ce nh nl vmem fl aif sf isb].
  unfold CustomCallBackendConfig.to_json_writes, encodable, inner_fields_printable,
    device_type_encodable, flags_encodable.
  cbn [CustomCallBackendConfig.lowered_module_asm
       CustomCallBackendConfig.has_communication
       CustomCallBackendConfig.collective_id
       CustomCallBackendConfig.device_type
       CustomCallBackendConfig.cost_estimate
       CustomCallBackendConfig.needs_hlo_passes
       CustomCallBackendConfig.needs_layout_passes
       CustomCallBackendConfig.vmem_limit_bytes
       CustomCallBackendConfig.flags
       CustomCallBackendConfig.allow_input_fusion
       CustomCallBackendConfig.serialization_format
       CustomCallBackendConfig.internal_scratch_in_bytes].
  do 15 (rewrite returns_bind).
  rewrite !returns_bool_block, !returns_int_block, returns_lower_int_block,
    returns_cost_estimate_block, returns_fusion_block, returns_vmem_block,
    returns_device_type_block.
  cbn [returns write andb]. rewrite !andb_true_r.
  assert (Hfl : returns (when_some fl (fun flags =>
                  write (b ", 'flag_configs': [") ;;
                  for_enumerate 0 flags (fun i item =>
                    let '(flag, value) := item in
                    write (b "{'flag_type': '") ;;
                    write_ascii flag ;;
                    write (b "', value: {") ;;
                    (if isinstance_bool value then
                       write (b "'boolean_value': ") ;;
                       write (if truth value then b "true" else b "false")
                     else if isinstance_int value then
                       write (b "'integer_value': ") ;;
                       text <- lift (str value) ;;
                       write_ascii text
                     else if isinstance_float value then
                       write (b "'double_value': ") ;;
                       text <- lift (str value) ;;
                       write_ascii text
                     else
                       text <- lift (str value) ;;
                       raise (ValueError ("invalid flag value: " ++ text))) ;;
                    write (b "}}") ;;
                    when (negb (i + 1 =? List.length flags)%nat) (write (b ","))) ;;
                  write (b "]"))%writer)
                = match fl with
                  | Some flags => forallb encodable_flag flags
                  | None => true
                  end).
  { destruct fl as [l | ]; [ | reflexivity]. cbn [when_some].
    rewrite !returns_bind, (returns_for encodable_flag).
    - cbn [returns write andb]. now rewrite andb_true_r.
    - intros i x. apply returns_flag_body. }
  rewrite Hfl.
  repeat match goal with
         | |- context [optional_printable ?x] =>
             generalize (optional_printable x); intros ?
         | |- context [cost_estimate_printable ?x] =>
             generalize (cost_estimate_printable x); intros ?
         end.
  repeat match goal with v : bool |- _ => destruct v end;
    cbn [andb]; rewrite ?andb_true_r, ?andb_false_r; reflexivity.
Qed.

Lemma to_json_returns (self : CustomCallBackendConfig.t) :
  (exists payload, CustomCallBackendConfig.to_json self = inr payload)
  <-> returns (CustomCallBackendConfig.to_json_writes self) = true.
Proof.
  rewrite returns_spec.
  unfold CustomCallBackendConfig.to_json, getvalue.
  destruct (CustomCallBackendConfig.to_json_writes self) as [e | [[] o]].
  - split; intros [o H]; discriminate.
  - split; intros _; now exists o.
Qed.

(** X2. [to_json] returns a payload exactly for the encodable configs: those
    whose [int] fields, in the cost estimate too, are all within the digit
    limit of [str], whose upper-cased device type is ASCII and whose flags
    all have an ASCII name and a value that is a [bool], an [int] within the
    limit or a [float].  Nothing else in a config can make the encoder
    raise. *)
Theorem to_json_returns_iff_encodable :
  forall self : CustomCallBackendConfig.t,
    (exists payload, CustomCallBackendConfig.to_json self = inr payload)
    <-> encodable self = true.
Proof.
  intros self. rewrite to_json_returns.
  now rewrite returns_to_json_writes.
Qed.

(* ===================================================================== *)
(** * What the encoder raises, and when                                    *)
(* ===================================================================== *)

Lemma bind_skip (w : W unit) (f : unit -> W unit) (e : exn) :
  returns w = true -> f tt = inl e -> bind w f = inl e.
Proof.
  intros Hw Hf. apply returns_spec in Hw as [o ->]. simpl. now rewrite Hf.
Qed.

Lemma bind_stops (w : W unit) (f : unit -> W unit) (e : exn) :
  w = inl e -> bind w f = inl e.
Proof. now intros ->. Qed.

Lemma for_enumerate_raises {A} (g : A -> bool) (body : nat -> A -> W unit)
    (x : A) (e : exn) (after : list A) :
  (forall i y, returns (body i y) = g y) ->
  (forall i, body i x = inl e) ->
  forall before i,
    forallb g before = true ->
    for_enumerate i (before ++ x :: after) body = inl e.
Proof.
  intros Hbody Hx. induction before as [|y before IH]; intros i Hall.
  - cbn [app for_enumerate]. now rewrite Hx.
  - cbn [forallb] in Hall. apply andb_true_iff in Hall as [Hy Hall].
    cbn [app for_enumerate]. apply bind_skip; [now rewrite Hbody | ].
    now apply IH.
Qed.

(** A block that prints an [int] beyond the limit raises the error of the
    limit. *)
Lemma int_block_raises (key : bytes) (x : option Z) :
  optional_printable x = false ->
  when_some x (fun n =>
    write key ;; text <- lift (Py.str_int n) ;; write_ascii text)%writer
  = inl Py.digit_limit_error.
Proof.
  destruct x as [n | ]; [ | discriminate]. cbn [when_some optional_printable].
  intros Hn. rewrite str_int_block, Hn. reflexivity.
Qed.

Lemma lower_int_block_raises (key : bytes) (x : option Z) :
  optional_printable x = false ->
  when_some x (fun n =>
    write key ;; text <- lift (Py.str_int n) ;; write_ascii (Py.lower text))%writer
  = inl Py.digit_limit_error.
Proof.
  destruct x as [n | ]; [ | discriminate]. cbn [when_some optional_printable].
  intros Hn. rewrite lower_str_int_block, Hn. reflexivity.
Qed.

Lemma cost_estimate_block_raises (key : bytes) (x : option CostEstimate.t) :
  cost_estimate_printable x = false ->
  when_some x (fun c =>
    write key ;; bind (lift (CostEstimate.to_json c)) write)%writer
  = inl Py.digit_limit_error.
Proof.
  destruct x as [c | ]; [ | discriminate]. cbn [when_some].
  intros Hc. rewrite cost_estimate_block, Hc. reflexivity.
Qed.

(** The blocks of [to_json] before the device type: they return when the
    [int] fields they print are within the digit limit, so that what the
    rest raises is raised; and else they raise the error of the limit. *)
Lemma to_json_writes_until_device_type (self : CustomCallBackendConfig.t)
    (rest : W unit) (e : exn) :
  (if inner_fields_printable self then rest = inl e
   else e = Py.digit_limit_error) ->
  (write (b "{'custom_call_config': {'body': '") ;;
   write (base64.b64encode self.(CustomCallBackendConfig.lowered_module_asm)) ;;
   write (b "'") ;;
   when self.(CustomCallBackendConfig.has_communication) (
     write (b ", 'has_communication': ") ;;
     write_ascii (Py.lower (Py.str_bool self.(CustomCallBackendConfig.has_communication)))) ;;
   when_some self.(CustomCallBackendConfig.collective_id) (fun collective_id =>
     write (b ", 'collective_id': ") ;;
     text <- lift (Py.str_int collective_id) ;;
     write_ascii text) ;;
   when_some self.(CustomCallBackendConfig.cost_estimate) (fun cost_estimate =>
     write (b ", 'cost_estimate': ") ;;
     bind (lift (CostEstimate.to_json cost_estimate)) write) ;;
   when self.(CustomCallBackendConfig.needs_hlo_passes) (
     write (b ", 'needs_hlo_passes': ") ;;
     write_ascii (Py.lower (Py.str_bool self.(CustomCallBackendConfig.needs_hlo_passes)))) ;;
   when_some self.(CustomCallBackendConfig.serialization_format) (fun serialization_format =>
     write (b ", 'serialization_format': ") ;;
     text <- lift (Py.str_int serialization_format) ;;
     write_ascii (Py.lower text)) ;;
   when self.(CustomCallBackendConfig.needs_layout_passes) (
     write (b ", 'needs_layout_passes': ") ;;
     write_ascii (Py.lower (Py.str_bool self.(CustomCallBackendConfig.needs_layout_passes)))) ;;
   when_some self.(CustomCallBackendConfig.allow_input_fusion) (fun allow_input_fusion =>
     write (b ", 'allow_input_fusion': [") ;;
     for_enumerate 0 allow_input_fusion (fun i value =>
       write (if value then b "true" else b "false") ;;
       when (negb (i + 1 =? List.length allow_input_fusion)%nat)
         (write (b ","))) ;;
     write (b "]")) ;;
   when_some self.(CustomCallBackendConfig.internal_scratch_in_bytes) (fun internal_scratch_in_bytes =>
     write (b ", 'internal_scratch_in_bytes': ") ;;
     text <- lift (Py.str_int internal_scratch_in_bytes) ;;
     write_ascii text) ;;
   write (b "}") ;;
   rest)%writer = inl e.
Proof.
  unfold inner_fields_printable. intros H.
  do 3 (apply bind_skip; [reflexivity | ]).
  apply bind_skip; [apply returns_bool_block | ].
  destruct (optional_printable (CustomCallBackendConfig.collective_id self)) eqn:Hcid;
    [ | cbn [andb] in H; subst e; apply bind_stops; now apply int_block_raises].
  apply bind_skip; [now rewrite returns_int_block | ].
  destruct (cost_estimate_printable (CustomCallBackendConfig.cost_estimate self))
    eqn:Hce; [ | cbn [andb] in H; subst e; apply bind_stops; now apply cost_estimate_block_raises].
  apply bind_skip; [now rewrite returns_cost_estimate_block | ].
  apply bind_skip; [apply returns_bool_block | ].
  destruct (optional_printable (CustomCallBackendConfig.serialization_format self))
    eqn:Hsf; [ | cbn [andb] in H; subst e; apply bind_stops; now apply lower_int_block_raises].
  apply bind_skip; [now rewrite returns_lower_int_block | ].
  apply bind_skip; [apply returns_bool_block | ].
  apply bind_skip; [apply returns_fusion_block | ].
  destruct (optional_printable
              (CustomCallBackendConfig.internal_scratch_in_bytes self)) eqn:Hisb;
    [ | cbn [andb] in H; subst e; apply bind_stops; now apply int_block_raises].
  apply bind_skip; [now rewrite returns_int_block | ].
  apply bind_skip; [reflexivity | ].
  exact H.
Qed.

(** X3. A device type whose upper-cased text is not ASCII makes [to_json]
    raise [UnicodeEncodeError], whatever the flags and [vmem_limit_bytes]
    are: the device type is written before them.  The [int] fields of
    [custom_call_config] are written before the device type: one of them
    beyond the digit limit of [str] raises its [ValueError] first. *)
Theorem to_json_device_type_not_ascii :
  forall self : CustomCallBackendConfig.t,
    device_type_encodable self = false ->
    CustomCallBackendConfig.to_json self
    = inl (if inner_fields_printable self then UnicodeEncodeError
           else Py.digit_limit_error).
Proof.
  intros self Hdt.
  unfold CustomCallBackendConfig.to_json, CustomCallBackendConfig.to_json_writes.
  erewrite to_json_writes_until_device_type; [reflexivity | ].
  destruct (inner_fields_printable self); [ | reflexivity].
  unfold device_type_encodable in Hdt.
  destruct (CustomCallBackendConfig.device_type self) as [d | ]; [ | discriminate].
  cbn [when_some]. unfold write_ascii, Py.encode_ascii.
  rewrite !all_chars_app, Hdt, andb_false_r. reflexivity.
Qed.

(** X4. When everything written before the flags encodes, the first flag in
    the order of the mapping that is not encodable decides the exception:
    a name that is not ASCII raises [UnicodeEncodeError]; otherwise an
    [int] beyond the digit limit raises the [ValueError] of [str], and a
    value of another type than [bool], [int] and [float] raises
    [ValueError] with the text of the value.  The flags after it are not
    looked at. *)
Theorem to_json_first_bad_flag :
  forall (self : CustomCallBackendConfig.t) before name value after,
    inner_fields_printable self = true ->
    device_type_encodable self = true ->
    optional_printable self.(CustomCallBackendConfig.vmem_limit_bytes) = true ->
    self.(CustomCallBackendConfig.flags) = Some (before ++ (name, value) :: after)%list ->
    forallb encodable_flag before = true ->
    encodable_flag (name, value) = false ->
    CustomCallBackendConfig.to_json self = inl (flag_error (name, value))
    /\ (Py.all_chars Py.is_ascii name = false ->
        flag_error (name, value) = UnicodeEncodeError)
    /\ (Py.all_chars Py.is_ascii name = true ->
        match value with
        | VInt _ => flag_error (name, value) = Py.digit_limit_error
        | VStr text =>
            flag_error (name, value) = ValueError ("invalid flag value: " ++ text)
        | VNone => flag_error (name, value) = ValueError "invalid flag value: None"
        | VBool _ | VFloat _ => False
        end).
Proof.
  intros self before name value after Hinner Hdt Hvmem Hflags Hbefore Hbad.
  split; [ | split].
  - unfold CustomCallBackendConfig.to_json, CustomCallBackendConfig.to_json_writes.
    erewrite to_json_writes_until_device_type; [reflexivity | ].
    rewrite Hinner.
    apply bind_skip.
    { rewrite returns_device_type_block. exact Hdt. }
    apply bind_skip.
    { rewrite returns_vmem_block. exact Hvmem. }
    rewrite Hflags. cbn [when_some].
    match goal with |- bind (bind _ (fun _ => bind ?loop _)) _ = _ =>
      assert (Hloop : loop = inl (flag_error (name, value)))
    end.
    { apply (for_enumerate_raises encodable_flag); [ | | exact Hbefore].
      - intros i y. apply returns_flag_body.
      - intros i. unfold encodable_flag, flag_value_encodable in Hbad.
        unfold flag_error. cbn [fst snd] in *.
        unfold write_ascii at 1, Py.encode_ascii.
        destruct (Py.all_chars Py.is_ascii name); [ | reflexivity].
        destruct value as [v | n | x | text | ]; try discriminate;
          cbn [isinstance_bool isinstance_int isinstance_float str andb] in *;
          [ | reflexivity | reflexivity].
        unfold Py.str_int. rewrite Hbad. reflexivity. }
    rewrite Hloop. reflexivity.
  - intros Hname. unfold flag_error. cbn [fst]. now rewrite Hname.
  - intros Hname. unfold encodable_flag, flag_value_encodable in Hbad.
    unfold flag_error. cbn [fst snd] in *. rewrite Hname in *.
    destruct value as [v | n | x | text | ]; try discriminate;
      cbn [str andb] in *; [ | reflexivity | reflexivity].
    unfold Py.str_int. now rewrite Hbad.
Qed.

Lemma to_json_device_type_not_ascii_witness :
  device_type_encodable latin_device_config = false
  /\ CustomCallBackendConfig.to_json latin_device_config = inl UnicodeEncodeError.
Proof.
  split; [reflexivity | ].
  apply (to_json_device_type_not_ascii latin_device_config). reflexivity.
Defined.

Lemma to_json_first_bad_flag_witness :
  CustomCallBackendConfig.to_json bad_flag_config
  = inl (ValueError "invalid flag value: x").
Proof.
  apply (to_json_first_bad_flag bad_flag_config
           [("a", VBool true)] "b" (VStr "x") [("c", VInt 1)]); reflexivity.
Defined.

(* ===================================================================== *)
(** * The bytes of the payload                                             *)
(* ===================================================================== *)

Section WritesOnly.

Variable P : ascii -> bool.

Lemma writes_only_bind (w : W unit) (f : unit -> W unit) :
  writes_only P w -> writes_only P (f tt) -> writes_only P (bind w f).
Proof.
  intros Hw Hf o H. apply bind_inv in H as [o1 [o2 [H1 [H2 ->]]]].
  now rewrite all_chars_app, (Hw o1 H1), (Hf o2 H2).
Qed.

Lemma writes_only_lift {A} (r : result A) (f : A -> W unit) :
  (forall x, r = inr x -> writes_only P (f x)) ->
  writes_only P (bind (lift r) f).
Proof.
  intros H o Ho. apply bind_lift_inv in Ho as [x [Hr Hf]].
  now apply (H x Hr).
Qed.

Lemma writes_only_write (s : bytes) :
  Py.all_chars P s = true -> writes_only P (write s).
Proof. intros Hs o [= <-]. exact Hs. Qed.

Lemma writes_only_ret : writes_only P (ret tt).
Proof. intros o [= <-]. reflexivity. Qed.

Lemma writes_only_when (c : bool) (w : W unit) :
  writes_only P w -> writes_only P (when c w).
Proof. destruct c; [trivial | intros _; apply writes_only_ret]. Qed.

Lemma writes_only_when_some {A} (x : option A) (f : A -> W unit) :
  (forall v, writes_only P (f v)) -> writes_only P (when_some x f).
Proof. destruct x; [intros H; apply H | intros _; apply writes_only_ret]. Qed.

Lemma writes_only_for {A} (l : list A) (body : nat -> A -> W unit) :
  (forall i x, writes_only P (body i x)) ->
  forall i, writes_only P (for_enumerate i l body).
Proof.
  intros Hbody. induction l as [|x l IH]; intros i.
  - apply writes_only_ret.
  - apply writes_only_bind; [apply Hbody | apply IH].
Qed.

End WritesOnly.

Lemma writes_only_write_ascii (s : string) :
  writes_only Py.is_ascii (write_ascii s).
Proof.
  intros o H. now apply write_ascii_inv in H as [-> H].
Qed.

Lemma writes_only_cost_estimate (c : CostEstimate.t) :
  writes_only Py.is_ascii (bind (lift (CostEstimate.to_json c)) write).
Proof.
  apply writes_only_lift. intros text E o [= <-].
  apply cost_estimate_to_json_inv in E as [-> _].
  apply is_ascii_cost_estimate_text.
Qed.

Lemma digit_ascii (n : nat) : Py.is_ascii (base64.digit n) = true.
Proof.
  assert (H : forallb (fun i => Py.is_ascii (base64.digit i)) (seq 0 64) = true)
    by reflexivity.
  rewrite forallb_forall in H.
  assert (Hn : (n mod 64 < 64)%nat) by (apply Nat.mod_upper_bound; discriminate).
  specialize (H (n mod 64)%nat (proj2 (in_seq _ _ _) (conj (Nat.le_0_l _) Hn))).
  unfold base64.digit in *. now rewrite Nat.Div0.mod_mod in H.
Qed.

Lemma b64encode_ascii (s : bytes) :
  Py.all_chars Py.is_ascii (base64.b64encode s) = true.
Proof.
  assert (H : forall n (t : bytes), (String.length t <= n)%nat ->
                Py.all_chars Py.is_ascii (base64.b64encode t) = true).
  { induction n as [|n IH]; intros t Ht.
    - destruct t; [reflexivity | simpl in Ht; lia].
    - destruct t as [|x [|y [|z t]]]; try reflexivity;
        cbn [base64.b64encode Py.all_chars];
        rewrite ?digit_ascii; try reflexivity.
      cbn [andb]. apply IH. simpl in Ht. lia. }
  exact (H _ s (Nat.le_refl _)).
Qed.

(** X5. The payload is ASCII: [to_json] never returns a byte from 128 up,
    whatever the module bytes, the device type and the flags are. *)
Theorem to_json_payload_is_ascii :
  forall (self : CustomCallBackendConfig.t) (payload : bytes),
    CustomCallBackendConfig.to_json self = inr payload ->
    Py.all_chars Py.is_ascii payload = true.
Proof.
  intros self payload Hout. apply to_json_writes_of in Hout.
  revert payload Hout. change (writes_only Py.is_ascii
                                 (CustomCallBackendConfig.to_json_writes self)).
  unfold CustomCallBackendConfig.to_json_writes.
  repeat first
    [ apply writes_only_write_ascii
    | apply writes_only_write; first [reflexivity | apply b64encode_ascii]
    | apply writes_only_cost_estimate
    | apply writes_only_lift; intros ? ?
    | apply writes_only_when
    | apply writes_only_when_some; intros ?
    | apply writes_only_for; intros ? ?;
      try match goal with x : (string * pyval)%type |- _ => destruct x as [? ?] end;
      cbv beta iota
    | apply writes_only_bind ].
  - match goal with |- context [if ?c then _ else _] => destruct c end;
      apply writes_only_write; reflexivity.
  - match goal with |- context [isinstance_bool ?v] => rename v into value end.
    destruct (isinstance_bool value);
      [ | destruct (isinstance_int value);
          [ | destruct (isinstance_float value) ] ];
      repeat first
        [ apply writes_only_write_ascii
        | apply writes_only_write; first [reflexivity | now destruct (truth value)]
        | apply writes_only_lift; intros ? ?
        | apply writes_only_bind ].
    intros o Ho. discriminate.
Qed.

Lemma to_json_payload_is_ascii_witness :
  exists payload,
    CustomCallBackendConfig.to_json full_config = inr payload
    /\ Py.all_chars Py.is_ascii payload = true.
Proof.
  eexists. split; [reflexivity | ].
  apply (to_json_payload_is_ascii full_config). reflexivity.
Defined.

(* ===================================================================== *)
(** * The body of the payload                                              *)
(* ===================================================================== *)

Lemma digit_inj (i j : nat) :
  (i < 64)%nat -> (j < 64)%nat -> base64.digit i = base64.digit j -> i = j.
Proof.
  intros Hi Hj H.
  assert (Hall : forallb (fun a =>
                   forallb (fun c =>
                     implb (Ascii.eqb (base64.digit a) (base64.digit c))
                           (a =? c)%nat) (seq 0 64)) (seq 0 64) = true)
    by (vm_compute; reflexivity).
  rewrite forallb_forall in Hall.
  specialize (Hall i (proj2 (in_seq _ _ _) (conj (Nat.le_0_l _) Hi))).
  rewrite forallb_forall in Hall.
  specialize (Hall j (proj2 (in_seq _ _ _) (conj (Nat.le_0_l _) Hj))).
  rewrite H, Ascii.eqb_refl in Hall. now apply Nat.eqb_eq.
Qed.

Lemma digit_not_pad (n : nat) : base64.digit n <> "="%char.
Proof.
  assert (H : forallb (fun i => negb (Ascii.eqb (base64.digit i) "=")) (seq 0 64)
              = true) by reflexivity.
  rewrite forallb_forall in H.
  assert (Hn : (n mod 64 < 64)%nat) by (apply Nat.mod_upper_bound; discriminate).
  specialize (H (n mod 64)%nat (proj2 (in_seq _ _ _) (conj (Nat.le_0_l _) Hn))).
  apply negb_true_iff, Ascii.eqb_neq in H. unfold base64.digit in *.
  now rewrite Nat.Div0.mod_mod in H.
Qed.

Lemma nat_of_ascii_inj (x y : ascii) : nat_of_ascii x = nat_of_ascii y -> x = y.
Proof.
  intros H. rewrite <- (ascii_nat_embedding x), <- (ascii_nat_embedding y).
  now rewrite H.
Qed.

(** Three bytes are read back from the four digits they make. *)
Lemma b64_group_inj (n m k n' m' k' : nat) :
  (n < 256)%nat -> (m < 256)%nat -> (k < 256)%nat ->
  (n' < 256)%nat -> (m' < 256)%nat -> (k' < 256)%nat ->
  base64.digit (n / 4) = base64.digit (n' / 4) ->
  base64.digit (n mod 4 * 16 + m / 16) = base64.digit (n' mod 4 * 16 + m' / 16) ->
  base64.digit (m mod 16 * 4 + k / 64) = base64.digit (m' mod 16 * 4 + k' / 64) ->
  base64.digit (k mod 64) = base64.digit (k' mod 64) ->
  n = n' /\ m = m' /\ k = k'.
Proof.
  intros Hn Hm Hk Hn' Hm' Hk' H1 H2 H3 H4.
  pose proof (Nat.div_mod_eq n 4). pose proof (Nat.div_mod_eq n' 4).
  pose proof (Nat.div_mod_eq m 16). pose proof (Nat.div_mod_eq m' 16).
  pose proof (Nat.div_mod_eq k 64). pose proof (Nat.div_mod_eq k' 64).
  pose proof (Nat.mod_upper_bound n 4). pose proof (Nat.mod_upper_bound n' 4).
  pose proof (Nat.mod_upper_bound m 16). pose proof (Nat.mod_upper_bound m' 16).
  pose proof (Nat.mod_upper_bound k 64). pose proof (Nat.mod_upper_bound k' 64).
  assert (m / 16 < 16)%nat by (apply Nat.Div0.div_lt_upper_bound; lia).
  assert (m' / 16 < 16)%nat by (apply Nat.Div0.div_lt_upper_bound; lia).
  assert (k / 64 < 4)%nat by (apply Nat.Div0.div_lt_upper_bound; lia).
  assert (k' / 64 < 4)%nat by (apply Nat.Div0.div_lt_upper_bound; lia).
  assert (n / 4 < 64)%nat by (apply Nat.Div0.div_lt_upper_bound; lia).
  assert (n' / 4 < 64)%nat by (apply Nat.Div0.div_lt_upper_bound; lia).
  apply digit_inj in H1, H2, H3, H4; lia.
Qed.

Lemma string_cons_inv (a c : ascii) (s t : string) :
  String a s = String c t -> a = c /\ s = t.
Proof. intros [= -> ->]. now split. Qed.

Ltac chars H :=
  repeat match type of H with
         | String _ _ = String _ _ =>
             let E := fresh "E" in apply string_cons_inv in H as [E H]
         end.

Lemma b64encode_inj (s t : bytes) :
  base64.b64encode s = base64.b64encode t -> s = t.
Proof.
  assert (H : forall n (s t : bytes), (String.length s <= n)%nat ->
                base64.b64encode s = base64.b64encode t -> s = t).
  { clear s t. induction n as [|n IH]; intros s t Hlen H.
    - destruct s; [ | simpl in Hlen; lia].
      destruct t as [|x' [|y' [|z' t]]]; [reflexivity | discriminate ..].
    - pose proof nat_ascii_bounded as Hb.
      pose proof digit_not_pad as Hpad.
      destruct s as [|x [|y [|z s]]], t as [|x' [|y' [|z' t]]];
        cbn [base64.b64encode] in H; try discriminate; try reflexivity;
        chars H;
        try (exfalso; first [ eapply Hpad; eassumption
                            | eapply Hpad; symmetry; eassumption ]).
      + destruct (b64_group_inj (nat_of_ascii x) 0 0 (nat_of_ascii x') 0 0)
          as [Hx _]; auto; try lia.
        * now rewrite !Nat.add_0_r.
        * apply nat_of_ascii_inj in Hx. now subst.
      + destruct (b64_group_inj (nat_of_ascii x) (nat_of_ascii y) 0
                    (nat_of_ascii x') (nat_of_ascii y') 0)
          as [Hx [Hy _]]; auto; try lia.
        * now rewrite !Nat.add_0_r.
        * apply nat_of_ascii_inj in Hx, Hy. now subst.
      + destruct (b64_group_inj (nat_of_ascii x) (nat_of_ascii y) (nat_of_ascii z)
                    (nat_of_ascii x') (nat_of_ascii y') (nat_of_ascii z'))
          as [Hx [Hy Hz]]; auto.
        apply nat_of_ascii_inj in Hx, Hy, Hz. subst.
        f_equal. f_equal. f_equal. apply (IH s t); [simpl in Hlen; lia | exact H]. }
  exact (H _ s t (Nat.le_refl _)).
Qed.

Ltac peel H :=
  let o := fresh "o" in
  let r := fresh "r" in
  let E := fresh "E" in
  apply bind_inv in H as [o [r [E [H ->]]]].

Lemma to_json_frame_of (self : CustomCallBackendConfig.t) (payload : bytes) :
  CustomCallBackendConfig.to_json self = inr payload ->
  exists fields,
    payload
    = b "{'custom_call_config': {'body': '"
      ++ base64.b64encode self.(CustomCallBackendConfig.lowered_module_asm)
      ++ b "'" ++ fields
      ++ b ", 'implicit_sharding': {'type': 'MANUAL'}}".
Proof.
  intros Hout. apply to_json_writes_of in Hout.
  unfold CustomCallBackendConfig.to_json_writes in Hout.
  do 16 peel Hout.
  injection E as <-. injection E0 as <-. injection E1 as <-.
  injection E14 as <-. injection Hout as <-.
  exists (o2 ++ o3 ++ o4 ++ o5 ++ o6 ++ o7 ++ o8 ++ o9 ++ o10 ++ o11 ++ o12 ++ o13).
  rewrite !append_assoc. reflexivity.
Qed.

(** X6. Every payload has the same frame: it opens with the
    [custom_call_config] object, whose [body] is the base64 text of the
    module bytes, and it closes with the [implicit_sharding] marker of type
    [MANUAL]; whatever else is written stands between the two.  The body
    can be read back: two configs with the same payload have the same
    module bytes. *)
Theorem to_json_frame :
  forall (self : CustomCallBackendConfig.t) (payload : bytes),
    CustomCallBackendConfig.to_json self = inr payload ->
    (exists fields,
        payload
        = b "{'custom_call_config': {'body': '"
          ++ base64.b64encode self.(CustomCallBackendConfig.lowered_module_asm)
          ++ b "'" ++ fields
          ++ b ", 'implicit_sharding': {'type': 'MANUAL'}}")
    /\ (forall other : CustomCallBackendConfig.t,
          CustomCallBackendConfig.to_json other = inr payload ->
          other.(CustomCallBackendConfig.lowered_module_asm)
          = self.(CustomCallBackendConfig.lowered_module_asm)).
Proof.
  intros self payload Hout.
  destruct (to_json_frame_of self payload Hout) as [fields Hself].
  split; [now exists fields | ].
  intros other Hother.
  destruct (to_json_frame_of other payload Hother) as [fields' Hother'].
  rewrite Hself in Hother'. apply append_cancel_l in Hother'.
  change (b "'" ++ fields ++ b ", 'implicit_sharding': {'type': 'MANUAL'}}")
    with (String dq (fields ++ b ", 'implicit_sharding': {'type': 'MANUAL'}}"))
    in Hother'.
  change (b "'" ++ fields' ++ b ", 'implicit_sharding': {'type': 'MANUAL'}}")
    with (String dq (fields' ++ b ", 'implicit_sharding': {'type': 'MANUAL'}}"))
    in Hother'.
  apply (run_cancel (fun c => negb (Ascii.eqb c dq))) in Hother' as [Hbody _];
    [ | apply quote_free_b64encode | apply quote_free_b64encode
      | reflexivity | reflexivity].
  symmetry. now apply b64encode_inj.
Qed.

Lemma to_json_frame_witness :
  exists payload,
    CustomCallBackendConfig.to_json full_config = inr payload
    /\ (exists fields,
           payload
           = b "{'custom_call_config': {'body': '" ++ base64.b64encode "Man"
             ++ b "'" ++ fields
             ++ b ", 'implicit_sharding': {'type': 'MANUAL'}}")
    /\ (forall other : CustomCallBackendConfig.t,
           CustomCallBackendConfig.to_json other = inr payload ->
           other.(CustomCallBackendConfig.lowered_module_asm) = "Man").
Proof.
  eexists. split; [reflexivity | ].
  apply (to_json_frame full_config). reflexivity.
Defined.

(* ===================================================================== *)
(** * The values of the fields                                             *)
(* ===================================================================== *)

Lemma occurs_whole (p : string) : occurs p p.
Proof. exists "", "". now rewrite append_empty_r. Qed.

Lemma occurs_prefix (p rest : string) : occurs p (p ++ rest).
Proof. now exists "", rest. Qed.

(** What [key: value] block a writer of the form
    [write key ;; write_ascii value] leaves. *)
Lemma key_value_written (key : bytes) (value : string) (o : bytes) :
  (write key ;; write_ascii value)%writer = inr (tt, o) -> o = key ++ value.
Proof.
  intros H. apply bind_inv in H as [o1 [o2 [E1 [E2 ->]]]].
  injection E1 as <-. now apply write_ascii_inv in E2 as [-> _].
Qed.

Lemma key_int_written (key : bytes) (n : Z) (o : bytes) :
  (write key ;; text <- lift (Py.str_int n) ;; write_ascii text)%writer
  = inr (tt, o) ->
  o = key ++ Py.decimal n.
Proof.
  intros H. apply bind_inv in H as [o1 [o2 [E1 [E2 ->]]]].
  injection E1 as <-. now apply str_int_written in E2 as [-> _].
Qed.

Lemma key_lower_int_written (key : bytes) (n : Z) (o : bytes) :
  (write key ;; text <- lift (Py.str_int n) ;; write_ascii (Py.lower text))%writer
  = inr (tt, o) ->
  o = key ++ Py.decimal n.
Proof.
  intros H. apply bind_inv in H as [o1 [o2 [E1 [E2 ->]]]].
  injection E1 as <-. apply bind_lift_inv in E2 as [text [E E2]].
  apply str_int_inv in E as [-> _]. rewrite lower_decimal in E2.
  now apply write_ascii_inv in E2 as [-> _].
Qed.

Ltac skip_write := apply bind_occurs_r; cbv beta.

Ltac this_block :=
  let o := fresh "o" in
  let H := fresh "H" in
  apply bind_occurs_l; cbn [when_some when]; intros o H.

(** ** What follows a field

    Every block of [custom_call_config] writes nothing, or a member that a
    comma leads; the object is closed after the last of them. *)

Lemma comma_led_when (c : bool) (key : string) (f : unit -> W unit) :
  comma_led (when c (bind (write (String "," key)) f)).
Proof.
  intros o H. destruct c; cbn [when] in H.
  - apply bind_inv in H as [o1 [o2 [E1 [_ ->]]]]. injection E1 as <-.
    right. eexists. reflexivity.
  - injection H as <-. now left.
Qed.

Lemma comma_led_when_some {A} (x : option A) (key : string) (f : A -> unit -> W unit) :
  comma_led (when_some x (fun v => bind (write (String "," key)) (f v))).
Proof.
  intros o H. destruct x as [v | ]; cbn [when_some] in H.
  - apply bind_inv in H as [o1 [o2 [E1 [_ ->]]]]. injection E1 as <-.
    right. eexists. reflexivity.
  - injection H as <-. now left.
Qed.

Lemma closes_bind (w : W unit) (f : unit -> W unit) :
  comma_led w -> closes (f tt) -> closes (bind w f).
Proof.
  intros Hw Hf o H. apply bind_inv in H as [o1 [o2 [E1 [E2 ->]]]].
  destruct (Hw o1 E1) as [-> | [rest ->]].
  - exact (Hf o2 E2).
  - exists ","%char, (rest ++ o2). split; [reflexivity | now left].
Qed.

Lemma closes_brace (f : unit -> W unit) : closes (bind (write (b "}")) f).
Proof.
  intros o H. apply bind_inv in H as [o1 [o2 [E1 [_ ->]]]]. injection E1 as <-.
  exists "}"%char, o2. split; [reflexivity | now right].
Qed.

Lemma bind_member (p : string) (w : W unit) (f : unit -> W unit) :
  (forall o, w = inr (tt, o) -> o = p) -> closes (f tt) ->
  forall o, bind w f = inr (tt, o) -> member p o.
Proof.
  intros Hw Hf o H. apply bind_inv in H as [o1 [o2 [E1 [E2 ->]]]].
  rewrite (Hw o1 E1). destruct (Hf o2 E2) as [c [rest [-> [-> | ->]]]].
  - left. exists "", rest. cbn [append]. now rewrite append_assoc.
  - right. exists "", rest. cbn [append]. now rewrite append_assoc.
Qed.

Lemma bind_member_r (p : string) (w : W unit) (f : unit -> W unit) :
  (forall o, f tt = inr (tt, o) -> member p o) ->
  forall o, bind w f = inr (tt, o) -> member p o.
Proof.
  intros H o Ho. apply bind_inv in Ho as [o1 [o2 [_ [Hf ->]]]].
  destruct (H o2 Hf) as [Hm | Hm]; [left | right];
    pose proof (occurs_extend _ o2 o1 "" Hm) as Hx;
    now rewrite append_empty_r in Hx.
Qed.

Ltac skip_member := apply bind_member_r; cbv beta.

Ltac closing :=
  repeat first
    [ apply closes_brace
    | apply closes_bind;
      [ first [apply comma_led_when | apply comma_led_when_some] | cbv beta ] ].

(** X7. Every scalar field that is present is written as a member of its
    object: the key, a colon, the value, and then the comma before the next
    member or the closing brace.  An integer is written in decimal
    ([serialization_format] too, which the code lower-cases), a true
    boolean as [true], the cost estimate as its own JSON, the device type
    upper-cased behind [DEVICE_TYPE_] between quotes, and
    [vmem_limit_bytes] as the size of one scoped memory config in memory
    space 1 at offset 0. *)
Theorem to_json_field_values :
  forall (self : CustomCallBackendConfig.t) (payload : bytes),
    CustomCallBackendConfig.to_json self = inr payload ->
    (self.(CustomCallBackendConfig.has_communication) = true ->
     member (b ", 'has_communication': true") payload)
    /\ (forall n, self.(CustomCallBackendConfig.collective_id) = Some n ->
          member (b ", 'collective_id': " ++ Py.decimal n) payload)
    /\ (forall c, self.(CustomCallBackendConfig.cost_estimate) = Some c ->
          member (b ", 'cost_estimate': {'flops': "
                  ++ Py.decimal c.(CostEstimate.flops)
                  ++ b ", 'transcendentals': "
                  ++ Py.decimal c.(CostEstimate.transcendentals)
                  ++ b ", 'bytes_accessed': "
                  ++ Py.decimal c.(CostEstimate.bytes_accessed) ++ b "}") payload)
    /\ (self.(CustomCallBackendConfig.needs_hlo_passes) = true ->
        member (b ", 'needs_hlo_passes': true") payload)
    /\ (forall n, self.(CustomCallBackendConfig.serialization_format) = Some n ->
          member (b ", 'serialization_format': " ++ Py.decimal n) payload)
    /\ (self.(CustomCallBackendConfig.needs_layout_passes) = true ->
        member (b ", 'needs_layout_passes': true") payload)
    /\ (forall n, self.(CustomCallBackendConfig.internal_scratch_in_bytes) = Some n ->
          occurs (b ", 'internal_scratch_in_bytes': " ++ Py.decimal n ++ b "}")
            payload)
    /\ (forall d, self.(CustomCallBackendConfig.device_type) = Some d ->
          occurs (b "}, 'device_type': 'DEVICE_TYPE_" ++ Py.upper d ++ b "',")
            payload)
    /\ (forall n, self.(CustomCallBackendConfig.vmem_limit_bytes) = Some n ->
          occurs (b ", 'scoped_memory_configs': [{'memory_space':1, 'offset': 0, 'size': "
                  ++ Py.decimal n ++ b "}],") payload).
Proof.
  intros self payload Hout. apply to_json_writes_of in Hout.
  unfold CustomCallBackendConfig.to_json_writes in Hout.
  repeat split.
  - intros Hf. revert payload Hout. rewrite Hf. do 3 skip_member.
    apply bind_member; [ | closing]. cbn [when]. intros o H.
    now apply key_value_written in H.
  - intros n Hf. revert payload Hout. rewrite Hf. do 4 skip_member.
    apply bind_member; [ | closing]. cbn [when_some]. intros o H.
    now apply key_int_written in H.
  - intros c Hf. revert payload Hout. rewrite Hf. do 5 skip_member.
    apply bind_member; [ | closing]. cbn [when_some]. intros o H.
    apply bind_inv in H as [o1 [o2 [E1 [E2 ->]]]]. injection E1 as <-.
    apply bind_lift_inv in E2 as [text [E E2]].
    apply cost_estimate_to_json_inv in E as [-> _]. now injection E2 as <-.
  - intros Hf. revert payload Hout. rewrite Hf. do 6 skip_member.
    apply bind_member; [ | closing]. cbn [when]. intros o H.
    now apply key_value_written in H.
  - intros n Hf. revert payload Hout. rewrite Hf. do 7 skip_member.
    apply bind_member; [ | closing]. cbn [when_some]. intros o H.
    now apply key_lower_int_written in H.
  - intros Hf. revert payload Hout. rewrite Hf. do 8 skip_member.
    apply bind_member; [ | closing]. cbn [when]. intros o H.
    now apply key_value_written in H.
  - intros n Hf. revert payload Hout. rewrite Hf. do 10 skip_write.
    intros payload Hout. apply bind_inv in Hout as [o1 [o2 [E1 [E2 ->]]]].
    cbn [when_some] in E1. apply key_int_written in E1 as ->.
    apply bind_inv in E2 as [o3 [o4 [E3 [_ ->]]]]. injection E3 as <-.
    exists "", o4. cbn [append]. now rewrite !append_assoc.
  - intros d Hf. revert payload Hout. rewrite Hf. do 11 skip_write.
    intros payload Hout. apply bind_inv in Hout as [o1 [o2 [E1 [E2 ->]]]].
    injection E1 as <-.
    apply bind_inv in E2 as [o3 [o4 [E3 [E4 ->]]]].
    cbn [when_some] in E3. apply key_value_written in E3 as ->.
    assert (Hnext : exists rest, o4 = String "," rest).
    { apply bind_inv in E4 as [o5 [o6 [E5 [E6 ->]]]].
      apply bind_inv in E6 as [o7 [o8 [E7 [E8 ->]]]].
      apply bind_inv in E8 as [o9 [o10 [E9 [_ ->]]]]. injection E9 as <-.
      destruct (comma_led_when_some _ _ _ o5 E5) as [-> | [r5 ->]];
        [ | eexists; reflexivity].
      destruct (comma_led_when_some _ _ _ o7 E7) as [-> | [r7 ->]];
        eexists; reflexivity. }
    destruct Hnext as [rest ->].
    exists "", rest. cbn [append]. rewrite !append_assoc. reflexivity.
  - intros n Hf. revert payload Hout. rewrite Hf. do 13 skip_write.
    intros payload Hout. apply bind_inv in Hout as [o1 [o2 [E1 [E2 ->]]]].
    cbn [when_some] in E1.
    apply bind_inv in E1 as [u1 [u2 [F1 [F2 ->]]]]. injection F1 as <-.
    apply bind_lift_inv in F2 as [text [E F2]]. apply str_int_inv in E as [-> _].
    apply bind_inv in F2 as [u3 [u4 [F3 [F4 ->]]]]. injection F4 as <-.
    apply write_ascii_inv in F3 as [-> _].
    assert (Hnext : exists rest, o2 = String "," rest).
    { apply bind_inv in E2 as [o7 [o8 [E7 [E8 ->]]]].
      apply bind_inv in E8 as [o9 [o10 [E9 [_ ->]]]]. injection E9 as <-.
      destruct (comma_led_when_some _ _ _ o7 E7) as [-> | [r7 ->]];
        eexists; reflexivity. }
    destruct Hnext as [rest ->].
    exists "", rest. cbn [append]. rewrite !append_assoc. reflexivity.
Qed.

Lemma to_json_field_values_witness :
  exists payload,
    CustomCallBackendConfig.to_json full_config = inr payload
    /\ member (b ", 'collective_id': 3") payload
    /\ member (b ", 'serialization_format': 1") payload
    /\ occurs (b "}, 'device_type': 'DEVICE_TYPE_TC7',") payload.
Proof.
  eexists. split; [reflexivity | ].
  destruct (to_json_field_values full_config _ eq_refl)
    as [_ [Hcid [_ [_ [Hsf [_ [_ [Hdt _]]]]]]]].
  split; [exact (Hcid 3%Z eq_refl) | ].
  split; [exact (Hsf 1%Z eq_refl) | exact (Hdt "tc7" eq_refl)].
Defined.

(** X8. A present [allow_input_fusion] list is written as a JSON list of
    [true] and [false], one per item in the order of the list, with a comma
    between two items and none after the last. *)
Theorem allow_input_fusion_written :
  forall (self : CustomCallBackendConfig.t) (fusion : list bool) (payload : bytes),
    CustomCallBackendConfig.to_json self = inr payload ->
    self.(CustomCallBackendConfig.allow_input_fusion) = Some fusion ->
    occurs (b ", 'allow_input_fusion': [" ++ Py.join "," (map json_bool fusion)
            ++ b "]") payload.
Proof.
  intros self fusion payload Hout Hf. apply to_json_writes_of in Hout.
  unfold CustomCallBackendConfig.to_json_writes in Hout.
  revert payload Hout. rewrite Hf. do 9 skip_write. this_block.
  apply bind_inv in H as [o1 [o2 [E1 [H ->]]]]. injection E1 as <-.
  apply bind_inv in H as [o3 [o4 [Hloop [E4 ->]]]]. injection E4 as <-.
  apply (for_enumerate_join json_bool (fun _ => True) (List.length fusion))
    in Hloop as [_ ->].
  - apply occurs_whole.
  - intros i x t Hbody. split; [exact I | ].
    apply bind_inv in Hbody as [u1 [u2 [E1 [E2 ->]]]]. injection E1 as <-.
    f_equal. destruct (i + 1 =? List.length fusion)%nat; now injection E2 as <-.
  - reflexivity.
Qed.

Lemma join_cons (sep x y : string) (l : list string) :
  Py.join sep (x :: y :: l) = x ++ sep ++ Py.join sep (y :: l).
Proof. reflexivity. Qed.

(** The text of an item stands in the join of the texts. *)
Lemma occurs_join {A} (text : A -> string) (l1 : list A) (item : A) (l2 : list A) :
  occurs (text item) (Py.join "," (map text (l1 ++ item :: l2)%list)).
Proof.
  induction l1 as [|x l1 IH].
  - destruct l2 as [|y l2]; cbn [app map].
    + apply occurs_whole.
    + rewrite join_cons. apply occurs_prefix.
  - assert (E : exists y l, (l1 ++ item :: l2)%list = y :: l)
      by (destruct l1; cbn [app]; eauto).
    destruct E as [y [l E]]. cbn [app map]. rewrite E in *. cbn [map] in *.
    rewrite join_cons.
    apply (occurs_extend _ _ (text x ++ ",") "") in IH.
    now rewrite append_empty_r, append_assoc in IH.
Qed.

(** X9. The flags of a config that encodes are written as the
    [flag_configs] list, the last thing before the sharding marker: one
    entry per flag, in the order of the mapping, with a comma between two
    entries; an entry names the flag and gives its value under
    [boolean_value], [integer_value] or [double_value] by its type ([bool]
    first: a [bool] is never written as an integer). *)
Theorem flag_configs_in_mapping_order :
  forall (self : CustomCallBackendConfig.t) (flags : list (string * pyval))
         (payload : bytes),
    CustomCallBackendConfig.to_json self = inr payload ->
    self.(CustomCallBackendConfig.flags) = Some flags ->
    (exists before,
        payload
        = before ++ b ", 'flag_configs': ["
          ++ Py.join "," (map flag_entry_text flags) ++ b "]"
          ++ b ", 'implicit_sharding': {'type': 'MANUAL'}}")
    /\ (forall name v, In (name, VBool v) flags ->
          occurs (b "{'flag_type': '" ++ name ++ b "', value: {'boolean_value': "
                  ++ json_bool v ++ b "}}") payload)
    /\ (forall name n, In (name, VInt n) flags ->
          occurs (b "{'flag_type': '" ++ name ++ b "', value: {'integer_value': "
                  ++ Py.decimal n ++ b "}}") payload)
    /\ (forall name x, In (name, VFloat x) flags ->
          occurs (b "{'flag_type': '" ++ name ++ b "', value: {'double_value': "
                  ++ float_str x ++ b "}}") payload).
Proof.
  intros self flags payload Hout Hflags.
  destruct (flag_configs_written self flags payload Hout Hflags)
    as [_ [before ->]].
  assert (Hentry : forall item, In item flags ->
            occurs (flag_entry_text item)
              (before ++ b ", 'flag_configs': ["
               ++ Py.join "," (map flag_entry_text flags) ++ b "]"
               ++ b ", 'implicit_sharding': {'type': 'MANUAL'}}")).
  { intros item Hin. apply in_split in Hin as [l1 [l2 ->]].
    pose proof (occurs_join flag_entry_text l1 item l2) as Hjoin.
    apply (occurs_extend _ _ (before ++ b ", 'flag_configs': [")
             (b "]" ++ b ", 'implicit_sharding': {'type': 'MANUAL'}}")) in Hjoin.
    now rewrite !append_assoc in *. }
  split; [now exists before | ].
  split; [ | split].
  - intros name v Hin. apply Hentry in Hin.
    unfold flag_entry_text, flag_value_text in Hin. cbn [fst snd] in Hin.
    unfold json_bool. now rewrite !append_assoc in *.
  - intros name n Hin. apply Hentry in Hin.
    unfold flag_entry_text, flag_value_text in Hin. cbn [fst snd] in Hin.
    now rewrite !append_assoc in *.
  - intros name x Hin. apply Hentry in Hin.
    unfold flag_entry_text, flag_value_text in Hin. cbn [fst snd] in Hin.
    now rewrite !append_assoc in *.
Qed.

Lemma allow_input_fusion_written_witness :
  exists payload,
    CustomCallBackendConfig.to_json full_config = inr payload
    /\ occurs (b ", 'allow_input_fusion': [true,false]") payload.
Proof.
  eexists. split; [reflexivity | ].
  apply (allow_input_fusion_written full_config [true; false]); reflexivity.
Defined.

Lemma flag_configs_in_mapping_order_witness :
  exists payload,
    CustomCallBackendConfig.to_json flags_ab_config = inr payload
    /\ exists before,
         payload
         = before ++ b ", 'flag_configs': ["
           ++ Py.join ","
                (map flag_entry_text [("a", VBool true); ("b", VBool false)])
           ++ b "]" ++ b ", 'implicit_sharding': {'type': 'MANUAL'}}".
Proof.
  eexists. split; [reflexivity | ].
  apply (flag_configs_in_mapping_order flags_ab_config
           [("a", VBool true); ("b", VBool false)]); reflexivity.
Defined.

Lemma upper_char_fixed (c : ascii) :
  Py.is_lower c = true ->
  Ascii.eqb (ascii_of_nat (nat_of_ascii c - 32)) "223" = false.
Proof.
  destruct c as [[] [] [] [] [] [] [] []]; vm_compute; congruence.
Qed.

Lemma upper_idempotent (s : string) : Py.upper (Py.upper s) = Py.upper s.
Proof.
  induction s as [|c s IH]; [reflexivity | ].
  cbn [Py.upper]. destruct (Py.is_lower c) eqn:Hc.
  - cbn [Py.upper]. now rewrite (upper_char c Hc), (upper_char_fixed c Hc), IH.
  - destruct (Ascii.eqb c "223") eqn:Hs.
    + cbn [Py.upper]. change (Py.is_lower "S") with false.
      change (Ascii.eqb "S" "223") with false. cbn iota. now rewrite IH.
    + cbn [Py.upper]. now rewrite Hc, Hs, IH.
Qed.

(** X10. The encoder does not tell a device type from its upper-cased form:
    a config and the same config with the device type upper-cased encode to
    the same bytes, or raise the same exception. *)
Theorem to_json_device_type_case :
  forall asm hc cid ce nh nl vmem fl aif sf isb (d : string),
    let config device_type := {|
      CustomCallBackendConfig.lowered_module_asm := asm;
      CustomCallBackendConfig.has_communication := hc;
      CustomCallBackendConfig.collective_id := cid;
      CustomCallBackendConfig.device_type := Some device_type;
      CustomCallBackendConfig.cost_estimate := ce;
      CustomCallBackendConfig.needs_hlo_passes := nh;
      CustomCallBackendConfig.needs_layout_passes := nl;
      CustomCallBackendConfig.vmem_limit_bytes := vmem;
      CustomCallBackendConfig.flags := fl;
      CustomCallBackendConfig.allow_input_fusion := aif;
      CustomCallBackendConfig.serialization_format := sf;
      CustomCallBackendConfig.internal_scratch_in_bytes := isb
    |} in
    CustomCallBackendConfig.to_json (config d)
    = CustomCallBackendConfig.to_json (config (Py.upper d)).
Proof.
  intros. subst config.
  unfold CustomCallBackendConfig.to_json, CustomCallBackendConfig.to_json_writes.
  cbn [CustomCallBackendConfig.lowered_module_asm
       CustomCallBackendConfig.has_communication
       CustomCallBackendConfig.collective_id
       CustomCallBackendConfig.device_type
       CustomCallBackendConfig.cost_estimate
       CustomCallBackendConfig.needs_hlo_passes
       CustomCallBackendConfig.needs_layout_passes
       CustomCallBackendConfig.vmem_limit_bytes
       CustomCallBackendConfig.flags
       CustomCallBackendConfig.allow_input_fusion
       CustomCallBackendConfig.serialization_format
       CustomCallBackendConfig.internal_scratch_in_bytes when_some].
  now rewrite upper_idempotent.
Qed.

(* ===================================================================== *)
(** * Layouts, aliases and the emitted call                                *)
(* ===================================================================== *)

(** X11. [_avals_to_layouts] gives one layout per aval, in order.  The layout
    of an aval lists its dimensions from the last to the first: entry [j] is
    [ndim - 1 - j], every dimension stands in it once, and a scalar has the
    empty layout. *)
Theorem avals_to_layouts_minor_to_major :
  forall avals : list aval,
    List.length (_avals_to_layouts avals) = List.length avals
    /\ (forall i a,
          nth_error avals i = Some a ->
          exists layout,
            nth_error (_avals_to_layouts avals) i = Some layout
            /\ List.length layout = ndim a
            /\ NoDup layout
            /\ (forall d, In d layout <-> (d < ndim a)%nat)
            /\ (forall j, (j < ndim a)%nat ->
                          nth_error layout j = Some (ndim a - 1 - j)%nat)
            /\ (ndim a = 0%nat -> layout = [])).
Proof.
  intros avals. unfold _avals_to_layouts. split; [apply length_map | ].
  intros i a Hi. exists (List.rev (seq 0 (ndim a))).
  split; [now rewrite nth_error_map, Hi | ].
  split; [now rewrite length_rev, length_seq | ].
  split; [apply NoDup_rev, seq_NoDup | ].
  split; [ | split].
  - intros d. rewrite <- in_rev, in_seq. lia.
  - intros j Hj. rewrite nth_error_rev, length_seq.
    destruct (Nat.ltb_spec j (ndim a)) as [_ | Hge]; [ | lia].
    rewrite nth_error_seq.
    destruct (Nat.ltb_spec (ndim a - S j) (ndim a)) as [_ | Hge]; [ | lia].
    f_equal. lia.
  - intros ->. reflexivity.
Qed.

Lemma dict_set_keys (k v : nat) (d : list (nat * nat)) :
  forall k', In k' (map fst (dict_set k v d)) <-> k' = k \/ In k' (map fst d).
Proof.
  induction d as [|[k0 v0] d IH]; intros k'; cbn [dict_set map fst In].
  - intuition.
  - destruct (Nat.eqb_spec k k0) as [-> | Hne]; cbn [map fst In].
    + intuition.
    + rewrite IH. intuition.
Qed.

Lemma dict_set_NoDup (k v : nat) (d : list (nat * nat)) :
  NoDup (map fst d) -> NoDup (map fst (dict_set k v d)).
Proof.
  induction d as [|[k0 v0] d IH]; intros Hnd; cbn [dict_set map fst].
  - constructor; [intros [] | constructor].
  - inversion Hnd as [|? ? Hk0 Hd]; subst.
    destruct (Nat.eqb_spec k k0) as [-> | Hne]; cbn [map fst].
    + now constructor.
    + constructor; [ | now apply IH].
      rewrite dict_set_keys. intros [-> | Hin]; [now apply Hne | now apply Hk0].
Qed.

Lemma dict_set_In (k v : nat) (d : list (nat * nat)) :
  NoDup (map fst d) ->
  forall k' v', In (k', v') (dict_set k v d)
                <-> (k' = k /\ v' = v) \/ (k' <> k /\ In (k', v') d).
Proof.
  induction d as [|[k0 v0] d IH]; intros Hnd k' v'; cbn [dict_set In].
  - split; [intros [[= <- <-] | []]; now left | intros [[-> ->] | [_ []]]; now left].
  - inversion Hnd as [|? ? Hk0 Hd]; subst.
    destruct (Nat.eqb_spec k k0) as [-> | Hne]; cbn [In].
    + split.
      * intros [[= <- <-] | Hin]; [now left | right].
        split; [ | now right]. intros ->. apply Hk0.
        apply in_map_iff. now exists (k0, v').
      * intros [[-> ->] | [Hne [[= -> ->] | Hin]]];
          [now left | now destruct Hne | now right].
    + rewrite (IH Hd). split.
      * intros [[= <- <-] | [[-> ->] | [Hk Hin]]].
        -- right. split; [congruence | now left].
        -- now left.
        -- right. split; [exact Hk | now right].
      * intros [[-> ->] | [Hk [[= -> ->] | Hin]]].
        -- right. now left.
        -- now left.
        -- right. right. now split.
Qed.

(** What [dict] makes of a list of pairs added to a dict [acc]. *)
Lemma dict_fold (pairs : list (nat * nat)) :
  forall acc,
    NoDup (map fst acc) ->
    let d := fold_left (fun d kv => dict_set (fst kv) (snd kv) d) pairs acc in
    NoDup (map fst d)
    /\ (forall k v,
          In (k, v) d
          <-> (exists l1 l2, pairs = (l1 ++ (k, v) :: l2)%list
                             /\ ~ In k (map fst l2))
              \/ (~ In k (map fst pairs) /\ In (k, v) acc)).
Proof.
  induction pairs as [|[k0 v0] pairs IH]; intros acc Hacc; cbn [fold_left fst snd].
  - split; [exact Hacc | ]. intros k v. split.
    + intros H. right. split; [intros [] | exact H].
    + intros [[l1 [l2 [E _]]] | [_ H]]; [now destruct l1 | exact H].
  - destruct (IH (dict_set k0 v0 acc) (dict_set_NoDup k0 v0 acc Hacc)) as [Hnd Hin].
    split; [exact Hnd | ]. intros k v. rewrite Hin, (dict_set_In k0 v0 acc Hacc).
    cbn [map fst In]. split.
    + intros [[l1 [l2 [-> Hl2]]] | [Hk [[-> ->] | [Hne Hacc']]]].
      * left. exists ((k0, v0) :: l1), l2. now split.
      * left. exists [], pairs. now split.
      * right. split; [ | exact Hacc']. intros [E | H]; [now apply Hne | now apply Hk].
    + intros [[l1 [l2 [E Hl2]]] | [Hk Hacc']].
      * destruct l1 as [|p l1]; cbn [app] in E; injection E; intros; subst.
        -- right. split; [exact Hl2 | now left].
        -- left. now exists l1, l2.
      * right. split; [intros H; apply Hk; now right | ].
        right. split; [ | exact Hacc']. intros ->. apply Hk. now left.
Qed.

(** X12. The operand aliases of an emitted call are a mapping: no operand is
    aliased twice, and when [input_output_aliases] names an operand more
    than once the last pair decides its output. *)
Theorem emitted_aliases_last_pair_wins :
  forall ctx in_nodes config kernel_name out_avals aliases call,
    _tpu_custom_call_lowering ctx in_nodes config kernel_name out_avals aliases
    = inr call ->
    NoDup (map fst call.(operand_output_aliases))
    /\ (forall operand output,
          In (operand, output) call.(operand_output_aliases)
          <-> exists l1 l2, aliases = (l1 ++ (operand, output) :: l2)%list
                            /\ ~ In operand (map fst l2)).
Proof.
  intros ctx in_nodes config kernel_name out_avals aliases call Hcall.
  assert (E : call.(operand_output_aliases) = dict aliases).
  { unfold _tpu_custom_call_lowering, rbind in Hcall.
    destruct (match ctx_axis_context ctx with
              | SPMDAxisContext _ _ => _ | ShardingContext _ => _
              | ReplicaAxisContext => _ end); [discriminate | ].
    destruct (CustomCallBackendConfig.to_json config); [discriminate | ].
    now injection Hcall as <-. }
  rewrite E. unfold dict.
  destruct (dict_fold aliases [] (NoDup_nil _)) as [Hnd Hin].
  split; [exact Hnd | ]. intros k v. rewrite Hin. split.
  - intros [H | [_ []]]. exact H.
  - intros H. now left.
Qed.

Lemma emitted_aliases_last_pair_wins_witness :
  exists call,
    _tpu_custom_call_lowering manual_context [0%nat; 1%nat] full_config
      (Some "kernel") [{| shape := [Some 8%Z; Some 128%Z] |}]
      [(0, 0); (1, 0); (0, 1)]%nat = inr call
    /\ NoDup (map fst call.(operand_output_aliases))
    /\ (In (0, 1)%nat call.(operand_output_aliases)
        <-> exists l1 l2,
              [(0, 0); (1, 0); (0, 1)]%nat = (l1 ++ (0, 1)%nat :: l2)%list
              /\ ~ In 0%nat (map fst l2)).
Proof.
  eexists. split; [reflexivity | ].
  destruct (emitted_aliases_last_pair_wins manual_context [0%nat; 1%nat]
              full_config (Some "kernel") [{| shape := [Some 8%Z; Some 128%Z] |}]
              [(0, 0); (1, 0); (0, 1)]%nat _ eq_refl) as [Hnd Hin].
  split; [exact Hnd | exact (Hin 0%nat 1%nat)].
Defined.

(** The partitioning check, as the statement it is in the rule. *)
Lemma partitioning_check (ctx : LoweringRuleContext)
    (config : CustomCallBackendConfig.t) (rest : unit -> result custom_call) :
  exists msg,
    rbind
      match ctx.(ctx_axis_context) with
      | SPMDAxisContext mesh_axis_names manual_axes =>
          raise_if (negb (set_eqb manual_axes mesh_axis_names))
            (NotImplementedError partitioning_message)
      | ShardingContext num_devices =>
          raise_if (negb (num_devices =? 1)%Z)
            (NotImplementedError partitioning_message)
      | ReplicaAxisContext =>
          raise_if config.(CustomCallBackendConfig.has_communication)
            (NotImplementedError
               "Replica lowering for Mosaic kernels not implemented.")
      end rest
    = if partitioning_ok ctx config then rest tt
      else inl (NotImplementedError msg).
Proof.
  unfold partitioning_ok.
  destruct (ctx_axis_context ctx) as [mesh manual | n | ].
  - exists partitioning_message. now destruct (set_eqb manual mesh).
  - exists partitioning_message. now destruct (n =? 1)%Z.
  - exists "Replica lowering for Mosaic kernels not implemented.".
    now destruct (CustomCallBackendConfig.has_communication config).
Qed.

(** X13. Call emission returns a call exactly when the partitioning check
    passes and the config is encodable.  A refused partitioning raises
    [NotImplementedError] also for a config that would not encode, since the
    check comes first; when the check passes, an exception of the encoder is
    the exception of the emission. *)
Theorem tpu_custom_call_lowering_outcome :
  forall ctx in_nodes config kernel_name out_avals aliases,
    let emitted :=
      _tpu_custom_call_lowering ctx in_nodes config kernel_name out_avals
        aliases in
    ((exists call, emitted = inr call)
     <-> partitioning_ok ctx config = true /\ encodable config = true)
    /\ (partitioning_ok ctx config = false ->
        exists msg, emitted = inl (NotImplementedError msg))
    /\ (partitioning_ok ctx config = true ->
        forall e, CustomCallBackendConfig.to_json config = inl e ->
                  emitted = inl e).
Proof.
  intros ctx in_nodes config kernel_name out_avals aliases. cbv zeta.
  unfold _tpu_custom_call_lowering.
  match goal with |- context [rbind _ ?rest] =>
    destruct (partitioning_check ctx config rest) as [msg ->]
  end.
  destruct (partitioning_ok ctx config).
  - split; [ | split; [discriminate | ]].
    + rewrite <- returns_to_json_writes, <- to_json_returns. unfold rbind.
      destruct (CustomCallBackendConfig.to_json config) as [e | payload].
      * split; [intros [call H]; discriminate | ].
        intros [_ [payload H]]. discriminate.
      * split; [intros _; split; [reflexivity | now exists payload] | ].
        intros _. eexists. reflexivity.
    + intros _ e ->. reflexivity.
  - split; [ | split; [intros _; now exists msg | discriminate]].
    split; [intros [call H]; discriminate | intros [H _]; discriminate].
Qed.

(* ===================================================================== *)
(** * Traces of the lowering                                               *)
(* ===================================================================== *)

Section TraceFacts.

Context {R : Runtime}.

Lemma dump_mlir_returns (module : ir_Module) (name : string) log log' :
  dump_mlir module name log = (inr tt, log') ->
  log' = if dump_enabled then (log ++ [Dumped name])%list else log.
Proof.
  rewrite dump_mlir_spec. unfold dump_enabled.
  destruct dump_directory as [outdir | ]; [ | now intros [= <-]].
  destruct (write_dump outdir name module); [discriminate | now intros [= <-]].
Qed.

Lemma dump_mlir_raises (module : ir_Module) (name : string) log e log' :
  dump_mlir module name log = (inl e, log') -> dump_error e /\ log' = log.
Proof.
  rewrite dump_mlir_spec. unfold dump_error.
  destruct dump_directory as [outdir | ]; [ | discriminate].
  destruct (write_dump outdir name module) as [e0 | ] eqn:Hw; [ | discriminate].
  intros [= <- <-]. split; [ | reflexivity]. now exists outdir, name, module.
Qed.

Lemma dump_error_enabled (e : exn) : dump_error e -> dump_enabled = true.
Proof.
  intros [outdir [name [module [Hdir _]]]]. unfold dump_enabled. now rewrite Hdir.
Qed.

Lemma dumped_app (l1 l2 : list event) :
  dumped (l1 ++ l2) = (dumped l1 ++ dumped l2)%list.
Proof.
  induction l1 as [|[p | n] l1 IH]; simpl; [reflexivity | exact IH | now rewrite IH].
Qed.

Lemma run_pipeline_spec (p : string) (module : ir_Module) (log : list event) :
  run_pipeline p module log
  = (match pass_manager_run p module with
     | Some module' => inr module'
     | None => inl (MLIRError p)
     end, (log ++ [Ran p])%list).
Proof.
  unfold run_pipeline, lbind, emit.
  now destruct (pass_manager_run p module).
Qed.

Lemma failure_cons (e : exn) (p : string) (done : list string) :
  failure e done -> failure e (p :: done).
Proof.
  intros [Hv | [[before [q [-> ->]]] | Hd]].
  - now left.
  - right. left. now exists (p :: before), q.
  - right. now right.
Qed.

(** A run of a catalog that raises: what it has run is a part of the
    catalog from its start, and a pipeline that raised is the last one run. *)
Lemma apply_stages_fails (stages : list stage) :
  (forall e, In (Reject e) stages -> exists msg, e = ValueError msg) ->
  forall (module : ir_Module) log e log',
    apply_stages stages module log = (inl e, log') ->
    exists done rest,
      ran log' = (ran log ++ done)%list
      /\ pipelines_of stages = (done ++ rest)%list
      /\ failure e done.
Proof.
  induction stages as [|[p tag | e0] stages IH]; intros Hrej module log e log' H.
  - discriminate.
  - cbn [apply_stages pipelines_of] in *. unfold lbind at 1 in H.
    rewrite run_pipeline_spec in H.
    destruct (pass_manager_run p module) as [m1 | ].
    + unfold lbind at 1 in H.
      destruct (dump_mlir m1 tag (log ++ [Ran p])%list) as [[e1 | []] log1] eqn:Hd.
      * injection H as <- <-. apply dump_mlir_raises in Hd as [He ->].
        exists [p], (pipelines_of stages).
        split; [now rewrite ran_app | ]. split; [reflexivity | ].
        right. now right.
      * apply dump_mlir_ran in Hd.
        apply IH in H as [done [rest [Hran [Hcat Hcase]]]].
        -- exists (p :: done), rest. split; [ | split].
           ++ rewrite Hran, Hd, ran_app. simpl. now rewrite <- app_assoc.
           ++ now rewrite Hcat.
           ++ now apply failure_cons.
        -- intros e1 He1. apply Hrej. now right.
    + injection H as <- <-. exists [p], (pipelines_of stages).
      split; [now rewrite ran_app | ]. split; [reflexivity | ].
      right. left. now exists [], p.
  - cbn [apply_stages] in H. injection H as <- <-.
    exists [], []. split; [now rewrite app_nil_r | ]. split; [reflexivity | ].
    left. apply Hrej. now left.
Qed.

Lemma check_stages_rejects (e : exn) :
  In (Reject e) check_stages -> exists msg, e = ValueError msg.
Proof.
  unfold check_stages. destruct checks_flag as [v | ]; [ | intros []].
  destruct (forallb _ _); intros [H | []]; [discriminate | ].
  injection H as <-. eexists. reflexivity.
Qed.

Lemma stage_catalog_rejects (g : Z) (e : exn) :
  In (Reject e) (stage_catalog g) -> exists msg, e = ValueError msg.
Proof.
  unfold stage_catalog, generation_stages, Py.str_int. rewrite !in_app_iff.
  intros [H | H].
  - destruct _MOSAIC_ALLOW_HLO; [destruct H as [H | []]; discriminate | destruct H].
  - destruct (Py.printable g).
    + rewrite !in_app_iff in H. destruct H as [H | [H | H]].
      * destruct H as [H | [H | []]]; discriminate.
      * now apply check_stages_rejects.
      * destruct H as [H | [H | [H | [H | []]]]]; discriminate.
    + destruct H as [H | []]. injection H as <-. eexists. reflexivity.
Qed.

Lemma lower_tpu_kernel_raises (module : ir_Module) (g : Z)
    (log : list event) e log' :
  _lower_tpu_kernel module g log = (inl e, log') ->
  exists done rest,
    ran log' = (ran log ++ done)%list
    /\ pipelines_of (stage_catalog g) = (done ++ rest)%list
    /\ failure e done.
Proof.
  rewrite lower_tpu_kernel_refines.
  destruct (verify module).
  - unfold lbind at 1.
    destruct (dump_mlir module "original" log) as [[e1 | []] log1] eqn:Hd.
    + intros [= <- <-]. apply dump_mlir_raises in Hd as [He ->].
      exists [], (pipelines_of (stage_catalog g)).
      split; [now rewrite app_nil_r | ]. split; [reflexivity | ].
      right. now right.
    + intros H. apply dump_mlir_ran in Hd.
      apply apply_stages_fails in H as [done [rest [Hran [Hcat Hcase]]]];
        [ | apply stage_catalog_rejects].
      exists done, rest. split; [ | now split]. now rewrite Hran, Hd.
  - intros [= <- <-]. exists [], (pipelines_of (stage_catalog g)).
    split; [now rewrite app_nil_r | ]. split; [reflexivity | ].
    left. eexists. reflexivity.
Qed.

(** X14. A run of the Module Lowerer that raises has run a part of the
    catalog's pipelines from its start, in order, and nothing after the
    failure.  It raises [ValueError] (the module does not verify, the check
    flag names an unknown category, or the generation is beyond the digit
    limit of [str]), the [MLIRError] of a pipeline, which is then the last
    one run, or, with dumping on only, what the writing of a dump raised; a
    module that does not verify has had no pipeline run on it. *)
Theorem lower_tpu_kernel_fails_fast :
  forall (module : ir_Module) (g : Z) (log : list event) e log',
    _lower_tpu_kernel module g log = (inl e, log') ->
    (exists done rest,
        ran log' = (ran log ++ done)%list
        /\ pipelines_of (stage_catalog g) = (done ++ rest)%list
        /\ ((exists msg, e = ValueError msg)
            \/ (exists before p, e = MLIRError p /\ done = (before ++ [p])%list)
            \/ (dump_enabled = true
                /\ exists outdir name dumped_module,
                     write_dump outdir name dumped_module = Some e)))
    /\ (verify module = false ->
        log' = log
        /\ e = ValueError "The compiled module fails MLIR verification").
Proof.
  intros module g log e log' H. split.
  - destruct (lower_tpu_kernel_raises module g log e log' H)
      as [done [rest [Hran [Hcat [Hv | [Hm | Hd]]]]]];
      exists done, rest; (split; [exact Hran | split; [exact Hcat | ]]).
    + now left.
    + right. now left.
    + right. right. split; [now apply (dump_error_enabled e) | ].
      destruct Hd as [outdir [name [m [_ Hw]]]]. now exists outdir, name, m.
  - intros Hv. unfold _lower_tpu_kernel in H. rewrite Hv in H.
    unfold lbind, lraise in H. injection H as <- <-. now split.
Qed.

Lemma apply_stages_dumped (stages : list stage) :
  forall (module module' : ir_Module) log log',
    apply_stages stages module log = (inr module', log') ->
    dumped log' = (dumped log ++ if dump_enabled then tags_of stages else [])%list.
Proof.
  induction stages as [|[p tag | e] stages IH]; intros module module' log log' H.
  - injection H as _ <-. destruct dump_enabled; now rewrite app_nil_r.
  - cbn [apply_stages tags_of] in *. unfold lbind at 1 in H.
    rewrite run_pipeline_spec in H.
    destruct (pass_manager_run p module) as [m1 | ]; [ | discriminate].
    unfold lbind at 1 in H.
    destruct (dump_mlir m1 tag (log ++ [Ran p])%list) as [[e1 | []] log1] eqn:Hd;
      [discriminate | ].
    apply dump_mlir_returns in Hd. apply IH in H. rewrite H, Hd.
    destruct dump_enabled.
    + rewrite !dumped_app. simpl. rewrite app_nil_r, <- app_assoc. reflexivity.
    + rewrite dumped_app. simpl. now rewrite !app_nil_r.
  - discriminate.
Qed.

Lemma dump_mlir_off (module : ir_Module) (name : string) log :
  dump_enabled = false -> dump_mlir module name log = (inr tt, log).
Proof.
  rewrite dump_mlir_spec. unfold dump_enabled.
  now destruct dump_directory.
Qed.

Lemma apply_stages_no_dump (stages : list stage) :
  dump_enabled = false ->
  forall (module : ir_Module) log r log',
    apply_stages stages module log = (r, log') -> dumped log' = dumped log.
Proof.
  intros Hoff.
  induction stages as [|[p tag | e] stages IH]; intros module log r log' H.
  - now injection H as _ <-.
  - cbn [apply_stages] in H. unfold lbind at 1 in H.
    rewrite run_pipeline_spec in H.
    destruct (pass_manager_run p module) as [m1 | ].
    + unfold lbind at 1 in H. rewrite (dump_mlir_off _ _ _ Hoff) in H.
      apply IH in H. rewrite H, dumped_app. simpl. now rewrite app_nil_r.
    + injection H as _ <-. rewrite dumped_app. simpl. now rewrite app_nil_r.
  - now injection H as _ <-.
Qed.

(** X15. [dump_mlir] writes exactly when the dump flag is registered with
    the value [sponge] and the outputs directory is set and not empty; what
    the writing raises escapes, and nothing is dumped then.  With dumping
    on, a run of the Module Lowerer that returns has dumped the module once
    as [original] and once after every pipeline, under the tags of the
    catalog in order; with dumping off no run dumps anything, and a run
    that raises has raised [ValueError] or the [MLIRError] of a pipeline. *)
Theorem lower_tpu_kernel_dumps :
  forall (module : ir_Module) (g : Z) (log : list event),
    (forall name,
        dump_mlir module name log
        = match dump_directory with
          | Some outdir =>
              match write_dump outdir name module with
              | None => (inr tt, (log ++ [Dumped name])%list)
              | Some e => (inl e, log)
              end
          | None => (inr tt, log)
          end)
    /\ (forall module' log',
           _lower_tpu_kernel module g log = (inr module', log') ->
           dumped log'
           = (dumped log
              ++ if dump_enabled then "original" :: tags_of (stage_catalog g)
                 else [])%list)
    /\ (dump_enabled = false ->
        forall r log',
          _lower_tpu_kernel module g log = (r, log') ->
          dumped log' = dumped log
          /\ forall e, r = inl e ->
                (exists msg, e = ValueError msg) \/ (exists p, e = MLIRError p)).
Proof.
  intros module g log. split; [intros name; apply dump_mlir_spec | ].
  split.
  - intros module' log'. rewrite lower_tpu_kernel_refines.
    destruct (verify module); [ | discriminate].
    unfold lbind at 1.
    destruct (dump_mlir module "original" log) as [[e1 | []] log1] eqn:Hd;
      [discriminate | ].
    apply dump_mlir_returns in Hd. intros H.
    apply apply_stages_dumped in H. rewrite H, Hd. destruct dump_enabled.
    + rewrite dumped_app. simpl. now rewrite <- app_assoc.
    + reflexivity.
  - intros Hoff r log' H. split.
    + revert H. rewrite lower_tpu_kernel_refines.
      destruct (verify module); [ | now intros [= _ <-]].
      unfold lbind at 1. rewrite (dump_mlir_off _ _ _ Hoff). intros H.
      now apply (apply_stages_no_dump _ Hoff) in H.
    + intros e ->. apply lower_tpu_kernel_raises in H
        as [done [rest [_ [_ [Hv | [[before [p [Hm _]]] | Hd]]]]]].
      * now left.
      * right. now exists p.
      * apply dump_error_enabled in Hd. congruence.
Qed.

End TraceFacts.

Lemma lower_tpu_kernel_fails_fast_witness :
  exists e log',
    @_lower_tpu_kernel (dumping_runtime false) [] 4 [] = (inl e, log')
    /\ e = OSError
    /\ exists done rest,
         ran log' = (ran [] ++ done)%list
         /\ @pipelines_of (@stage_catalog (dumping_runtime false) 4)
            = (done ++ rest)%list
         /\ ((exists msg, e = ValueError msg)
             \/ (exists before p, e = MLIRError p /\ done = (before ++ [p])%list)
             \/ (@dump_enabled (dumping_runtime false) = true
                 /\ exists outdir name dumped_module,
                      @write_dump (dumping_runtime false) outdir name
                        dumped_module = Some e)).
Proof.
  eexists. eexists. split; [lazy; reflexivity | ]. split; [reflexivity | ].
  apply (@lower_tpu_kernel_fails_fast (dumping_runtime false) [] 4%Z []).
  lazy. reflexivity.
Defined.

(* ===================================================================== *)
(** * From the device kind to the serialized module                        *)
(* ===================================================================== *)

Lemma int_of_char_digit (c : ascii) (g : Z) :
  Py.int_of_char c = inr g ->
  (0 <= g <= 9)%Z /\ Py.str_int g = inr (String c "").
Proof.
  destruct c as [[] [] [] [] [] [] [] []]; intros H; vm_compute in H;
    first [discriminate H | injection H as <-];
    (split; [split; discriminate | reflexivity]).
Qed.

Section DeviceFacts.

Context {R : Runtime}.

Lemma pipelines_of_app (l1 l2 : list stage) :
  (forall e, ~ In (Reject e) l1) ->
  pipelines_of (l1 ++ l2) = (pipelines_of l1 ++ pipelines_of l2)%list.
Proof.
  induction l1 as [|[p tag | e] l1 IH]; intros H; cbn [app pipelines_of].
  - reflexivity.
  - rewrite IH; [reflexivity | ]. intros e He. apply (H e). now right.
  - destruct (H e). now left.
Qed.

(** X16. The generation read off a device kind whose character after
    [TPU v] is ASCII is one decimal digit, from 0 to 9, and [str] writes it
    back as the same character: the pipelines of the Module Lowerer carry
    the digit that follows [TPU v] in the device kind, whatever comes after
    it. *)
Theorem hardware_generation_digit_round_trip :
  forall (c : ascii) (rest : string) (g : Z),
    Py.is_ascii c = true ->
    hardware_generation_of ("TPU v" ++ String c rest) = inr g ->
    (0 <= g <= 9)%Z
    /\ Py.str_int g = inr (String c "")
    /\ In ("builtin.module(func.func(tpu-infer-memref-layout{hardware-generation="
           ++ String c "" ++ "}))")
         (pipelines_of (stage_catalog g)).
Proof.
  intros c rest g _ H.
  change (hardware_generation_of ("TPU v" ++ String c rest))
    with (Py.int_of_char c) in H.
  apply int_of_char_digit in H as [Hg Hstr].
  split; [exact Hg | ]. split; [exact Hstr | ].
  unfold stage_catalog. rewrite Hstr, pipelines_of_app.
  - apply in_or_app. right. unfold generation_stages.
    cbn [app pipelines_of]. now left.
  - intros e He. destruct _MOSAIC_ALLOW_HLO; [ | destruct He].
    destruct He as [He | []]. discriminate.
Qed.

(** X17. On the eager path the device is looked at before anything runs:
    the [RuntimeError] of a device lookup that fails escapes, and a device
    kind the generation cannot be read off raises what the reading raises:
    [IndexError] for [TPU v] with nothing behind it, [ValueError] for an
    ASCII character behind it that is no decimal digit.  In each case no
    pipeline has run. *)
Theorem lower_mosaic_module_to_asm_device_errors :
  forall (module : ir_Module) (backend : string) (device_type : option string)
         (log : list event),
    eager_lowering device_type = true ->
    (jax_devices backend = None ->
     _lower_mosaic_module_to_asm module backend device_type log
     = (inl RuntimeError, log))
    /\ (forall device_kind others e,
           jax_devices backend = Some (device_kind, others) ->
           hardware_generation_of device_kind = inl e ->
           _lower_mosaic_module_to_asm module backend device_type log
           = (inl e, log))
    /\ hardware_generation_of "TPU v" = inl IndexError
    /\ (forall c rest,
           Py.is_ascii c = true ->
           (48 <=? nat_of_ascii c)%nat && (nat_of_ascii c <=? 57)%nat = false ->
           exists msg,
             hardware_generation_of ("TPU v" ++ String c rest)
             = inl (ValueError msg)).
Proof.
  intros module backend device_type log Heager.
  unfold eager_lowering in Heager.
  split; [ | split; [ | split]].
  - intros Hdev. unfold _lower_mosaic_module_to_asm.
    destruct (private_has_communication module) as [hc hb].
    rewrite Heager. unfold lbind, llift. now rewrite Hdev.
  - intros kind others e Hdev He. unfold _lower_mosaic_module_to_asm.
    destruct (private_has_communication module) as [hc hb].
    rewrite Heager. unfold lbind, llift. now rewrite Hdev, He.
  - reflexivity.
  - intros c rest _ Hc.
    change (hardware_generation_of ("TPU v" ++ String c rest))
      with (Py.int_of_char c).
    unfold Py.int_of_char. rewrite Hc. eexists. reflexivity.
Qed.

End DeviceFacts.

Lemma hardware_generation_digit_round_trip_witness :
  hardware_generation_of "TPU v4lite" = inr 4%Z
  /\ (0 <= 4 <= 9)%Z
  /\ Py.str_int 4 = inr "4".
Proof.
  split; [reflexivity | ].
  destruct (@hardware_generation_digit_round_trip (example_runtime "" None true)
              "4"%char "lite" 4%Z eq_refl eq_refl) as [Hg [Hstr _]].
  split; [exact Hg | exact Hstr].
Defined.

Lemma lower_mosaic_module_to_asm_device_errors_witness :
  @eager_lowering (example_runtime "" (Some ("TPU vx", [])) true) None = true
  /\ @_lower_mosaic_module_to_asm (example_runtime "" (Some ("TPU vx", [])) true)
       [] "tpu" None []
     = (inl (ValueError "invalid literal for int() with base 10: 'x'"), []).
Proof.
  split; [reflexivity | ].
  destruct (@lower_mosaic_module_to_asm_device_errors
              (example_runtime "" (Some ("TPU vx", [])) true) [] "tpu" None []
              eq_refl) as [_ [H _]].
  exact (H "TPU vx" [] _ eq_refl eq_refl).
Defined.

Section SerializationFacts.

Context {R : Runtime}.

(** What a call of [_lower_mosaic_module_to_asm] that returns has done. *)
Lemma lower_mosaic_module_to_asm_returns (module : ir_Module) (backend : string)
    (device_type : option string) (log : list event)
    asm hc hb nh nl log' :
  _lower_mosaic_module_to_asm module backend device_type log
  = (inr (asm, (hc, hb, nh, nl)), log') ->
  (hc, hb) = private_has_communication module
  /\ exists lowered log1 final,
       (if eager_lowering device_type
        then exists device_kind others g,
               jax_devices backend = Some (device_kind, others)
               /\ hardware_generation_of device_kind = inr g
               /\ _lower_tpu_kernel (parse_asm module) g log = (inr lowered, log1)
               /\ nh = false /\ nl = false
        else lowered = parse_asm module /\ log1 = log
             /\ nh = _MOSAIC_ALLOW_HLO /\ nl = negb (truthy device_type))
       /\ pass_manager_run serde_pipeline lowered = Some final
       /\ log' = (log1 ++ [Ran serde_pipeline])%list
       /\ asm = write_bytecode final.
Proof.
  unfold _lower_mosaic_module_to_asm, eager_lowering.
  destruct (private_has_communication module) as [hc0 hb0].
  destruct (negb (truthy device_type) && _MOSAIC_USE_PYTHON_PIPELINE).
  - unfold lbind at 1 2 3, llift.
    destruct (jax_devices backend) as [[kind others] | ]; [ | discriminate].
    destruct (hardware_generation_of kind) as [e | g] eqn:Hg; [discriminate | ].
    unfold lbind at 1.
    destruct (_lower_tpu_kernel (parse_asm module) g log) as [[e | lowered] log1]
      eqn:Hk; [discriminate | ].
    unfold lret at 1. unfold lbind. rewrite run_pipeline_spec.
    fold serde_pipeline.
    destruct (pass_manager_run serde_pipeline lowered) as [final | ] eqn:Hs;
      [ | discriminate].
    unfold lret. intros [= <- <- <- <- <- <-]. split; [reflexivity | ].
    exists lowered, log1, final.
    split; [ | split; [exact Hs | split; reflexivity]].
    exists kind, others, g.
    split; [reflexivity | split; [exact Hg | split; [exact Hk | split; reflexivity]]].
  - rewrite lbind_lret. unfold lbind. rewrite run_pipeline_spec.
    fold serde_pipeline.
    destruct (pass_manager_run serde_pipeline (parse_asm module)) as [final | ] eqn:Hs;
      [ | discriminate].
    unfold lret. intros [= <- <- <- <- <- <-]. split; [reflexivity | ].
    exists (parse_asm module), log, final.
    split; [ | split; [exact Hs | split; reflexivity]].
    split; [reflexivity | split; [reflexivity | split; reflexivity]].
Qed.

Lemma dump_error_lowering (e : exn) : dump_error e -> lowering_error e.
Proof. intros H. destruct e; first [exact I | exact H]. Qed.

Lemma failure_lowering (e : exn) (done : list string) :
  failure e done -> lowering_error e.
Proof.
  intros [[msg ->] | [[before [p [-> _]]] | H]]; [exact I | exact I | ].
  now apply dump_error_lowering.
Qed.

(** What a call of [_lower_mosaic_module_to_asm] can raise. *)
Lemma lower_mosaic_module_to_asm_raises (module : ir_Module) (backend : string)
    (device_type : option string) (log : list event) e log' :
  _lower_mosaic_module_to_asm module backend device_type log = (inl e, log') ->
  lowering_error e.
Proof.
  unfold _lower_mosaic_module_to_asm.
  destruct (private_has_communication module) as [hc0 hb0].
  destruct (negb (truthy device_type) && _MOSAIC_USE_PYTHON_PIPELINE).
  - unfold lbind at 1 2 3, llift.
    destruct (jax_devices backend) as [[kind others] | ]; [ | now intros [= <- _]].
    destruct (hardware_generation_of kind) as [e0 | g] eqn:Hg.
    + intros [= <- _]. unfold hardware_generation_of, rbind, raise_if in Hg.
      destruct (negb (Py.startswith kind "TPU v")); [now injection Hg as <- | ].
      destruct (String.get _ kind) as [c | ]; [ | now injection Hg as <-].
      unfold Py.int_of_char in Hg.
      destruct (_ && _) in Hg; [discriminate | now injection Hg as <-].
    + unfold lbind at 1.
      destruct (_lower_tpu_kernel (parse_asm module) g log) as [[e0 | lowered] log1]
        eqn:Hk.
      * intros [= <- _].
        apply lower_tpu_kernel_raises in Hk as [done [rest [_ [_ Hf]]]].
        now apply (failure_lowering _ done).
      * unfold lret at 1. unfold lbind. rewrite run_pipeline_spec.
        destruct (pass_manager_run _ lowered); [discriminate | ].
        now intros [= <- _].
  - rewrite lbind_lret. unfold lbind. rewrite run_pipeline_spec.
    destruct (pass_manager_run _ (parse_asm module)); [discriminate | ].
    now intros [= <- _].
Qed.

End SerializationFacts.

Section LoweredConfigFacts.

Context {R : Runtime}.

(** The pipelines a call of [_lower_mosaic_module_to_asm] that returns has
    run. *)
Lemma lower_mosaic_module_to_asm_trace (module : ir_Module) (backend : string)
    (device_type : option string) (log : list event) asm hc hb nh nl log' :
  _lower_mosaic_module_to_asm module backend device_type log
  = (inr (asm, (hc, hb, nh, nl)), log') ->
  exists lowering,
    ran log' = (ran log ++ lowering ++ [serde_pipeline])%list
    /\ (eager_lowering device_type = false -> lowering = [])
    /\ (eager_lowering device_type = true ->
        exists device_kind others g,
          jax_devices backend = Some (device_kind, others)
          /\ hardware_generation_of device_kind = inr g
          /\ lowering = pipelines_of (stage_catalog g)).
Proof.
  intros H.
  apply lower_mosaic_module_to_asm_returns in H
    as [_ [lowered [log1 [final [Hpath [_ [-> _]]]]]]].
  destruct (eager_lowering device_type).
  - destruct Hpath as [kind [others [g [Hdev [Hg [Hk _]]]]]].
    exists (pipelines_of (stage_catalog g)).
    split; [ | split; [discriminate | ]].
    + rewrite ran_app. simpl.
      apply lower_tpu_kernel_ran in Hk. rewrite Hk.
      now rewrite <- app_assoc.
    + intros _. now exists kind, others, g.
  - destruct Hpath as [_ [-> _]]. exists [].
    split; [ | split; [reflexivity | discriminate]].
    now rewrite ran_app.
Qed.


(** What a call of [_lower_to_custom_call_config] that returns has built. *)
Lemma lower_to_custom_call_config_returns (module : ir_Module) (backend : string)
    device_type vmem cost flags fusion scratch cid sformat log config log' :
  _lower_to_custom_call_config module backend device_type vmem cost flags
    fusion scratch cid sformat log = (inr config, log') ->
  exists asm hc hb nh nl limit,
    _lower_mosaic_module_to_asm module backend device_type log
    = (inr (asm, (hc, hb, nh, nl)), log')
    /\ hb = negb (is_none cid)
    /\ vmem = option_map AnInt limit
    /\ config = {|
         CustomCallBackendConfig.lowered_module_asm := asm;
         CustomCallBackendConfig.has_communication := hc;
         CustomCallBackendConfig.collective_id := cid;
         CustomCallBackendConfig.device_type := device_type;
         CustomCallBackendConfig.cost_estimate := cost;
         CustomCallBackendConfig.needs_hlo_passes := nh;
         CustomCallBackendConfig.needs_layout_passes := nl;
         CustomCallBackendConfig.vmem_limit_bytes := limit;
         CustomCallBackendConfig.flags := flags;
         CustomCallBackendConfig.allow_input_fusion := fusion;
         CustomCallBackendConfig.serialization_format := sformat;
         CustomCallBackendConfig.internal_scratch_in_bytes := scratch
       |}.
Proof.
  unfold _lower_to_custom_call_config, lbind.
  destruct (_lower_mosaic_module_to_asm module backend device_type log)
    as [[e | [asm [[[hc hb] nh] nl]]] log1]; [discriminate | ].
  unfold llift, _lowered_to_custom_call_config.
  destruct hb, cid as [id | ]; cbn [is_none negb raise_if rbind]; try discriminate;
    destruct vmem as [[n | value] | ]; cbn [rbind]; try discriminate;
    intros [= <- <-]; exists asm, hc; eexists _, nh, nl;
    first [exists (Some n) | exists (@None Z)];
    (split; [reflexivity | split; [reflexivity | split; reflexivity]]).
Qed.

(** The four fields of a returned config that the module and the path of
    the lowering decide. *)
Lemma lowered_config_flags (module : ir_Module) (backend : string)
    device_type vmem cost flags fusion scratch cid sformat log config log' :
  _lower_to_custom_call_config module backend device_type vmem cost flags
    fusion scratch cid sformat log = (inr config, log') ->
  (is_none config.(CustomCallBackendConfig.collective_id)
   = negb (snd (private_has_communication module)))
  /\ config.(CustomCallBackendConfig.has_communication)
     = fst (private_has_communication module)
  /\ config.(CustomCallBackendConfig.needs_layout_passes)
     = negb (truthy device_type) && negb _MOSAIC_USE_PYTHON_PIPELINE
  /\ config.(CustomCallBackendConfig.needs_hlo_passes)
     = _MOSAIC_ALLOW_HLO && negb (eager_lowering device_type).
Proof.
  intros H.
  apply lower_to_custom_call_config_returns in H
    as [asm [hc [hb [nh [nl [limit [Hasm [Hb [_ ->]]]]]]]]].
  apply lower_mosaic_module_to_asm_returns in Hasm
    as [Hcomm [lowered [log1 [final [Hpath _]]]]].
  cbn [CustomCallBackendConfig.has_communication
       CustomCallBackendConfig.collective_id
       CustomCallBackendConfig.needs_hlo_passes
       CustomCallBackendConfig.needs_layout_passes].
  rewrite <- Hcomm. cbn [fst snd].
  split; [rewrite Hb; now destruct cid | ].
  split; [reflexivity | ].
  unfold eager_lowering in *.
  destruct (truthy device_type), _MOSAIC_USE_PYTHON_PIPELINE; cbn [negb andb] in *.
  - destruct Hpath as [_ [_ [-> ->]]]. now rewrite andb_true_r.
  - destruct Hpath as [_ [_ [-> ->]]]. now rewrite andb_true_r.
  - destruct Hpath as [kind [others [g [_ [_ [_ [-> ->]]]]]]].
    now rewrite andb_false_r.
  - destruct Hpath as [_ [_ [-> ->]]]. now rewrite andb_true_r.
Qed.

(** X19. A config that [_lower_to_custom_call_config] returns keeps the
    collective-barrier invariant against the module itself: its
    [collective_id] is set exactly when the module has a custom barrier.
    Its [has_communication] is the module's, its [needs_layout_passes] holds
    only when the lowering was deferred for want of a device type, its
    [needs_hlo_passes] only when the lowering was deferred and the HLO
    dialects are allowed, and the other fields are the arguments given;
    [vmem_limit_bytes] is then [None] or an [int]. *)
Theorem lower_to_custom_call_config_fields :
  forall (module : ir_Module) (backend : string) device_type vmem cost flags
         fusion scratch cid sformat log config log',
    _lower_to_custom_call_config module backend device_type vmem cost flags
      fusion scratch cid sformat log = (inr config, log') ->
    (is_none config.(CustomCallBackendConfig.collective_id)
     = negb (snd (private_has_communication module)))
    /\ config.(CustomCallBackendConfig.has_communication)
       = fst (private_has_communication module)
    /\ config.(CustomCallBackendConfig.needs_layout_passes)
       = negb (truthy device_type) && negb _MOSAIC_USE_PYTHON_PIPELINE
    /\ config.(CustomCallBackendConfig.needs_hlo_passes)
       = _MOSAIC_ALLOW_HLO && negb (eager_lowering device_type)
    /\ config.(CustomCallBackendConfig.collective_id) = cid
    /\ config.(CustomCallBackendConfig.device_type) = device_type
    /\ config.(CustomCallBackendConfig.cost_estimate) = cost
    /\ option_map AnInt config.(CustomCallBackendConfig.vmem_limit_bytes) = vmem
    /\ config.(CustomCallBackendConfig.flags) = flags
    /\ config.(CustomCallBackendConfig.allow_input_fusion) = fusion
    /\ config.(CustomCallBackendConfig.serialization_format) = sformat
    /\ config.(CustomCallBackendConfig.internal_scratch_in_bytes) = scratch.
Proof.
  intros module backend device_type vmem cost flags fusion scratch cid sformat
         log config log' H.
  destruct (lowered_config_flags _ _ _ _ _ _ _ _ _ _ _ _ _ H)
    as [Hcid [Hcomm [Hlayout Hhlo]]].
  apply lower_to_custom_call_config_returns in H
    as [asm [hc [hb [nh [nl [limit [_ [_ [-> ->]]]]]]]]].
  split; [exact Hcid | ]. split; [exact Hcomm | ].
  split; [exact Hlayout | ]. split; [exact Hhlo | ].
  cbn [CustomCallBackendConfig.collective_id
       CustomCallBackendConfig.device_type
       CustomCallBackendConfig.cost_estimate
       CustomCallBackendConfig.vmem_limit_bytes
       CustomCallBackendConfig.flags
       CustomCallBackendConfig.allow_input_fusion
       CustomCallBackendConfig.serialization_format
       CustomCallBackendConfig.internal_scratch_in_bytes].
  now repeat split.
Qed.

(** X20. The payload of a config that [_lower_to_custom_call_config] returns,
    for flag names without a double quote: the key [collective_id] is there
    exactly when the module has a custom barrier, [has_communication] when
    the module communicates, [needs_layout_passes] when no device type was
    given and the lowering was left to the compiler, [needs_hlo_passes] when
    the HLO dialects are allowed and the lowering was deferred, and
    [device_type] when a device type was given, the empty one too. *)
Theorem lowered_config_payload_keys :
  forall (module : ir_Module) (backend : string) device_type vmem cost flags
         fusion scratch cid sformat log config log' payload,
    _lower_to_custom_call_config module backend device_type vmem cost flags
      fusion scratch cid sformat log = (inr config, log') ->
    flag_names_plain config = true ->
    CustomCallBackendConfig.to_json config = inr payload ->
    (has_key "collective_id" payload
     <-> snd (private_has_communication module) = true)
    /\ (has_key "has_communication" payload
        <-> fst (private_has_communication module) = true)
    /\ (has_key "needs_layout_passes" payload
        <-> truthy device_type = false /\ _MOSAIC_USE_PYTHON_PIPELINE = false)
    /\ (has_key "needs_hlo_passes" payload
        <-> _MOSAIC_ALLOW_HLO = true /\ eager_lowering device_type = false)
    /\ (has_key "device_type" payload <-> device_type <> None).
Proof.
  intros module backend device_type vmem cost flags fusion scratch cid sformat
         log config log' payload H Hplain Hout.
  destruct (lowered_config_flags _ _ _ _ _ _ _ _ _ _ _ _ _ H)
    as [Hcid [Hcomm [Hlayout Hhlo]]].
  apply lower_to_custom_call_config_returns in H
    as [asm [hc [hb [nh [nl [limit [_ [_ [_ Hconfig]]]]]]]]].
  pose proof (key_presence collective_id_field config payload Hout Hplain) as K1.
  pose proof (key_presence has_communication_field config payload Hout Hplain) as K2.
  pose proof (key_presence needs_layout_passes_field config payload Hout Hplain) as K3.
  pose proof (key_presence needs_hlo_passes_field config payload Hout Hplain) as K4.
  pose proof (key_presence device_type_field config payload Hout Hplain) as K5.
  cbn [key_of guard source_is_none] in K1, K2, K3, K4, K5.
  rewrite K1, K2, K3, K4, K5, Hcid, Hcomm, Hlayout, Hhlo.
  split; [now rewrite negb_involutive | ]. split; [reflexivity | ].
  split; [now rewrite andb_true_iff, !negb_true_iff | ].
  split; [now rewrite andb_true_iff, negb_true_iff | ].
  subst config. cbn [CustomCallBackendConfig.device_type].
  destruct device_type; cbn [is_none negb]; split; intros H;
    first [discriminate | reflexivity | now destruct H].
Qed.

(** What a call of [_lower_to_custom_call_config] can raise. *)
Lemma lower_to_custom_call_config_raises (module : ir_Module) (backend : string)
    device_type vmem cost flags fusion scratch cid sformat log e log' :
  _lower_to_custom_call_config module backend device_type vmem cost flags
    fusion scratch cid sformat log = (inl e, log') ->
  lowering_error e.
Proof.
  unfold _lower_to_custom_call_config, lbind.
  destruct (_lower_mosaic_module_to_asm module backend device_type log)
    as [[e0 | [asm [[[hc hb] nh] nl]]] log1] eqn:Hasm.
  - intros [= <- _]. now apply lower_mosaic_module_to_asm_raises in Hasm.
  - unfold llift, _lowered_to_custom_call_config.
    destruct hb, cid as [id | ]; cbn [is_none negb raise_if rbind];
      try (now intros [= <- _]);
      destruct vmem as [[n | value] | ]; cbn [rbind];
      first [discriminate | now intros [= <- _]].
Qed.

(** X21. [lower_module_to_custom_call] lowers first and checks the
    partitioning after, and encodes last.  A call it returns was emitted
    from the config the lowering built, the partitioning check having
    passed: it carries the payload of that config and the kernel name as
    its one extra attribute, and the trace ends with the serialization
    pipeline.  An exception is the exception of the lowering, with no
    config built; or the config was built, the trace ends with the
    serialization pipeline, and the exception is the [NotImplementedError]
    of a refused partitioning or, the partitioning check having passed, the
    exception of the encoder.  What the lowering raises is [ValueError],
    [IndexError], [MLIRError], the [RuntimeError] of the device lookup or
    what a dump raised. *)
Theorem lower_module_to_custom_call_lowers_first :
  forall ctx in_nodes (module : ir_Module) out_type backend kernel_name cost
         vmem flags fusion aliases scratch cid sformat device_type log r log',
    lower_module_to_custom_call ctx in_nodes module out_type backend
      kernel_name cost vmem flags fusion aliases scratch cid sformat
      device_type log = (r, log') ->
    let lowering :=
      _lower_to_custom_call_config module backend device_type vmem cost flags
        fusion scratch cid sformat log in
    let lowered config :=
      lowering = (inr config, log')
      /\ exists pipelines,
           ran log' = (ran log ++ pipelines ++ [serde_pipeline])%list in
    (forall call, r = inr call ->
       exists config,
         lowered config
         /\ partitioning_ok ctx config = true
         /\ CustomCallBackendConfig.to_json config = inr call.(backend_config)
         /\ call.(extra_attributes) = Some [("kernel_name", kernel_name)])
    /\ (forall e, r = inl e ->
          (lowering = (inl e, log') /\ lowering_error e)
          \/ exists config,
               lowered config
               /\ if partitioning_ok ctx config
                  then CustomCallBackendConfig.to_json config = inl e
                  else exists msg, e = NotImplementedError msg).
Proof.
  intros ctx in_nodes module out_type backend kernel_name cost vmem flags
         fusion aliases scratch cid sformat device_type log r log' H.
  cbv zeta. unfold lower_module_to_custom_call, lbind in H.
  destruct (_lower_to_custom_call_config module backend device_type vmem cost
              flags fusion scratch cid sformat log) as [[e0 | config] log1] eqn:Hc.
  - injection H as <- <-. split; [discriminate | ].
    intros e [= <-]. left. split; [reflexivity | ].
    now apply lower_to_custom_call_config_raises in Hc.
  - unfold llift in H. injection H as <- <-.
    assert (Htrace : exists pipelines,
              ran log1 = (ran log ++ pipelines ++ [serde_pipeline])%list).
    { apply lower_to_custom_call_config_returns in Hc
        as [asm [hc [hb [nh [nl [limit [Hasm _]]]]]]].
      apply lower_mosaic_module_to_asm_trace in Hasm as [lowering [Hran _]].
      now exists lowering. }
    unfold _tpu_custom_call_lowering.
    match goal with |- context [rbind _ ?rest] =>
      destruct (partitioning_check ctx config rest) as [msg ->]
    end.
    destruct (partitioning_ok ctx config) eqn:Hp.
    + unfold rbind.
      destruct (CustomCallBackendConfig.to_json config) as [e | payload] eqn:Hout.
      * split; [discriminate | ]. intros e' [= <-]. right. exists config.
        split; [now split | ]. now rewrite Hp.
      * split; [ | discriminate]. intros call [= <-]. exists config.
        split; [now split | ]. now repeat split.
    + split; [discriminate | ]. intros e [= <-]. right. exists config.
      split; [now split | ]. rewrite Hp. now exists msg.
Qed.

End LoweredConfigFacts.


Lemma lower_to_custom_call_config_fields_witness :
  exists config log',
    @_lower_to_custom_call_config (example_runtime "" (Some ("TPU v4", [])) true)
      [] "tpu" (Some "tc") (Some (AnInt 1024)) None None None None None
      (Some 1%Z) []
    = (inr config, log')
    /\ config.(CustomCallBackendConfig.needs_layout_passes) = false
    /\ config.(CustomCallBackendConfig.collective_id) = None
    /\ option_map AnInt config.(CustomCallBackendConfig.vmem_limit_bytes)
       = Some (AnInt 1024).
Proof.
  eexists. eexists. split; [lazy; reflexivity | ].
  destruct (@lower_to_custom_call_config_fields
              (example_runtime "" (Some ("TPU v4", [])) true)
              [] "tpu" (Some "tc") (Some (AnInt 1024)) None None None None None
              (Some 1%Z) [] _ _ eq_refl) as [_ [_ [Hl [_ [Hc [_ [_ [Hv _]]]]]]]].
  split; [exact Hl | ]. split; [exact Hc | exact Hv].
Defined.

Lemma lowered_config_payload_keys_witness :
  exists config log' payload,
    @_lower_to_custom_call_config (example_runtime "" (Some ("TPU v4", [])) true)
      [] "tpu" (Some "tc") None None None None None None (Some 1%Z) []
    = (inr config, log')
    /\ flag_names_plain config = true
    /\ CustomCallBackendConfig.to_json config = inr payload
    /\ (has_key "device_type" payload <-> Some "tc" <> None).
Proof.
  eexists. eexists. eexists. split; [lazy; reflexivity | ].
  split; [lazy; reflexivity | ]. split; [lazy; reflexivity | ].
  apply (@lowered_config_payload_keys
           (example_runtime "" (Some ("TPU v4", [])) true)
           [] "tpu" (Some "tc") None None None None None None (Some 1%Z) []
           _ _ _ eq_refl eq_refl eq_refl).
Defined.

Lemma lower_module_to_custom_call_lowers_first_witness :
  exists r log',
    @lower_module_to_custom_call (example_runtime "" (Some ("TPU v4", [])) true)
      manual_context [0%nat] [] [{| shape := [Some 8%Z; Some 128%Z] |}] "tpu"
      "kernel" None None None None [] None None (Some 1%Z) None []
    = (r, log')
    /\ forall call, r = inr call ->
         exists config,
           (@_lower_to_custom_call_config
              (example_runtime "" (Some ("TPU v4", [])) true) []
              "tpu" None None None None None None None (Some 1%Z) []
            = (inr config, log')
            /\ exists pipelines,
                 ran log' = (ran [] ++ pipelines ++ [serde_pipeline])%list)
           /\ partitioning_ok manual_context config = true
           /\ CustomCallBackendConfig.to_json config = inr call.(backend_config)
           /\ call.(extra_attributes) = Some [("kernel_name", "kernel")].
Proof.
  eexists. eexists. split; [lazy; reflexivity | ].
  apply (@lower_module_to_custom_call_lowers_first
           (example_runtime "" (Some ("TPU v4", [])) true)
           manual_context [0%nat] [] [{| shape := [Some 8%Z; Some 128%Z] |}]
           "tpu" "kernel" None None None None [] None None (Some 1%Z) None []
           _ _ eq_refl).
Defined.

(* ===================================================================== *)
(** * The kernel as a JAX callable                                         *)
(* ===================================================================== *)

(** X22. The callable of [_as_jax_callable] asks the primitive for one
    output per type of [out_type], with the shape and dtype of the type, in
    order.  Over a [bind] that returns as many arrays as the abstract
    evaluation names, [apply_kernel] never raises: for a single type it
    returns the one array, the first of the result, and for an iterable of
    types the whole result, one array per type, also when the iterable has
    one type. *)
Theorem as_jax_callable_results :
  forall (array : Type) (bind : list array -> bind_params -> list array)
         config out_type kernel_name aliases (args : list array),
    (forall args params,
        List.length (bind args params)
        = List.length (_tpu_custom_call_abstract_eval params)) ->
    let callable := _as_jax_callable config out_type kernel_name aliases in
    let result := bind args callable.(callable_params) in
    match out_type with
    | OneType ty =>
        callable.(callable_params).(bind_out_avals)
        = [{| sa_shape := ty.(sds_shape); sa_dtype := ty.(sds_dtype) |}]
        /\ exists first,
             result = [first]
             /\ apply_kernel bind callable args = inr (inl first)
    | ManyTypes tys =>
        List.length callable.(callable_params).(bind_out_avals) = List.length tys
        /\ (forall i ty, nth_error tys i = Some ty ->
              nth_error callable.(callable_params).(bind_out_avals) i
              = Some {| sa_shape := ty.(sds_shape); sa_dtype := ty.(sds_dtype) |})
        /\ List.length result = List.length tys
        /\ apply_kernel bind callable args = inr (inr result)
    end.
Proof.
  intros array bind config out_type kernel_name aliases args Hbind. cbv zeta.
  destruct out_type as [ty | tys]; unfold _as_jax_callable, apply_kernel;
    cbn [callable_params callable_unpack bind_out_avals].
  - split; [reflexivity | ].
    match goal with |- context [bind args ?p] =>
      pose proof (Hbind args p) as Hlen; destruct (bind args p) as [|first rest]
    end; [discriminate | ].
    destruct rest; [ | discriminate]. now exists first.
  - split; [apply length_map | ]. split.
    + intros i ty Hi. now rewrite nth_error_map, Hi.
    + split; [ | reflexivity].
      rewrite Hbind. unfold _tpu_custom_call_abstract_eval.
      cbn [bind_out_avals]. apply length_map.
Qed.

Section KernelFacts.

Context {R : Runtime}.

(** X23. [as_tpu_kernel] with every keyword at its default cannot make a
    kernel of a module with a custom barrier, for want of a collective id:
    whatever it raises is a lowering error.  A kernel it returns has a
    config with no device type and the serialization format 1, which
    always encodes, with [serialization_format] written as [1]. *)
Theorem as_tpu_kernel_by_default_config :
  forall (module : ir_Module) (out_type : out_types) (log : list event) r log',
    as_tpu_kernel_by_default module out_type log = (r, log') ->
    match r with
    | inl e => lowering_error e
    | inr callable =>
        let config := callable.(callable_params).(bind_config) in
        snd (private_has_communication module) = false
        /\ config.(CustomCallBackendConfig.serialization_format) = Some 1%Z
        /\ config.(CustomCallBackendConfig.device_type) = None
        /\ callable.(callable_params).(bind_kernel_name) = None
        /\ exists payload,
             CustomCallBackendConfig.to_json config = inr payload
             /\ occurs (b ", 'serialization_format': 1") payload
    end.
Proof.
  intros module out_type log r log'.
  unfold as_tpu_kernel_by_default, as_tpu_kernel, lbind.
  destruct (_lower_to_custom_call_config module "tpu" None None None None None
              None None (Some 1%Z) log) as [[e | config] log1] eqn:Hc.
  - intros [= <- _]. now apply lower_to_custom_call_config_raises in Hc.
  - unfold lret. intros [= <- _].
    destruct (lowered_config_flags _ _ _ _ _ _ _ _ _ _ _ _ _ Hc) as [Hcid _].
    apply lower_to_custom_call_config_returns in Hc
      as [asm [hc [hb [nh [nl [limit [_ [_ [Hlimit ->]]]]]]]]].
    destruct limit; [discriminate Hlimit | clear Hlimit].
    cbn [CustomCallBackendConfig.collective_id is_none] in Hcid.
    destruct out_type as [ty | tys]; cbv zeta;
      cbn [_as_jax_callable callable_params bind_config bind_kernel_name
           CustomCallBackendConfig.serialization_format
           CustomCallBackendConfig.device_type];
      (split; [now destruct (snd (private_has_communication module)) | ]);
      (split; [reflexivity | ]); (split; [reflexivity | ]);
      (split; [reflexivity | ]).
    all: match goal with |- context [CustomCallBackendConfig.to_json ?c] =>
           assert (He : encodable c = true) by reflexivity;
           rewrite <- returns_to_json_writes, <- to_json_returns in He;
           destruct He as [payload He]; exists payload; split; [exact He | ];
           apply to_json_writes_of in He; revert payload He
         end.
    all: unfold CustomCallBackendConfig.to_json_writes;
      cbn [CustomCallBackendConfig.serialization_format];
      do 7 skip_write; this_block;
      apply key_lower_int_written in H as ->; apply occurs_whole.
Qed.

(** X24. [lowered_as_tpu_kernel] with every keyword at its default never
    raises and runs no pipeline: the module text is taken as it is, and the
    config of the kernel encodes to the smallest payload there is, the body
    and the sharding marker. *)
Theorem lowered_as_tpu_kernel_by_default_payload :
  forall (get_asm : ir_Module -> bytes) (lowered_module : ir_Module)
         (out_type : out_types),
    exists callable,
      lowered_as_tpu_kernel_by_default get_asm lowered_module out_type
      = inr callable
      /\ callable.(callable_params).(bind_config).(CustomCallBackendConfig.lowered_module_asm)
         = get_asm lowered_module
      /\ CustomCallBackendConfig.to_json callable.(callable_params).(bind_config)
         = inr (b "{'custom_call_config': {'body': '"
                ++ base64.b64encode (get_asm lowered_module)
                ++ b "'}, 'implicit_sharding': {'type': 'MANUAL'}}").
Proof.
  intros get_asm lowered_module out_type.
  unfold lowered_as_tpu_kernel_by_default, lowered_as_tpu_kernel.
  cbn [_lowered_to_custom_call_config raise_if is_none negb rbind].
  eexists. split; [reflexivity | ].
  destruct out_type as [ty | tys];
    cbn [_as_jax_callable callable_params bind_config
         CustomCallBackendConfig.lowered_module_asm];
    (split; [reflexivity | ]);
    unfold CustomCallBackendConfig.to_json, CustomCallBackendConfig.to_json_writes;
    cbn [CustomCallBackendConfig.lowered_module_asm
         CustomCallBackendConfig.has_communication
         CustomCallBackendConfig.collective_id
         CustomCallBackendConfig.device_type
         CustomCallBackendConfig.cost_estimate
         CustomCallBackendConfig.needs_hlo_passes
         CustomCallBackendConfig.needs_layout_passes
         CustomCallBackendConfig.vmem_limit_bytes
         CustomCallBackendConfig.flags
         CustomCallBackendConfig.allow_input_fusion
         CustomCallBackendConfig.serialization_format
         CustomCallBackendConfig.internal_scratch_in_bytes
         when when_some bind write ret getvalue];
    reflexivity.
Qed.

End KernelFacts.

Lemma as_jax_callable_results_witness :
  exists first,
    (fun (args : list nat) (params : bind_params) =>
       map (fun _ => 7%nat) params.(bind_out_avals))
      [1%nat]
      (_as_jax_callable minimal_config
         (OneType {| sds_shape := [Some 8%Z]; sds_dtype := "float32" |})
         None []).(callable_params)
    = [first]
    /\ apply_kernel
         (fun (args : list nat) (params : bind_params) =>
            map (fun _ => 7%nat) params.(bind_out_avals))
         (_as_jax_callable minimal_config
            (OneType {| sds_shape := [Some 8%Z]; sds_dtype := "float32" |})
            None [])
         [1%nat]
       = inr (inl first).
Proof.
  apply (as_jax_callable_results nat
           (fun (args : list nat) (params : bind_params) =>
              map (fun _ => 7%nat) params.(bind_out_avals))
           minimal_config
           (OneType {| sds_shape := [Some 8%Z]; sds_dtype := "float32" |})
           None [] [1%nat]).
  intros args params. apply length_map.
Defined.

Lemma as_tpu_kernel_by_default_config_witness :
  exists callable log',
    @as_tpu_kernel_by_default (example_runtime "" (Some ("TPU v4", [])) true) []
      (OneType {| sds_shape := [Some 8%Z]; sds_dtype := "float32" |}) []
    = (inr callable, log')
    /\ callable.(callable_params).(bind_config).(CustomCallBackendConfig.serialization_format)
       = Some 1%Z.
Proof.
  eexists. eexists. split; [lazy; reflexivity | ].
  apply (@as_tpu_kernel_by_default_config
           (example_runtime "" (Some ("TPU v4", [])) true) []
           (OneType {| sds_shape := [Some 8%Z]; sds_dtype := "float32" |}) []
           (inr _) _ eq_refl).
Defined.
